(** * bruh-thalyzer: the MQ3 sensor pipeline and the button state machine

    A shallow embedding of [src/main.py] (the concatenated MicroPython
    modules config.py, hardware.py, sensor.py, logging.py and main.py) and
    of the mock of [src/test_sensor.py].

    Modelling choices, all of them visible in the definitions below:
    - a Python float is a real number ([R]); rounding is not modelled, a
      division by zero and a [math.pow] domain error are faults; the range
      of the doubles (overflow, underflow to 0.0) is added to [math.pow] in
      [math_pow_double], for the statements that depend on it;
    - [utime.time()] is MicroPython's whole number of seconds; the clock is
      kept in milliseconds and advanced by [utime.sleep] only (computing
      takes no time);
    - the ADC and the button are inputs: a stream of samples consumed one
      per [read()], and the button level as a function of time;
    - every effect of the program (a sample read, a [display_message] call,
      a log line, a sleep, an assignment to [state]) is appended to a trace
      together with the value of [state] at that moment.

    The development has three layers: equations for the operations that do
    not fault; Hoare triples over the monad, for what holds in every run
    (faults included) and for the runs without a fault; and a controller
    without the sensor, which the loop refines on good samples and which
    computes the runs of the scenarios. Numerical values of the sensor law
    are enclosed by integer computations of [exp] and [ln].

    After the claims, a last part covers more of the code: the button poll
    by poll, the calibration and the warm-up with their error path, the
    window as a queue, and a second pass of triples for what holds in every
    run from the start of [main()]: the stamps, the range of r0, the range
    of the doubles, and where a run can fault. *)

From Stdlib Require Import Reals Lra Lia ZArith List String Ascii Bool.
Import ListNotations.

Open Scope string_scope.
Open Scope list_scope.
Open Scope R_scope.

(** ** config.py *)

Module Config.
Definition AIR_R0_RATIO : R := 60.0.
Definition WARM_UP_TIME : Z := 20.
Definition NUM_CALIBRATION_READINGS : Z := 10.
Definition LONG_PRESS_TIME : Z := 3.
Definition LOG_LEVEL : Z := 20.
End Config.
Import Config.

(** ** Data *)

(** [class State]: OFF = 0, ON = 1, CALIBRATING = 2. *)
Inductive State : Type := OFF | ON | CALIBRATING.

Definition State_eqb (a b : State) : bool :=
  match a, b with
  | OFF, OFF | ON, ON | CALIBRATING, CALIBRATING => true
  | _, _ => false
  end.

(** A message: a literal, or an f-string with one formatted float,
    [f"{before}{value:format}{after}"]. *)
Inductive Text : Type :=
| Lit (s : string)
| Fmt (before : string) (value : R) (format after : string).

Inductive Event : Type :=
| Read (value : Z)                                   (* hardware.mq3_pin.read() *)
| Display (message : Text) (x y : Z) (clear : bool)  (* hardware.display_message(...) *)
| Log (level : Z) (message : Text)                   (* log(level, message) *)
| Sleep (ms : Z)                                     (* utime.sleep(ms / 1000) *)
| Assign (s : State).                                (* state = s, in main() *)

Inductive Exn : Type := ZeroDivisionError | ValueError | OverflowError.

Record World : Type := mkWorld {
  (* the environment *)
  adc_signal : nat -> Z;         (* the n-th value mq3_pin.read() returns *)
  adc_reads : nat;               (* how many have been read *)
  button_signal : Z -> bool;     (* button.value() == 0 at a time in ms *)
  clock : Z;                     (* ms *)
  (* Hardware *)
  button_press_time : Z;
  (* MQ3Sensor *)
  r0 : R;
  readings : list R;
  (* locals of main() *)
  state : State;
  last_reading_time : Z;
  (* what has happened so far, oldest first *)
  trace : list (State * Event)
}.

Definition set_adc_reads (n : nat) (w : World) : World :=
  mkWorld (adc_signal w) n (button_signal w) (clock w) (button_press_time w)
          (r0 w) (readings w) (state w) (last_reading_time w) (trace w).
Definition set_clock (t : Z) (w : World) : World :=
  mkWorld (adc_signal w) (adc_reads w) (button_signal w) t (button_press_time w)
          (r0 w) (readings w) (state w) (last_reading_time w) (trace w).
Definition set_button_press_time (t : Z) (w : World) : World :=
  mkWorld (adc_signal w) (adc_reads w) (button_signal w) (clock w) t
          (r0 w) (readings w) (state w) (last_reading_time w) (trace w).
Definition set_r0 (r : R) (w : World) : World :=
  mkWorld (adc_signal w) (adc_reads w) (button_signal w) (clock w) (button_press_time w)
          r (readings w) (state w) (last_reading_time w) (trace w).
Definition set_readings (l : list R) (w : World) : World :=
  mkWorld (adc_signal w) (adc_reads w) (button_signal w) (clock w) (button_press_time w)
          (r0 w) l (state w) (last_reading_time w) (trace w).
Definition set_state (s : State) (w : World) : World :=
  mkWorld (adc_signal w) (adc_reads w) (button_signal w) (clock w) (button_press_time w)
          (r0 w) (readings w) s (last_reading_time w) (trace w).
Definition set_last_reading_time (t : Z) (w : World) : World :=
  mkWorld (adc_signal w) (adc_reads w) (button_signal w) (clock w) (button_press_time w)
          (r0 w) (readings w) (state w) t (trace w).
Definition set_trace (l : list (State * Event)) (w : World) : World :=
  mkWorld (adc_signal w) (adc_reads w) (button_signal w) (clock w) (button_press_time w)
          (r0 w) (readings w) (state w) (last_reading_time w) l.

(** ** The monad: state, trace and faults *)

Inductive Outcome (A : Type) : Type :=
| Ok (a : A) (w : World)
| Fault (e : Exn) (w : World).
Arguments Ok {A} a w.
Arguments Fault {A} e w.

Definition M (A : Type) : Type := World -> Outcome A.

Definition ret {A} (a : A) : M A := fun w => Ok a w.

Definition bind {A B} (m : M A) (k : A -> M B) : M B :=
  fun w => match m w with
           | Ok a w' => k a w'
           | Fault e w' => Fault e w'
           end.

Definition raise {A} (e : Exn) : M A := fun w => Fault e w.

Notation "x <- m ;; k" := (bind m (fun x => k))
  (at level 61, m at next level, right associativity).
Notation "m ;; k" := (bind m (fun _ => k))
  (at level 61, right associativity).

Definition gets {A} (f : World -> A) : M A := fun w => Ok (f w) w.
Definition modify (f : World -> World) : M unit := fun w => Ok tt (f w).

Definition emit (e : Event) : M unit :=
  modify (fun w => set_trace (trace w ++ [(state w, e)]) w).

(** [for i in range(n): acc = body(i, acc)] *)
Fixpoint for_each {A} (l : list nat) (body : nat -> A -> M A) (acc : A) : M A :=
  match l with
  | [] => ret acc
  | i :: l' => acc' <- body i acc ;; for_each l' body acc'
  end.

Definition for_range {A} (n : Z) (body : nat -> A -> M A) (acc : A) : M A :=
  for_each (seq 0 (Z.to_nat n)) body acc.

(** Float division: Python raises ZeroDivisionError on a zero divisor. *)
Definition fdiv (a b : R) : M R :=
  if Req_dec_T b 0 then raise ZeroDivisionError else ret (a / b).

(** [math.pow(x, y)] on floats: a domain error (ValueError) for a zero base
    with a negative exponent and for a negative base with a fractional
    exponent. *)
Definition math_pow (x y : R) : M R :=
  if Rlt_dec 0 x then ret (Rpower x y)
  else if Req_dec_T y 0 then ret 1
  else if Req_dec_T x 0 then
         if Rlt_dec 0 y then ret 0 else raise ValueError
  else if Req_dec_T y (IZR (Int_part y)) then ret (powerRZ x (Int_part y))
  else raise ValueError.



(** ** utime and logging.py *)

Definition utime_time : M Z := gets (fun w => (clock w / 1000)%Z).

Definition utime_sleep (ms : Z) : M unit :=
  emit (Sleep ms) ;; modify (fun w => set_clock (clock w + ms)%Z w).

(** [log(level, message)]: the line is written when [level >= LOG_LEVEL];
    its timestamp is left out. *)
Definition log (level : Z) (message : Text) : M unit :=
  if (LOG_LEVEL <=? level)%Z then emit (Log level message) else ret tt.

(** ** hardware.py *)

Definition mq3_pin_read : M Z :=
  v <- gets (fun w => adc_signal w (adc_reads w)) ;;
  modify (fun w => set_adc_reads (S (adc_reads w)) w) ;;
  emit (Read v) ;;
  ret v.

(** [Hardware.display_message]: the call is what the trace records; the
    OLED driver behind it is outside the model. *)
Definition display_message (message : Text) (x y : Z) (clear : bool) : M unit :=
  emit (Display message x y clear).

Definition button_pressed : M bool :=
  gets (fun w => button_signal w (clock w)).

Definition check_button : M Z :=
  pressed <- button_pressed ;;
  if pressed then
    bpt <- gets button_press_time ;;
    (if (bpt =? 0)%Z
     then now <- utime_time ;; modify (set_button_press_time now)
     else ret tt) ;;
    now <- utime_time ;;
    bpt' <- gets button_press_time ;;
    ret (now - bpt')%Z
  else
    bpt <- gets button_press_time ;;
    press_duration <- (if (0 <? bpt)%Z
                       then now <- utime_time ;; ret (now - bpt)%Z
                       else ret 0%Z) ;;
    modify (set_button_press_time 0) ;;
    ret press_duration.

(** ** sensor.py *)

Definition max_readings : nat := 10.

Definition _calculate_rs : M R :=
  sensor_value <- mq3_pin_read ;;
  let sensor_volt := IZR sensor_value * (3.3 / 4095.0) in
  q <- fdiv (3.3 * 1000.0) sensor_volt ;;
  ret (q - 1000.0).

Definition calibrate : M unit :=
  log 20 (Lit "Calibrating sensor...") ;;
  display_message (Lit "Calibrating...") 0 0 true ;;
  r0_sum <- for_range NUM_CALIBRATION_READINGS
              (fun _ r0_sum =>
                 rs <- _calculate_rs ;;
                 let r0_sum' := r0_sum + rs / AIR_R0_RATIO in
                 utime_sleep 100 ;;
                 ret r0_sum') 0 ;;
  modify (set_r0 (r0_sum / IZR NUM_CALIBRATION_READINGS)) ;;
  new_r0 <- gets r0 ;;
  log 20 (Fmt "Calibration complete. New R0: " new_r0 "" "") ;;
  display_message (Lit "Calibration done") 0 0 true ;;
  utime_sleep 2000.

(** ["." * i] *)
Fixpoint dots (i : nat) : string :=
  match i with
  | O => EmptyString
  | S i' => String "."%char (dots i')
  end.

Definition warm_up : M unit :=
  log 20 (Lit "Warming up the sensor...") ;;
  display_message (Lit "Warming up...") 0 0 true ;;
  for_range WARM_UP_TIME
    (fun i _ =>
       display_message (Lit (dots i)) 0 20 false ;;
       utime_sleep 1000) tt ;;
  calibrate.

(** The part of [read_raw_value_of_alcohol] after the resistance is known. *)
Definition alcohol_of_rs (rs : R) : M R :=
  r <- gets r0 ;;
  if Req_dec_T r 0 then ret 0
  else
    ratio <- fdiv rs r ;;
    p <- math_pow ratio (-1.43068) ;;
    ret (0.4 * p).

Definition read_raw_value_of_alcohol : M R :=
  rs <- _calculate_rs ;;
  alcohol_of_rs rs.


(** Python's [sum]: left to right, from 0. *)
Definition sum (l : list R) : R := fold_left Rplus l 0.

Definition get_smoothed_reading : M R :=
  raw <- read_raw_value_of_alcohol ;;
  modify (fun w => set_readings (readings w ++ [raw]) w) ;;
  l <- gets readings ;;
  (if (max_readings <? List.length l)%nat
   then modify (fun w => set_readings (tl (readings w)) w)
   else ret tt) ;;
  l' <- gets readings ;;
  fdiv (sum l') (INR (List.length l')).

Definition convert_raw_to_bac (raw : R) : R := raw * 0.2.
Definition convert_raw_to_gram_per_millilitre (raw : R) : R := raw * 0.002.
Definition convert_raw_to_ppm (raw : R) : R := raw * 500.0.

(** ** main.py *)

Definition reading_interval : Z := 1.

Definition assign_state (s : State) : M unit :=
  modify (set_state s) ;; emit (Assign s).

(** The body of [while True], in its three parts: the button branch
    ([if button_press_duration > 0: ...]), the reading branch
    ([if state == State.ON: ...]) and the closing sleep. *)
Definition handle_button (button_press_duration : Z) : M unit :=
  if (0 <? button_press_duration)%Z then
    if (LONG_PRESS_TIME <=? button_press_duration)%Z then
      st <- gets state ;;
      (if State_eqb st OFF then
         assign_state ON ;;
         warm_up ;;
         log 20 (Lit "Device turned ON")
       else
         assign_state OFF ;;
         log 20 (Lit "Device turned OFF")) ;;
      st' <- gets state ;;
      display_message (Lit (if State_eqb st' ON then "ON" else "OFF")) 0 0 true ;;
      utime_sleep 1000
    else
      st <- gets state ;;
      if State_eqb st ON && (button_press_duration <? LONG_PRESS_TIME)%Z then
        assign_state CALIBRATING ;;
        calibrate ;;
        assign_state ON
      else ret tt
  else ret tt.

Definition periodic_reading : M unit :=
  st <- gets state ;;
  if State_eqb st ON then
    current_time <- utime_time ;;
    last <- gets last_reading_time ;;
    if (reading_interval <=? current_time - last)%Z then
      raw_alcohol <- get_smoothed_reading ;;
      let ppm := convert_raw_to_ppm raw_alcohol in
      let bac := convert_raw_to_bac raw_alcohol in
      let g_per_ml := convert_raw_to_gram_per_millilitre raw_alcohol in
      log 20 (Fmt "Raw Alcohol: " raw_alcohol ".2f" " mg/L, ...") ;;
      display_message (Fmt "Raw: " raw_alcohol ".2f" " mg/L") 0 0 true ;;
      display_message (Fmt "PPM: " ppm ".0f" "") 0 16 false ;;
      display_message (Fmt "BAC: " bac ".2f" " %") 0 32 false ;;
      display_message (Fmt "g/mL: " g_per_ml ".4f" "") 0 48 false ;;
      modify (set_last_reading_time current_time)
    else ret tt
  else ret tt.

Definition loop_body : M unit :=
  button_press_duration <- check_button ;;
  handle_button button_press_duration ;;
  periodic_reading ;;
  utime_sleep 100.

(** [main()] cut after [n] turns of its loop. *)
Fixpoint main_loop (n : nat) : M unit :=
  match n with
  | O => ret tt
  | S n' => loop_body ;; main_loop n'
  end.

(** The world when [main()] enters its loop: [Hardware()], [MQ3Sensor(hw)],
    [state = State.OFF], [last_reading_time = 0]. *)
Definition boot (adc : nat -> Z) (button : Z -> bool) (t0 : Z) : World :=
  mkWorld adc 0 button t0 0 1.0 [] OFF 0 [].

(** ** test_sensor.py: MockHardware.mq3_pin_read *)

Definition mock_readings (l : list Z) : nat -> Z :=
  fun reading_index => nth (reading_index mod List.length l) l 0%Z.

(** The tests' loops: [for expected in expected_values: v = op(); ...]
    collects the successive results of [op]. *)
Fixpoint collect {A} (n : nat) (op : M A) : M (list A) :=
  match n with
  | O => ret []
  | S n' => v <- op ;; vs <- collect n' op ;; ret (v :: vs)
  end.

(** [approx_equal(a, b, tolerance)] *)
Definition approx_equal (a b tolerance : R) : Prop := Rabs (a - b) < tolerance.

(** [MockHardware.displayed_messages]: the messages of the
    [display_message] calls of a trace, in order. *)
Definition displayed (t : list (State * Event)) : list Text :=
  flat_map (fun se => match snd se with
                      | Display m _ _ _ => [m]
                      | _ => []
                      end) t.

(** The samples a trace has read, in order. *)
Definition sampled (t : list (State * Event)) : list Z :=
  flat_map (fun se => match snd se with
                      | Read v => [v]
                      | _ => []
                      end) t.

(** ** The spec's formulas and the worlds the operations lead to *)

Definition world_of {A} (o : Outcome A) : World :=
  match o with
  | Ok _ w => w
  | Fault _ w => w
  end.

(** The sample the next [read()] returns, and the one [i] reads later. *)
Definition next_sample (w : World) : Z := adc_signal w (adc_reads w).
Definition sample_at (w : World) (i : nat) : Z := adc_signal w (adc_reads w + i)%nat.

(** The resistance of a raw sample, as the spec writes it. *)
Definition resistance (s : Z) : R := (3.3 * 1000 / (IZR s * (3.3 / 4095))) - 1000.

(** The concentration of a resistance, as the spec writes it. *)
Definition concentration (rs r0 : R) : R := 0.4 * Rpower (rs / r0) (-1.43068).

Definition mean (l : list R) : R := sum l / INR (List.length l).

Definition emitW (e : Event) (w : World) : World :=
  set_trace (trace w ++ [(state w, e)]) w.

Definition readW (w : World) : World :=
  emitW (Read (next_sample w)) (set_adc_reads (S (adc_reads w)) w).

Definition sleepW (ms : Z) (w : World) : World :=
  set_clock (clock w + ms)%Z (emitW (Sleep ms) w).

(** The window after [raw] is appended: the oldest entry goes when the
    length exceeds [max_readings]. *)
Definition push_window (l : list R) (raw : R) : list R :=
  let l' := l ++ [raw] in
  if (max_readings <? List.length l')%nat then tl l' else l'.

(** The world after [n] turns of the calibration loop
    ([r0_sum += self._calculate_rs() / AIR_R0_RATIO; utime.sleep(0.1)]). *)
Fixpoint calibration_reads (n : nat) (w : World) : World :=
  match n with
  | O => w
  | S n' => calibration_reads n' (sleepW 100 (readW w))
  end.

(** The next [n] samples, and their resistances over AIR_R0_RATIO. *)
Definition next_samples (w : World) (n : nat) : list Z :=
  map (sample_at w) (seq 0 n).

Definition ratioed (w : World) (n : nat) : list R :=
  map (fun s => resistance s / AIR_R0_RATIO) (next_samples w n).

(** The mean of the ratioed resistances of the next
    NUM_CALIBRATION_READINGS samples. *)
Definition calibrated_r0 (w : World) : R :=
  sum (ratioed w (Z.to_nat NUM_CALIBRATION_READINGS)) / IZR NUM_CALIBRATION_READINGS.

(** The world a calibration without a fault leads to. *)
Definition calibrate_post (w : World) : World :=
  let w1 := emitW (Display (Lit "Calibrating...") 0 0 true)
              (emitW (Log 20 (Lit "Calibrating sensor...")) w) in
  let w2 := set_r0 (calibrated_r0 w)
              (calibration_reads (Z.to_nat NUM_CALIBRATION_READINGS) w1) in
  sleepW 2000
    (emitW (Display (Lit "Calibration done") 0 0 true)
       (emitW (Log 20 (Fmt "Calibration complete. New R0: " (calibrated_r0 w) "" "")) w2)).

(** What a fault-free calibration adds to the trace. *)
Definition calibrate_events (w : World) : list Event :=
  [Log 20 (Lit "Calibrating sensor..."); Display (Lit "Calibrating...") 0 0 true]
  ++ flat_map (fun v => [Read v; Sleep 100])
       (next_samples w (Z.to_nat NUM_CALIBRATION_READINGS))
  ++ [Log 20 (Fmt "Calibration complete. New R0: " (calibrated_r0 w) "" "");
      Display (Lit "Calibration done") 0 0 true; Sleep 2000].

(** The landmarks of a trace: what remains of it when the log lines, the
    sleeps, the values read and the numbers displayed are left out. *)
Inductive Landmark : Type :=
| Assigned (s : State)     (* state = s *)
| Shown (m : string)       (* display_message(m, ...), m a literal *)
| ShownReading             (* display_message(f"...", ...), a formatted line *)
| Sampled.                 (* mq3_pin.read() *)

Definition landmark_of (e : Event) : list Landmark :=
  match e with
  | Assign s => [Assigned s]
  | Display (Lit m) _ _ _ => [Shown m]
  | Display (Fmt _ _ _ _) _ _ _ => [ShownReading]
  | Read _ => [Sampled]
  | Log _ _ => []
  | Sleep _ => []
  end.

Definition tagged (s : State) (l : list Landmark) : list (State * Landmark) :=
  map (pair s) l.

Definition landmarks (t : list (State * Event)) : list (State * Landmark) :=
  flat_map (fun se => tagged (fst se) (landmark_of (snd se))) t.

(** ** The controller, without the sensor

    What a turn of the loop does to the clock, to [button_press_time], to
    [state] and to [last_reading_time], and the landmarks it leaves, as a
    function of the button alone: the control flow of [check_button],
    [handle_button] and [periodic_reading], with the durations of their
    sleeps. *)
Record Controller : Type := mkController {
  ctl_clock : Z;               (* ms *)
  ctl_press_time : Z;
  ctl_state : State;
  ctl_last_reading_time : Z
}.

Definition controller_of (w : World) : Controller :=
  mkController (clock w) (button_press_time w) (state w) (last_reading_time w).

(** What [check_button] returns and what it leaves in
    [button_press_time], at the time [t] (ms) with [button_press_time = b]. *)
Definition press_duration (button : Z -> bool) (t b : Z) : Z :=
  let now := (t / 1000)%Z in
  if button t then
    if (b =? 0)%Z then (now - now)%Z else (now - b)%Z
  else
    if (0 <? b)%Z then (now - b)%Z else 0%Z.

Definition press_mark (button : Z -> bool) (t b : Z) : Z :=
  if button t then
    if (b =? 0)%Z then (t / 1000)%Z else b
  else 0%Z.

Definition button_duration (w : World) : Z :=
  press_duration (button_signal w) (clock w) (button_press_time w).

Definition button_mark (w : World) : Z :=
  press_mark (button_signal w) (clock w) (button_press_time w).

Definition calibrate_landmarks : list Landmark :=
  Shown "Calibrating..."
  :: repeat Sampled (Z.to_nat NUM_CALIBRATION_READINGS)
  ++ [Shown "Calibration done"].

Definition warm_up_landmarks : list Landmark :=
  Shown "Warming up..."
  :: map (fun i => Shown (dots i)) (seq 0 (Z.to_nat WARM_UP_TIME))
  ++ calibrate_landmarks.

(** [handle_button d] from the state [s]: the state it leaves, the time it
    takes (ms) and its landmarks. *)
Definition next_state (d : Z) (s : State) : State :=
  if (0 <? d)%Z then
    if (LONG_PRESS_TIME <=? d)%Z then
      if State_eqb s OFF then ON else OFF
    else if State_eqb s ON && (d <? LONG_PRESS_TIME)%Z then ON else s
  else s.

Definition poll_time (d : Z) (s : State) : Z :=
  if (0 <? d)%Z then
    if (LONG_PRESS_TIME <=? d)%Z then
      if State_eqb s OFF then (WARM_UP_TIME * 1000 + 3000 + 1000)%Z else 1000%Z
    else if State_eqb s ON && (d <? LONG_PRESS_TIME)%Z then 3000%Z else 0%Z
  else 0%Z.

Definition poll_landmarks (d : Z) (s : State) : list (State * Landmark) :=
  if (0 <? d)%Z then
    if (LONG_PRESS_TIME <=? d)%Z then
      if State_eqb s OFF
      then tagged ON (Assigned ON :: warm_up_landmarks ++ [Shown "ON"])
      else tagged OFF [Assigned OFF; Shown "OFF"]
    else if State_eqb s ON && (d <? LONG_PRESS_TIME)%Z
         then tagged CALIBRATING (Assigned CALIBRATING :: calibrate_landmarks)
              ++ [(ON, Assigned ON)]
         else []
  else [].

(** [periodic_reading] at the time [t] in the state [s]. *)
Definition takes_reading (t : Z) (s : State) (last : Z) : bool :=
  State_eqb s ON && (reading_interval <=? t / 1000 - last)%Z.

Definition reading_landmarks : list Landmark :=
  [Sampled; ShownReading; ShownReading; ShownReading; ShownReading].

Definition controller_step (button : Z -> bool) (c : Controller)
  : Controller * list (State * Landmark) :=
  let d := press_duration button (ctl_clock c) (ctl_press_time c) in
  let b := press_mark button (ctl_clock c) (ctl_press_time c) in
  let s := next_state d (ctl_state c) in
  let t := (ctl_clock c + poll_time d (ctl_state c))%Z in
  let reads := takes_reading t s (ctl_last_reading_time c) in
  (mkController (t + 100) b s (if reads then (t / 1000)%Z else ctl_last_reading_time c),
   poll_landmarks d (ctl_state c) ++ (if reads then tagged s reading_landmarks else [])).

Fixpoint controller_run (n : nat) (button : Z -> bool) (c : Controller)
  : Controller * list (State * Landmark) :=
  match n with
  | O => (c, [])
  | S n' =>
      let (c1, l1) := controller_step button c in
      let (c2, l2) := controller_run n' button c1 in
      (c2, l1 ++ l2)
  end.

(** Samples that keep the pipeline away from its faults: not 0 (the
    voltage is not 0) and not 4095 (the resistance is not 0). *)
Definition good_signal (sig : nat -> Z) : Prop :=
  forall n, (1 <= sig n <= 4094)%Z.

(** A world of a fault-free run: its inputs, its controller, a positive
    [r0] and the landmarks so far. *)
Definition Run (sig : nat -> Z) (button : Z -> bool) (c : Controller)
           (l : list (State * Landmark)) (w : World) : Prop :=
  adc_signal w = sig /\ button_signal w = button /\ controller_of w = c /\
  0 < r0 w /\ landmarks (trace w) = l.

(** The successive outputs of the smoother fed with [raws], from the
    window [window]. *)
Fixpoint running_means (window raws : list R) : list R :=
  match raws with
  | [] => []
  | raw :: rest =>
      let window' := push_window window raw in
      mean window' :: running_means window' rest
  end.

(** The sensor of the tests: [MQ3Sensor(MockHardware(mock))] with
    [sensor.r0 = r]. *)
Definition test_sensor (mock : list Z) (r : R) : World :=
  set_r0 r (boot (mock_readings mock) (fun _ => false) 0).

(** The states assigned along some landmarks, in order. *)
Definition assignments (l : list (State * Landmark)) : list State :=
  flat_map (fun x => match snd x with Assigned s => [s] | _ => [] end) l.

(** Four button signals (true = pressed), with time in ms, and a steady
    ADC: the button held from the start on; one press released at 8500 ms;
    a press released at 7950 ms and a second press from 32100 ms on; the
    same with the second press released at 33600 ms. *)
Definition held_forever : Z -> bool := fun _ => true.
Definition long_press : Z -> bool := fun t => (t <? 8500)%Z.
Definition tap_then_hold : Z -> bool := fun t => ((t <? 7950) || (32100 <=? t))%Z.
Definition tap_then_short_press : Z -> bool :=
  fun t => ((t <? 7950) || ((32100 <=? t) && (t <? 33600)))%Z.
Definition steady : nat -> Z := fun _ => 2000%Z.

Definition Landmark_eqb (a b : Landmark) : bool :=
  match a, b with
  | Assigned s, Assigned s' => State_eqb s s'
  | Shown m, Shown m' => String.eqb m m'
  | ShownReading, ShownReading => true
  | Sampled, Sampled => true
  | _, _ => false
  end.

(** Whether a tagged landmark occurs in a list. *)
Definition occurs (x : State * Landmark) (l : list (State * Landmark)) : bool :=
  existsb (fun y => State_eqb (fst x) (fst y) && Landmark_eqb (snd x) (snd y)) l.

(** ** Fixed-point enclosures of [exp]

    [exp (a / b)] is at least [(1 + a / (b * 2^30)) ^ (2^30)]; the power is
    computed by 30 squarings on integers scaled by [2^100], each rounded
    down. *)
Definition fx_one : Z := 2 ^ 100.
Definition fx_steps : nat := 30.
Definition fx_square (m : Z) : Z := (m * m / fx_one)%Z.
Definition exp_floor_at (k : nat) (a b : Z) : Z :=
  let K := (2 ^ Z.of_nat k)%Z in
  Nat.iter k fx_square (fx_one * (b * K + a) / (b * K))%Z.
Definition exp_floor (a b : Z) : Z := exp_floor_at fx_steps a b.


(** Enclosure of the sensor law x ^ (-1.43068) at a rational x = xn / xd,
    from an enclosure lo / b <= ln x <= hi / b checked on the way. *)
Definition response_check (xn xd lo hi b Ln Ld Un Ud : Z) : bool :=
  (0 <? xn)%Z && (0 <? xd)%Z && (0 <? b)%Z && (0 <? Ld)%Z && (0 <? Ud)%Z
  && (Z.abs lo <=? b * 1073741824)%Z && (Z.abs hi <=? b * 1073741824)%Z
  && (143068 * Z.abs lo <=? 100000 * b * 1073741824)%Z
  && (143068 * Z.abs hi <=? 100000 * b * 1073741824)%Z
  (* lo / b <= ln x *)
  && (0 <? exp_floor (- lo) b)%Z && (fx_one * xd <=? xn * exp_floor (- lo) b)%Z
  (* ln x <= hi / b *)
  && (xn * fx_one <=? exp_floor hi b * xd)%Z
  (* Ln / Ld <= exp (-1.43068 * hi / b) *)
  && (Ln * fx_one <=? exp_floor (-143068 * hi) (100000 * b) * Ld)%Z
  (* exp (-1.43068 * lo / b) <= Un / Ud *)
  && (0 <? exp_floor (143068 * lo) (100000 * b))%Z
  && (fx_one * Ud <=? Un * exp_floor (143068 * lo) (100000 * b))%Z.


(** ** Hoare triples over the monad

    [hoare P m Q E]: from a world in [P], [m] ends in a world in [Q] when
    it returns and in a world in [E] when it faults. *)
Definition hoare {A} (P : World -> Prop) (m : M A)
           (Q : A -> World -> Prop) (E : World -> Prop) : Prop :=
  forall w, P w ->
    match m w with
    | Ok a w' => Q a w'
    | Fault _ w' => E w'
    end.

(** The window holds at most [max_readings] entries. *)
Definition window_ok (w : World) : Prop :=
  (List.length (readings w) <= max_readings)%nat.

(** What the program does in which state: it samples in ON and CALIBRATING
    only; in OFF it displays nothing but "OFF"; in CALIBRATING it displays
    nothing but the two progress messages of [calibrate]. *)
Definition ok_event (se : State * Event) : Prop :=
  match snd se with
  | Read _ => fst se <> OFF
  | Display m _ _ _ =>
      match fst se with
      | OFF => m = Lit "OFF"
      | CALIBRATING => m = Lit "Calibrating..." \/ m = Lit "Calibration done"
      | ON => True
      end
  | _ => True
  end.

Definition Safe (w : World) : Prop :=
  window_ok w /\ Forall ok_event (trace w).

Definition Inv (s : State) (w : World) : Prop :=
  state w = s /\ Safe w.

(** Between two turns of the loop. *)
Definition Idle (w : World) : Prop :=
  state w <> CALIBRATING /\ Safe w.

(** ** Worlds and invariants of whole runs *)

(** The world after the progress loop of [warm_up] over the indices [l]
    ([display_message("." * i, 0, 20, clear=False); utime.sleep(1)]). *)
Fixpoint warm_up_dots (l : list nat) (w : World) : World :=
  match l with
  | [] => w
  | i :: l' =>
      warm_up_dots l' (sleepW 1000 (emitW (Display (Lit (dots i)) 0 20 false) w))
  end.


(** The samples of a 12-bit ADC. *)
Definition in_range (sig : nat -> Z) : Prop := forall n, (0 <= sig n <= 4095)%Z.

(** The press stamp and the time of the last reading are whole seconds of
    the past. *)
Definition Timed (w : World) : Prop :=
  (0 <= button_press_time w <= clock w / 1000)%Z /\
  (0 <= last_reading_time w <= clock w / 1000)%Z.

(** A line of a reading on the display, and a completed calibration. *)
Definition is_reading (e : Event) : Prop :=
  match e with
  | Display (Fmt _ _ _ _) _ _ _ => True
  | _ => False
  end.

Definition Calibrated (t : list (State * Event)) : Prop :=
  exists s x y c, In (s, Display (Lit "Calibration done") x y c) t.

(** Every line of a reading comes after a completed calibration. *)
Definition Ordered (t : list (State * Event)) : Prop :=
  forall t1 se t2, t = t1 ++ se :: t2 -> is_reading (snd se) -> Calibrated t1.

(** The last effect was to read a sample at an end of the ADC's range. *)
Definition saturated_read (w : World) : Prop :=
  exists t s v, trace w = t ++ [(s, Read v)] /\ (v = 0 \/ v = 4095)%Z.

(** The last effect was to read a sample of resistance [rs]. *)
Definition LastRead (rs : R) (w : World) : Prop :=
  exists t s v, trace w = t ++ [(s, Read v)] /\ (1 <= v <= 4095)%Z /\ rs = resistance v.

(** The values of [r0] over samples of the ADC: 0 when every sample of the
    calibration was 4095, else between the tenth of the least and the
    greatest [rs / AIR_R0_RATIO]. *)
Definition calibrated_range (r : R) : Prop := r = 0 \/ 0.0004 <= r <= 68234.

(** A world of a run on the signal [sig]: [k] bounds the window from below
    and [c] the clock (in seconds); [cal] says that a calibration is known
    to have completed; under [G] (the signal is in the ADC's range) [r0] is
    in [calibrated_range]; under [T] (the run started at a time that is not
    negative) the stamps are in the past. *)
Definition Sane (sig : nat -> Z) (G T : Prop) (k : nat) (c : Z) (cal : bool)
           (w : World) : Prop :=
  adc_signal w = sig /\ (c <= clock w / 1000)%Z /\ (T -> Timed w)
  /\ (k <= List.length (readings w))%nat
  /\ (G -> calibrated_range (r0 w))
  /\ Ordered (trace w) /\ (cal = true -> Calibrated (trace w)).

Definition Sound (sig : nat -> Z) (G T : Prop) (k : nat) (s : State) (c : Z)
           (cal : bool) (w : World) : Prop :=
  state w = s /\ Sane sig G T k c cal w.

(** A world where a run has faulted. *)
Definition Crashed (sig : nat -> Z) (G T : Prop) (k : nat) (c : Z) (w : World) : Prop :=
  Sane sig G T k c false w /\ (G -> saturated_read w).

(** Between two turns of the loop. *)
Definition Settled (sig : nat -> Z) (G T : Prop) (k : nat) (c : Z) (w : World) : Prop :=
  state w <> CALIBRATING /\ Sane sig G T k c false w
  /\ (state w = ON -> Calibrated (trace w)).

(** The world after [j] turns of the loop that only sleep. *)
Fixpoint idle_polls (j : nat) (w : World) : World :=
  match j with
  | O => w
  | S j' => idle_polls j' (sleepW 100 w)
  end.

(** An ADC stuck at 0. *)
Definition grounded : nat -> Z := fun _ => 0%Z.


(** * Properties *)

(** ** Running the monad *)

Lemma bind_ok {A B} (m : M A) (k : A -> M B) w a w' :
  m w = Ok a w' -> bind m k w = k a w'.
Proof. intros H. unfold bind. now rewrite H. Qed.

Lemma bind_fault {A B} (m : M A) (k : A -> M B) w e w' :
  m w = Fault e w' -> bind m k w = Fault e w'.
Proof. intros H. unfold bind. now rewrite H. Qed.

Lemma fdiv_ok a b w : b <> 0 -> fdiv a b w = Ok (a / b) w.
Proof.
  intros Hb. unfold fdiv. destruct (Req_dec_T b 0) as [E | _]; [contradiction | reflexivity].
Qed.

Lemma fdiv_zero a b w : b = 0 -> fdiv a b w = Fault ZeroDivisionError w.
Proof.
  intros Hb. unfold fdiv. destruct (Req_dec_T b 0) as [_ | N]; [reflexivity | contradiction].
Qed.

Lemma math_pow_pos x y w : 0 < x -> math_pow x y w = Ok (Rpower x y) w.
Proof.
  intros Hx. unfold math_pow. destruct (Rlt_dec 0 x); [reflexivity | contradiction].
Qed.

(** The exponent of the sensor law is not a whole number. *)
Lemma exponent_fractional : -1.43068 <> IZR (Int_part (-1.43068)).
Proof.
  intros E. set (z := Int_part (-1.43068)) in *.
  assert (H1 : IZR (-2) < IZR z) by (rewrite <- E; lra).
  assert (H2 : IZR z < IZR (-1)) by (rewrite <- E; lra).
  apply lt_IZR in H1, H2. lia.
Qed.

Lemma math_pow_nonpos x w : x <= 0 -> math_pow x (-1.43068) w = Fault ValueError w.
Proof.
  intros Hx. unfold math_pow.
  destruct (Rlt_dec 0 x) as [H | _]; [lra |].
  destruct (Req_dec_T (-1.43068) 0) as [H | _]; [lra |].
  destruct (Req_dec_T x 0) as [_ | _].
  - destruct (Rlt_dec 0 (-1.43068)) as [H | _]; [lra | reflexivity].
  - destruct (Req_dec_T _ _) as [H | _]; [now apply exponent_fractional in H | reflexivity].
Qed.

(** The effects that cannot fault, as equations on worlds. *)
Lemma log_eq m w : log 20 m w = Ok tt (emitW (Log 20 m) w).
Proof. reflexivity. Qed.

Lemma display_message_eq m x y c w :
  display_message m x y c w = Ok tt (emitW (Display m x y c) w).
Proof. reflexivity. Qed.

Lemma utime_sleep_eq ms w : utime_sleep ms w = Ok tt (sleepW ms w).
Proof. reflexivity. Qed.

Lemma assign_state_eq s w :
  assign_state s w = Ok tt (emitW (Assign s) (set_state s w)).
Proof. reflexivity. Qed.

Lemma gets_eq {A} (f : World -> A) w : gets f w = Ok (f w) w.
Proof. reflexivity. Qed.

Lemma modify_eq f w : modify f w = Ok tt (f w).
Proof. reflexivity. Qed.

Lemma ret_eq {A} (a : A) w : ret a w = Ok a w.
Proof. reflexivity. Qed.

(** One step of symbolic execution: run the head of a bind. *)
Ltac run_head :=
  first [ simple apply log_eq | simple apply display_message_eq
        | simple apply utime_sleep_eq | simple apply assign_state_eq
        | simple apply gets_eq | simple apply modify_eq | simple apply ret_eq ].

Ltac run_step := erewrite bind_ok by run_head; cbv beta.

(** ** The resistance of a sample *)

Lemma sensor_volt_zero (s : Z) : IZR s * (3.3 / 4095.0) = 0 <-> s = 0%Z.
Proof.
  split.
  - intros H. apply eq_IZR. destruct (Rmult_integral _ _ H) as [E | E]; [exact E | lra].
  - intros ->. lra.
Qed.

Lemma mq3_pin_read_eq w : mq3_pin_read w = Ok (next_sample w) (readW w).
Proof. reflexivity. Qed.

Lemma calculate_rs_ok w :
  next_sample w <> 0%Z -> _calculate_rs w = Ok (resistance (next_sample w)) (readW w).
Proof.
  intros Hs. unfold _calculate_rs.
  rewrite (bind_ok _ _ _ _ _ (mq3_pin_read_eq w)).
  rewrite (bind_ok _ _ _ _ _ (fdiv_ok _ _ _ (proj2 (not_iff_compat (sensor_volt_zero _)) Hs))).
  unfold ret, resistance. f_equal.
  replace 1000.0 with 1000 by lra. replace 4095.0 with 4095 by lra. reflexivity.
Qed.

Lemma calculate_rs_zero w :
  next_sample w = 0%Z -> _calculate_rs w = Fault ZeroDivisionError (readW w).
Proof.
  intros Hs. unfold _calculate_rs.
  rewrite (bind_ok _ _ _ _ _ (mq3_pin_read_eq w)).
  apply bind_fault, fdiv_zero. now apply sensor_volt_zero.
Qed.

Lemma resistance_closed (s : Z) : s <> 0%Z -> resistance s = 1000 * (4095 - IZR s) / IZR s.
Proof.
  intros Hs. unfold resistance. assert (IZR s <> 0) by (intros E; now apply eq_IZR in E).
  field. split; [exact H | lra].
Qed.

Lemma resistance_pos (s : Z) : (1 <= s <= 4094)%Z -> 0 < resistance s.
Proof.
  intros [H1 H2]. rewrite resistance_closed by lia.
  apply IZR_le in H1, H2.
  apply Rdiv_lt_0_compat; lra.
Qed.

(** ** Calibration *)

Lemma sample_at_0 w : sample_at w 0 = next_sample w.
Proof. unfold sample_at, next_sample. now rewrite Nat.add_0_r. Qed.

Lemma sample_at_step w ms i : sample_at (sleepW ms (readW w)) i = sample_at w (S i).
Proof. unfold sample_at. cbn. now rewrite Nat.add_succ_r. Qed.

Lemma next_samples_S w n :
  next_samples w (S n) = next_sample w :: next_samples (sleepW 100 (readW w)) n.
Proof.
  unfold next_samples. cbn [seq map]. rewrite sample_at_0. f_equal.
  rewrite <- seq_shift, map_map. apply map_ext. intros i. now rewrite sample_at_step.
Qed.

Lemma next_samples_nonzero w n :
  (forall i, (i < S n)%nat -> sample_at w i <> 0%Z) ->
  next_sample w <> 0%Z /\
  (forall i, (i < n)%nat -> sample_at (sleepW 100 (readW w)) i <> 0%Z).
Proof.
  intros H. split.
  - rewrite <- sample_at_0. apply H. lia.
  - intros i Hi. rewrite sample_at_step. apply H. lia.
Qed.

(** The calibration loop, for any list of loop indices. *)
Lemma calibration_loop_ok (l : list nat) : forall (acc : R) (w : World),
  (forall i, (i < List.length l)%nat -> sample_at w i <> 0%Z) ->
  for_each l
    (fun _ r0_sum =>
       rs <- _calculate_rs ;;
       let r0_sum' := r0_sum + rs / AIR_R0_RATIO in
       utime_sleep 100 ;;
       ret r0_sum') acc w
  = Ok (fold_left Rplus (ratioed w (List.length l)) acc)
       (calibration_reads (List.length l) w).
Proof.
  induction l as [| i l IH]; intros acc w Hnz.
  - reflexivity.
  - destruct (next_samples_nonzero _ _ Hnz) as [H0 Hrest].
    cbn [for_each List.length calibration_reads].
    unfold ratioed. rewrite next_samples_S. cbn [map fold_left].
    erewrite bind_ok.
    2:{ erewrite bind_ok by (apply calculate_rs_ok; exact H0). reflexivity. }
    apply (IH _ _ Hrest).
Qed.

Lemma ratioed_emitW e w n : ratioed (emitW e w) n = ratioed w n.
Proof. reflexivity. Qed.

Lemma calibrate_ok w :
  (forall i, (i < Z.to_nat NUM_CALIBRATION_READINGS)%nat -> sample_at w i <> 0%Z) ->
  calibrate w = Ok tt (calibrate_post w).
Proof.
  intros Hnz. unfold calibrate, for_range.
  set (w1 := emitW (Display (Lit "Calibrating...") 0 0 true)
               (emitW (Log 20 (Lit "Calibrating sensor...")) w)).
  assert (Hnz1 : forall i, (i < List.length (seq 0 (Z.to_nat NUM_CALIBRATION_READINGS)))%nat ->
                           sample_at w1 i <> 0%Z).
  { intros i Hi. rewrite length_seq in Hi. exact (Hnz i Hi). }
  pose proof (calibration_loop_ok _ 0 w1 Hnz1) as Hloop.
  rewrite length_seq in Hloop.
  run_step. run_step. fold w1. erewrite bind_ok by exact Hloop.
  run_step. run_step. run_step. run_step.
  rewrite utime_sleep_eq. unfold calibrate_post, calibrated_r0, sum. fold w1.
  unfold w1 at 1. now rewrite !ratioed_emitW.
Qed.

(** ** Concentration *)

Lemma alcohol_of_rs_guard rs w : r0 w = 0 -> alcohol_of_rs rs w = Ok 0 w.
Proof.
  intros H. unfold alcohol_of_rs. run_step.
  destruct (Req_dec_T (r0 w) 0); [reflexivity | contradiction].
Qed.

Lemma alcohol_of_rs_ok rs w :
  r0 w <> 0 -> 0 < rs / r0 w ->
  alcohol_of_rs rs w = Ok (concentration rs (r0 w)) w.
Proof.
  intros H Hpos. unfold alcohol_of_rs. run_step.
  destruct (Req_dec_T (r0 w) 0); [contradiction |].
  erewrite bind_ok by (now apply fdiv_ok).
  erewrite bind_ok by (now apply math_pow_pos).
  reflexivity.
Qed.

Lemma alcohol_of_rs_domain rs w :
  r0 w <> 0 -> rs / r0 w <= 0 ->
  alcohol_of_rs rs w = Fault ValueError w.
Proof.
  intros H Hneg. unfold alcohol_of_rs. run_step.
  destruct (Req_dec_T (r0 w) 0); [contradiction |].
  erewrite bind_ok by (now apply fdiv_ok).
  apply bind_fault. now apply math_pow_nonpos.
Qed.

Lemma read_raw_guard w :
  next_sample w <> 0%Z -> r0 w = 0 ->
  read_raw_value_of_alcohol w = Ok 0 (readW w).
Proof.
  intros Hs H. unfold read_raw_value_of_alcohol.
  erewrite bind_ok by (now apply calculate_rs_ok).
  now apply alcohol_of_rs_guard.
Qed.

Lemma read_raw_ok w :
  next_sample w <> 0%Z -> r0 w <> 0 -> 0 < resistance (next_sample w) / r0 w ->
  read_raw_value_of_alcohol w
  = Ok (concentration (resistance (next_sample w)) (r0 w)) (readW w).
Proof.
  intros Hs H Hpos. unfold read_raw_value_of_alcohol.
  erewrite bind_ok by (now apply calculate_rs_ok).
  now apply (alcohol_of_rs_ok _ (readW w)).
Qed.

Lemma concentration_pos rs r : 0 < concentration rs r.
Proof.
  unfold concentration, Rpower. pose proof (exp_pos (-1.43068 * ln (rs / r))). lra.
Qed.

(** ** The window *)

Lemma push_window_length l raw :
  List.length (push_window l raw)
  = if (max_readings <? List.length l + 1)%nat then List.length l
    else (List.length l + 1)%nat.
Proof.
  unfold push_window. rewrite length_app. cbn [List.length].
  destruct (Nat.ltb_spec max_readings (List.length l + 1)).
  - destruct l; cbn [app tl List.length]; [cbn in *; lia |].
    rewrite length_app. cbn. lia.
  - rewrite length_app. reflexivity.
Qed.

Lemma push_window_nonempty l raw : (0 < List.length (push_window l raw))%nat.
Proof.
  rewrite push_window_length. unfold max_readings.
  destruct (Nat.ltb_spec 10 (List.length l + 1)); lia.
Qed.

Lemma push_window_bounded l raw :
  (List.length l <= max_readings)%nat ->
  (List.length (push_window l raw) <= max_readings)%nat.
Proof.
  rewrite push_window_length. unfold max_readings.
  destruct (Nat.ltb_spec 10 (List.length l + 1)); lia.
Qed.

Lemma get_smoothed_reading_ok w raw :
  read_raw_value_of_alcohol w = Ok raw (readW w) ->
  get_smoothed_reading w
  = Ok (mean (push_window (readings w) raw))
       (set_readings (push_window (readings w) raw) (readW w)).
Proof.
  intros Hraw. unfold get_smoothed_reading.
  erewrite bind_ok by exact Hraw.
  run_step. run_step.
  assert (Hne : INR (List.length (push_window (readings w) raw)) <> 0).
  { apply not_0_INR. pose proof (push_window_nonempty (readings w) raw). lia. }
  revert Hne. unfold mean, push_window.
  change (readings (set_readings (readings (readW w) ++ [raw]) (readW w)))
    with (readings w ++ [raw]).
  destruct (max_readings <? List.length (readings w ++ [raw]))%nat; intros Hne.
  - run_step. run_step. now rewrite fdiv_ok.
  - run_step. run_step. now rewrite fdiv_ok.
Qed.

(** ** Rules of the triples *)

Section HoareRules.
Context {A B : Type}.
Implicit Types (P : World -> Prop) (E : World -> Prop).

Lemma hoare_ret P (Q : A -> World -> Prop) E (a : A) :
  (forall w, P w -> Q a w) -> hoare P (ret a) Q E.
Proof. intros H w Hw. now apply H. Qed.

Lemma hoare_bind P (m : M A) (k : A -> M B) Q R E :
  hoare P m Q E -> (forall a, hoare (Q a) (k a) R E) -> hoare P (bind m k) R E.
Proof.
  intros Hm Hk w Hw. unfold bind. specialize (Hm w Hw).
  destruct (m w) as [a w' | e w']; [now apply Hk | exact Hm].
Qed.

Lemma hoare_conseq P P' (m : M A) (Q Q' : A -> World -> Prop) E E' :
  hoare P m Q E ->
  (forall w, P' w -> P w) -> (forall a w, Q a w -> Q' a w) -> (forall w, E w -> E' w) ->
  hoare P' m Q' E'.
Proof.
  intros H HP HQ HE w Hw. specialize (H w (HP w Hw)).
  destruct (m w); [now apply HQ | now apply HE].
Qed.

Lemma hoare_gets P (f : World -> A) (Q : A -> World -> Prop) E :
  (forall w, P w -> Q (f w) w) -> hoare P (gets f) Q E.
Proof. intros H w Hw. now apply H. Qed.

Lemma hoare_raise P (e : Exn) (Q : A -> World -> Prop) E :
  (forall w, P w -> E w) -> hoare P (raise e) Q E.
Proof. intros H w Hw. now apply H. Qed.

End HoareRules.

Lemma hoare_for_each {A} (I : World -> Prop) E (body : nat -> A -> M A) (l : list nat) :
  (forall i a, hoare I (body i a) (fun _ => I) E) ->
  forall a, hoare I (for_each l body a) (fun _ => I) E.
Proof.
  intros Hbody. induction l as [| i l IH]; intros a.
  - now apply hoare_ret.
  - cbn [for_each]. eapply hoare_bind; [apply Hbody | intros a'; apply IH].
Qed.

Lemma hoare_modify P (f : World -> World) (Q : unit -> World -> Prop) E :
  (forall w, P w -> Q tt (f w)) -> hoare P (modify f) Q E.
Proof. intros H w Hw. now apply H. Qed.

(** An effect-free step keeps whatever held before it. *)
Lemma hoare_fdiv P E a b :
  (forall w, P w -> E w) -> hoare P (fdiv a b) (fun _ => P) E.
Proof.
  intros HE w Hw. unfold fdiv. destruct (Req_dec_T b 0); cbn; auto.
Qed.

Lemma hoare_math_pow P E x y :
  (forall w, P w -> E w) -> hoare P (math_pow x y) (fun _ => P) E.
Proof.
  intros HE w Hw. unfold math_pow.
  repeat (match goal with |- context [if ?c then _ else _] => destruct c end); cbn; auto.
Qed.

Lemma hoare_gets_keep {A} P (f : World -> A) E : hoare P (gets f) (fun _ => P) E.
Proof. now apply hoare_gets. Qed.

Lemma hoare_ret_keep {A} P (a : A) E : hoare P (ret a) (fun _ => P) E.
Proof. now apply hoare_ret. Qed.

Lemma hoare_modify_keep (P : World -> Prop) (f : World -> World) E :
  (forall w, P w -> P (f w)) -> hoare P (modify f) (fun _ => P) E.
Proof. intros H. now apply hoare_modify. Qed.

(** ** What holds in every run, faults included *)

Lemma Inv_Safe s w : Inv s w -> Safe w.
Proof. now intros [_ H]. Qed.

Lemma Inv_emitW s e w : ok_event (s, e) -> Inv s w -> Inv s (emitW e w).
Proof.
  intros He [Hs [Hw Ht]]. split; [exact Hs | split; [exact Hw |]].
  cbn. apply Forall_app. split; [exact Ht |]. constructor; [| constructor].
  now rewrite Hs.
Qed.

Lemma emit_inv s e : ok_event (s, e) -> hoare (Inv s) (emit e) (fun _ => Inv s) Safe.
Proof. intros He. apply hoare_modify. intros w. now apply Inv_emitW. Qed.

Lemma log_inv s level m : hoare (Inv s) (log level m) (fun _ => Inv s) Safe.
Proof.
  unfold log. destruct (LOG_LEVEL <=? level)%Z.
  - now apply emit_inv.
  - now apply hoare_ret.
Qed.

Lemma utime_sleep_inv s ms : hoare (Inv s) (utime_sleep ms) (fun _ => Inv s) Safe.
Proof.
  unfold utime_sleep. eapply hoare_bind; [now apply emit_inv | intros ?].
  apply hoare_modify. intros w H. exact H.
Qed.

Lemma utime_time_inv s : hoare (Inv s) utime_time (fun _ => Inv s) Safe.
Proof. apply hoare_gets_keep. Qed.

Lemma display_message_inv s m x y c :
  ok_event (s, Display m x y c) ->
  hoare (Inv s) (display_message m x y c) (fun _ => Inv s) Safe.
Proof. intros H. now apply emit_inv. Qed.

Lemma mq3_pin_read_inv s : s <> OFF -> hoare (Inv s) mq3_pin_read (fun _ => Inv s) Safe.
Proof.
  intros Hs. unfold mq3_pin_read.
  eapply hoare_bind; [apply hoare_gets_keep | intros v].
  eapply hoare_bind; [apply hoare_modify_keep; intros w H; exact H | intros ?].
  eapply hoare_bind; [now apply emit_inv | intros ?].
  now apply hoare_ret.
Qed.

Lemma calculate_rs_inv s : s <> OFF -> hoare (Inv s) _calculate_rs (fun _ => Inv s) Safe.
Proof.
  intros Hs. unfold _calculate_rs.
  eapply hoare_bind; [now apply mq3_pin_read_inv | intros v].
  eapply hoare_bind; [apply hoare_fdiv, Inv_Safe | intros q].
  now apply hoare_ret.
Qed.

Lemma progress_message_ok s m x y c :
  s <> OFF -> m = Lit "Calibrating..." \/ m = Lit "Calibration done" ->
  ok_event (s, Display m x y c).
Proof. intros Hs Hm. destruct s; cbn; [contradiction | exact I | exact Hm]. Qed.

Lemma calibrate_inv s : s <> OFF -> hoare (Inv s) calibrate (fun _ => Inv s) Safe.
Proof.
  intros Hs. unfold calibrate.
  eapply hoare_bind; [apply log_inv | intros ?].
  eapply hoare_bind; [apply display_message_inv, progress_message_ok; auto | intros ?].
  eapply hoare_bind.
  { apply hoare_for_each. intros i acc.
    eapply hoare_bind; [now apply calculate_rs_inv | intros rs].
    eapply hoare_bind; [apply utime_sleep_inv | intros ?].
    now apply hoare_ret. }
  intros r0_sum.
  eapply hoare_bind; [apply hoare_modify_keep; intros w H; exact H | intros ?].
  eapply hoare_bind; [apply hoare_gets_keep | intros r].
  eapply hoare_bind; [apply log_inv | intros ?].
  eapply hoare_bind; [apply display_message_inv, progress_message_ok; auto | intros ?].
  apply utime_sleep_inv.
Qed.

Lemma warm_up_inv : hoare (Inv ON) warm_up (fun _ => Inv ON) Safe.
Proof.
  unfold warm_up.
  eapply hoare_bind; [apply log_inv | intros ?].
  eapply hoare_bind; [now apply display_message_inv | intros ?].
  eapply hoare_bind.
  { apply hoare_for_each. intros i acc.
    eapply hoare_bind; [now apply display_message_inv | intros ?].
    apply utime_sleep_inv. }
  intros ?. now apply calibrate_inv.
Qed.

Lemma alcohol_of_rs_inv s rs : hoare (Inv s) (alcohol_of_rs rs) (fun _ => Inv s) Safe.
Proof.
  unfold alcohol_of_rs.
  eapply hoare_bind; [apply hoare_gets_keep | intros r].
  destruct (Req_dec_T r 0).
  - now apply hoare_ret.
  - eapply hoare_bind; [apply hoare_fdiv, Inv_Safe | intros ratio].
    eapply hoare_bind; [apply hoare_math_pow, Inv_Safe | intros p].
    now apply hoare_ret.
Qed.

Lemma read_raw_inv s :
  s <> OFF -> hoare (Inv s) read_raw_value_of_alcohol (fun _ => Inv s) Safe.
Proof.
  intros Hs. unfold read_raw_value_of_alcohol.
  eapply hoare_bind; [now apply calculate_rs_inv | intros rs].
  apply alcohol_of_rs_inv.
Qed.

Lemma get_smoothed_reading_inv s :
  s <> OFF -> hoare (Inv s) get_smoothed_reading (fun _ => Inv s) Safe.
Proof.
  intros Hs w Hw. unfold get_smoothed_reading. unfold bind at 1.
  pose proof (read_raw_inv s Hs w Hw) as Hraw.
  destruct (read_raw_value_of_alcohol w) as [raw w1 | e w1]; [| exact Hraw].
  destruct Hraw as [Hst [Hwin Htr]].
  assert (Hpost : Inv s (set_readings (push_window (readings w1) raw) w1)).
  { split; [exact Hst | split; [| exact Htr]]. now apply push_window_bounded. }
  run_step. run_step.
  revert Hpost. unfold push_window.
  change (readings (set_readings (readings w1 ++ [raw]) w1)) with (readings w1 ++ [raw]).
  destruct (max_readings <? List.length (readings w1 ++ [raw]))%nat; intros Hpost;
    run_step; run_step;
    apply (hoare_fdiv (Inv s) Safe _ _ (Inv_Safe s) _ Hpost).
Qed.

Lemma check_button_inv s : hoare (Inv s) check_button (fun _ => Inv s) Safe.
Proof.
  assert (Hset : forall t, hoare (Inv s) (modify (set_button_press_time t)) (fun _ => Inv s) Safe).
  { intros t. apply hoare_modify_keep. intros w H. exact H. }
  unfold check_button, button_pressed.
  eapply hoare_bind; [apply hoare_gets_keep | intros pressed].
  destruct pressed.
  - eapply hoare_bind; [apply hoare_gets_keep | intros bpt].
    eapply hoare_bind.
    { destruct (bpt =? 0)%Z.
      - eapply hoare_bind; [apply utime_time_inv | intros now; apply Hset].
      - apply hoare_ret_keep. }
    intros ?.
    eapply hoare_bind; [apply utime_time_inv | intros now].
    eapply hoare_bind; [apply hoare_gets_keep | intros bpt'].
    now apply hoare_ret.
  - eapply hoare_bind; [apply hoare_gets_keep | intros bpt].
    eapply hoare_bind.
    { destruct (0 <? bpt)%Z.
      - eapply hoare_bind; [apply utime_time_inv | intros now]. apply hoare_ret_keep.
      - apply hoare_ret_keep. }
    intros d.
    eapply hoare_bind; [apply Hset | intros ?].
    now apply hoare_ret.
Qed.

Lemma assign_state_inv s s' : hoare (Inv s) (assign_state s') (fun _ => Inv s') Safe.
Proof.
  intros w [_ [Hw Ht]]. cbn. split; [reflexivity | split; [exact Hw |]].
  apply Forall_app. split; [exact Ht |]. now repeat constructor.
Qed.

(** Reading [state] in a world where it is known. *)
Lemma hoare_bind_state {B} s (k : State -> M B) Q E :
  hoare (Inv s) (k s) Q E -> hoare (Inv s) (bind (gets state) k) Q E.
Proof.
  intros H w Hw. unfold bind, gets. destruct Hw as [Hs HS]. rewrite Hs.
  apply H. now split.
Qed.

Lemma hoare_Idle {A} (m : M A) Q E :
  (forall s, s <> CALIBRATING -> hoare (Inv s) m Q E) -> hoare Idle m Q E.
Proof. intros H w [Hs HS]. apply (H (state w) Hs). now split. Qed.

Lemma Inv_Idle s w : s <> CALIBRATING -> Inv s w -> Idle w.
Proof. intros Hs [E HS]. split; [now rewrite E | exact HS]. Qed.

Lemma hoare_to_Idle {A} P s (m : M A) :
  s <> CALIBRATING ->
  hoare P m (fun _ => Inv s) Safe -> hoare P m (fun _ => Idle) Safe.
Proof.
  intros Hs H w Hw. specialize (H w Hw).
  destruct (m w); [now apply (Inv_Idle s) | exact H].
Qed.

Lemma handle_button_inv d : hoare Idle (handle_button d) (fun _ => Idle) Safe.
Proof.
  apply hoare_Idle. intros s Hs. unfold handle_button.
  destruct (0 <? d)%Z; [| apply hoare_ret; intros w; now apply Inv_Idle].
  destruct (LONG_PRESS_TIME <=? d)%Z.
  - apply hoare_bind_state. destruct s; cbn [State_eqb]; [| | contradiction].
    + eapply hoare_bind.
      { eapply hoare_bind; [apply assign_state_inv | intros ?].
        eapply hoare_bind; [apply warm_up_inv | intros ?]. apply log_inv. }
      intros ?. apply hoare_bind_state. cbn [State_eqb].
      eapply hoare_bind; [now apply display_message_inv | intros ?].
      apply (hoare_to_Idle _ ON); [discriminate | apply utime_sleep_inv].
    + eapply hoare_bind.
      { eapply hoare_bind; [apply assign_state_inv | intros ?]. apply log_inv. }
      intros ?. apply hoare_bind_state. cbn [State_eqb].
      eapply hoare_bind; [now apply display_message_inv | intros ?].
      apply (hoare_to_Idle _ OFF); [discriminate | apply utime_sleep_inv].
  - apply hoare_bind_state.
    destruct (State_eqb s ON && (d <? LONG_PRESS_TIME)%Z).
    + eapply hoare_bind; [apply assign_state_inv | intros ?].
      eapply hoare_bind; [now apply calibrate_inv | intros ?].
      apply (hoare_to_Idle _ ON); [discriminate | apply assign_state_inv].
    + apply hoare_ret. intros w. now apply Inv_Idle.
Qed.

Lemma periodic_reading_inv : hoare Idle periodic_reading (fun _ => Idle) Safe.
Proof.
  apply hoare_Idle. intros s Hs. unfold periodic_reading.
  apply hoare_bind_state. destruct s; cbn [State_eqb]; [| | contradiction].
  - apply hoare_ret. intros w. now apply Inv_Idle.
  - eapply hoare_bind; [apply utime_time_inv | intros current_time].
    eapply hoare_bind; [apply hoare_gets_keep | intros last].
    destruct (reading_interval <=? current_time - last)%Z.
    + eapply hoare_bind; [now apply get_smoothed_reading_inv | intros raw].
      eapply hoare_bind; [apply log_inv | intros ?].
      do 4 (eapply hoare_bind; [now apply display_message_inv | intros ?]).
      apply hoare_modify. intros w H. now apply (Inv_Idle ON).
    + apply hoare_ret. intros w. now apply Inv_Idle.
Qed.

Lemma loop_body_inv : hoare Idle loop_body (fun _ => Idle) Safe.
Proof.
  assert (HE : forall w, Idle w -> Safe w) by (now intros w [_ H]).
  unfold loop_body.
  eapply hoare_bind.
  { apply hoare_Idle. intros s Hs.
    apply (hoare_to_Idle _ s _ Hs), check_button_inv. }
  intros d.
  eapply hoare_bind; [apply handle_button_inv | intros ?].
  eapply hoare_bind; [apply periodic_reading_inv | intros ?].
  apply hoare_Idle. intros s Hs.
  apply (hoare_to_Idle _ s _ Hs), utime_sleep_inv.
Qed.

Lemma main_loop_inv n : hoare Idle (main_loop n) (fun _ => Idle) Safe.
Proof.
  induction n as [| n IH]; cbn [main_loop].
  - now apply hoare_ret.
  - eapply hoare_bind; [apply loop_body_inv | intros ?; exact IH].
Qed.

Lemma boot_Idle adc button t0 : Idle (boot adc button t0).
Proof.
  split; [discriminate |]. split; [unfold window_ok, max_readings; cbn; lia | constructor].
Qed.

(** ** The worlds a calibration leads to *)

Lemma calibration_reads_fields n : forall w,
  let w' := calibration_reads n w in
  adc_signal w' = adc_signal w /\ adc_reads w' = (adc_reads w + n)%nat /\
  button_signal w' = button_signal w /\ clock w' = (clock w + 100 * Z.of_nat n)%Z /\
  button_press_time w' = button_press_time w /\ r0 w' = r0 w /\
  readings w' = readings w /\ state w' = state w /\
  last_reading_time w' = last_reading_time w /\
  trace w' = trace w ++ map (pair (state w))
                          (flat_map (fun v => [Read v; Sleep 100]) (next_samples w n)).
Proof.
  induction n as [| n IH]; intros w.
  - cbn. rewrite Nat.add_0_r, Z.add_0_r, app_nil_r. tauto.
  - cbn [calibration_reads]. specialize (IH (sleepW 100 (readW w))).
    cbv zeta in IH |- *.
    destruct IH as (H1 & H2 & H3 & H4 & H5 & H6 & H7 & H8 & H9 & H10).
    rewrite H1, H2, H3, H4, H5, H6, H7, H8, H9, H10, next_samples_S.
    cbn [sleepW readW emitW set_clock set_trace set_adc_reads
         adc_signal adc_reads button_signal clock button_press_time r0 readings
         state last_reading_time trace map flat_map app].
    rewrite <- !app_assoc. cbn [app].
    repeat split; try reflexivity; lia.
Qed.

Lemma next_samples_emitW e w n : next_samples (emitW e w) n = next_samples w n.
Proof. reflexivity. Qed.

(** The fields after the closing steps of a calibration of [n] reads that
    sets [r0] to [r]. *)
Lemma calibration_closing_fields n r e1 e2 e3 e4 w :
  let w' := sleepW 2000 (emitW e4 (emitW e3
              (set_r0 r (calibration_reads n (emitW e2 (emitW e1 w)))))) in
  adc_signal w' = adc_signal w /\
  adc_reads w' = (adc_reads w + n)%nat /\
  button_signal w' = button_signal w /\
  clock w' = (clock w + 100 * Z.of_nat n + 2000)%Z /\
  button_press_time w' = button_press_time w /\ r0 w' = r /\
  readings w' = readings w /\ state w' = state w /\
  last_reading_time w' = last_reading_time w /\
  trace w' = trace w ++ map (pair (state w))
               ([e1; e2] ++ flat_map (fun v => [Read v; Sleep 100]) (next_samples w n)
                ++ [e3; e4; Sleep 2000]).
Proof.
  set (w1 := emitW e2 (emitW e1 w)).
  destruct (calibration_reads_fields n w1) as (H1 & H2 & H3 & H4 & H5 & H6 & H7 & H8 & H9 & H10).
  cbv zeta.
  cbn [sleepW emitW set_clock set_trace set_r0
       adc_signal adc_reads button_signal clock button_press_time r0 readings
       state last_reading_time trace].
  rewrite H1, H2, H3, H4, H5, H7, H8, H9, H10. subst w1.
  rewrite !next_samples_emitW.
  cbn [emitW set_trace adc_signal adc_reads button_signal clock button_press_time
       readings state last_reading_time trace].
  rewrite !map_app, <- !app_assoc. cbn [map app].
  repeat split; reflexivity.
Qed.

Lemma calibrate_post_fields w :
  let w' := calibrate_post w in
  adc_signal w' = adc_signal w /\
  adc_reads w' = (adc_reads w + Z.to_nat NUM_CALIBRATION_READINGS)%nat /\
  button_signal w' = button_signal w /\ clock w' = (clock w + 3000)%Z /\
  button_press_time w' = button_press_time w /\ r0 w' = calibrated_r0 w /\
  readings w' = readings w /\ state w' = state w /\
  last_reading_time w' = last_reading_time w /\
  trace w' = trace w ++ map (pair (state w)) (calibrate_events w).
Proof.
  pose proof (calibration_closing_fields (Z.to_nat NUM_CALIBRATION_READINGS)
                (calibrated_r0 w)
                (Log 20 (Lit "Calibrating sensor..."))
                (Display (Lit "Calibrating...") 0 0 true)
                (Log 20 (Fmt "Calibration complete. New R0: " (calibrated_r0 w) "" ""))
                (Display (Lit "Calibration done") 0 0 true) w) as H.
  cbv zeta in H |- *. fold (calibrate_post w) in H.
  destruct H as (H1 & H2 & H3 & H4 & H5 & H6 & H7 & H8 & H9 & H10).
  repeat split; try assumption.
  rewrite H4. change (Z.of_nat (Z.to_nat NUM_CALIBRATION_READINGS)) with 10%Z. lia.
Qed.

(** What the observation functions see of a calibration. *)
Lemma reads_displayed s (l : list Z) :
  displayed (map (pair s) (flat_map (fun v => [Read v; Sleep 100]) l)) = [].
Proof. induction l as [| v l IH]; [reflexivity | exact IH]. Qed.

Lemma reads_sampled s (l : list Z) :
  sampled (map (pair s) (flat_map (fun v => [Read v; Sleep 100]) l)) = l.
Proof. induction l as [| v l IH]; [reflexivity | cbn; now f_equal]. Qed.

Lemma displayed_app t1 t2 : displayed (t1 ++ t2) = displayed t1 ++ displayed t2.
Proof. apply flat_map_app. Qed.

Lemma sampled_app t1 t2 : sampled (t1 ++ t2) = sampled t1 ++ sampled t2.
Proof. apply flat_map_app. Qed.

Lemma calibrate_events_displayed s w :
  displayed (map (pair s) (calibrate_events w))
  = [Lit "Calibrating..."; Lit "Calibration done"].
Proof.
  unfold calibrate_events. rewrite !map_app, !displayed_app, reads_displayed. reflexivity.
Qed.

Lemma calibrate_events_sampled s w :
  sampled (map (pair s) (calibrate_events w))
  = next_samples w (Z.to_nat NUM_CALIBRATION_READINGS).
Proof.
  unfold calibrate_events. rewrite !map_app, !sampled_app, reads_sampled.
  cbn. now rewrite app_nil_r.
Qed.

(** ** Sums of positive numbers *)

Lemma fold_left_Rplus_acc (l : list R) : forall acc,
  fold_left Rplus l acc = acc + fold_left Rplus l 0.
Proof.
  induction l as [| x l IH]; intros acc; cbn [fold_left].
  - lra.
  - rewrite (IH (acc + x)), (IH (0 + x)). lra.
Qed.

Lemma sum_cons x l : sum (x :: l) = x + sum l.
Proof. unfold sum. cbn [fold_left]. rewrite fold_left_Rplus_acc. lra. Qed.

Lemma sum_pos l : Forall (fun x => 0 < x) l -> l <> [] -> 0 < sum l.
Proof.
  intros H. induction H as [| x l Hx Hl IH]; intros Hne; [contradiction |].
  rewrite sum_cons. destruct l as [| y l].
  - unfold sum. cbn. lra.
  - assert (0 < sum (y :: l)) by (apply IH; discriminate). lra.
Qed.

Lemma calibrated_r0_pos w : good_signal (adc_signal w) -> 0 < calibrated_r0 w.
Proof.
  intros Hsig. unfold calibrated_r0.
  apply Rdiv_lt_0_compat; [| unfold NUM_CALIBRATION_READINGS; lra].
  apply sum_pos.
  - unfold ratioed, next_samples. rewrite map_map. apply Forall_forall.
    intros x Hx. apply in_map_iff in Hx. destruct Hx as [i [<- _]].
    apply Rdiv_lt_0_compat; [| unfold AIR_R0_RATIO; lra].
    apply resistance_pos, Hsig.
  - discriminate.
Qed.

(** ** Runs without a fault

    On a good signal and from a positive [r0] nothing faults, [r0] stays
    positive, and a turn of the loop moves the controller and the landmarks
    as [controller_step] says. *)

Lemma hoare_bind_known {A B} P (f : World -> A) (a : A) (k : A -> M B) Q E :
  (forall w, P w -> f w = a) ->
  hoare P (k a) Q E -> hoare P (bind (gets f) k) Q E.
Proof.
  intros Hf H w Hw. unfold bind, gets. rewrite (Hf w Hw). now apply H.
Qed.

Lemma check_button_eq w :
  check_button w = Ok (button_duration w) (set_button_press_time (button_mark w) w).
Proof.
  unfold check_button, button_duration, button_mark, press_duration, press_mark,
    button_pressed.
  run_step. destruct (button_signal w (clock w)).
  - run_step. destruct (button_press_time w =? 0)%Z;
      [reflexivity | destruct w; reflexivity].
  - run_step. destruct (0 <? button_press_time w)%Z; reflexivity.
Qed.

Lemma landmarks_app t1 t2 : landmarks (t1 ++ t2) = landmarks t1 ++ landmarks t2.
Proof. apply flat_map_app. Qed.

Lemma landmarks_tagged s (l : list Event) :
  landmarks (map (pair s) l) = tagged s (flat_map landmark_of l).
Proof.
  induction l as [| e l IH]; [reflexivity |].
  cbn [map flat_map]. unfold tagged in *. rewrite map_app, <- IH. reflexivity.
Qed.

Lemma reads_landmark_of (l : list Z) :
  flat_map landmark_of (flat_map (fun v => [Read v; Sleep 100]) l)
  = repeat Sampled (List.length l).
Proof. induction l as [| v l IH]; [reflexivity | cbn; now f_equal]. Qed.

Lemma length_next_samples w n : List.length (next_samples w n) = n.
Proof. unfold next_samples. now rewrite length_map, length_seq. Qed.

Lemma calibrate_events_landmarks s w :
  landmarks (map (pair s) (calibrate_events w)) = tagged s calibrate_landmarks.
Proof.
  rewrite landmarks_tagged. unfold calibrate_events, calibrate_landmarks.
  rewrite !flat_map_app, reads_landmark_of, length_next_samples. reflexivity.
Qed.

Section FaultFree.
Variable sig : nat -> Z.
Variable button : Z -> bool.
Hypothesis Hsig : good_signal sig.

Let never : World -> Prop := fun _ => False.

Lemma Run_fields t b s last l w :
  Run sig button (mkController t b s last) l w <->
  adc_signal w = sig /\ button_signal w = button /\ clock w = t /\
  button_press_time w = b /\ state w = s /\ last_reading_time w = last /\
  0 < r0 w /\ landmarks (trace w) = l.
Proof.
  unfold Run, controller_of. split.
  - intros (H1 & H2 & H3 & H4 & H5). injection H3 as <- <- <- <-. now repeat split.
  - intros (H1 & H2 & <- & <- & <- & <- & H7 & H8). now repeat split.
Qed.

Lemma hoare_Run_post {A} P (m : M A) c l c' l' :
  hoare P m (fun _ => Run sig button c l) never -> c = c' -> l = l' ->
  hoare P m (fun _ => Run sig button c' l') never.
Proof. now intros H <- <-. Qed.

Lemma Run_emitW c l e w :
  Run sig button c l w ->
  Run sig button c (l ++ tagged (ctl_state c) (landmark_of e)) (emitW e w).
Proof.
  intros (H1 & H2 & H3 & H4 & H5). repeat split; try assumption.
  cbn [emitW set_trace trace]. rewrite landmarks_app, H5. cbn [landmarks flat_map fst snd].
  rewrite app_nil_r. now rewrite <- H3.
Qed.

Lemma emit_run c l e :
  hoare (Run sig button c l) (emit e)
        (fun _ => Run sig button c (l ++ tagged (ctl_state c) (landmark_of e))) never.
Proof. apply hoare_modify. intros w. apply Run_emitW. Qed.

Lemma emit_quiet c l e :
  landmark_of e = [] ->
  hoare (Run sig button c l) (emit e) (fun _ => Run sig button c l) never.
Proof.
  intros He. eapply hoare_Run_post; [apply emit_run | reflexivity |].
  rewrite He. apply app_nil_r.
Qed.

Lemma log_run c l level m :
  hoare (Run sig button c l) (log level m) (fun _ => Run sig button c l) never.
Proof.
  unfold log. destruct (LOG_LEVEL <=? level)%Z;
    [now apply emit_quiet | apply hoare_ret_keep].
Qed.

Lemma utime_sleep_run t b s last l ms :
  hoare (Run sig button (mkController t b s last) l) (utime_sleep ms)
        (fun _ => Run sig button (mkController (t + ms) b s last) l) never.
Proof.
  unfold utime_sleep. eapply hoare_bind; [now apply emit_quiet | intros ?].
  apply hoare_modify. intros w H. apply Run_fields in H. apply Run_fields.
  destruct H as (H1 & H2 & H3 & H4 & H5 & H6 & H7 & H8).
  cbn. rewrite H3. now repeat split.
Qed.

Lemma display_message_run c l m x y k :
  hoare (Run sig button c l) (display_message m x y k)
        (fun _ => Run sig button c
                    (l ++ tagged (ctl_state c) (landmark_of (Display m x y k)))) never.
Proof. apply emit_run. Qed.

Lemma calculate_rs_run c l :
  hoare (Run sig button c l) _calculate_rs
        (fun rs w => Run sig button c (l ++ [(ctl_state c, Sampled)]) w /\ 0 < rs) never.
Proof.
  intros w H. assert (Hs : (1 <= next_sample w <= 4094)%Z).
  { unfold next_sample. destruct H as [-> _]. apply Hsig. }
  rewrite calculate_rs_ok by lia. split; [| now apply resistance_pos].
  exact (Run_emitW c l (Read (next_sample w)) _ H).
Qed.

Lemma calibrate_run t b s last l :
  hoare (Run sig button (mkController t b s last) l) calibrate
        (fun _ => Run sig button (mkController (t + 3000) b s last)
                    (l ++ tagged s calibrate_landmarks)) never.
Proof.
  intros w H. apply Run_fields in H.
  destruct H as (H1 & H2 & H3 & H4 & H5 & H6 & H7 & H8).
  assert (Hg : good_signal (adc_signal w)) by now rewrite H1.
  rewrite calibrate_ok by (intros i _; specialize (Hg (adc_reads w + i)%nat);
                           unfold sample_at; lia).
  destruct (calibrate_post_fields w)
    as (F1 & _ & F3 & F4 & F5 & F6 & _ & F8 & F9 & F10).
  cbv zeta in *. apply Run_fields.
  rewrite F1, F3, F4, F5, F6, F8, F9, F10, landmarks_app, calibrate_events_landmarks.
  rewrite H3, H5, H8.
  repeat split; try assumption. now apply calibrated_r0_pos.
Qed.

Lemma warm_up_dots_run (indices : list nat) : forall t b s last l,
  hoare (Run sig button (mkController t b s last) l)
        (for_each indices
           (fun i _ => display_message (Lit (dots i)) 0 20 false ;; utime_sleep 1000) tt)
        (fun _ => Run sig button
                    (mkController (t + 1000 * Z.of_nat (List.length indices)) b s last)
                    (l ++ tagged s (map (fun i => Shown (dots i)) indices))) never.
Proof.
  induction indices as [| i indices IH]; intros t b s last l.
  - apply hoare_ret. intros w H. cbn [List.length map tagged].
    rewrite app_nil_r. now replace (t + 1000 * Z.of_nat 0)%Z with t by lia.
  - cbn [for_each]. eapply hoare_bind.
    { eapply hoare_bind; [apply display_message_run | intros ?]. apply utime_sleep_run. }
    intros []. eapply hoare_Run_post; [apply IH | |].
    + f_equal. cbn [List.length]. lia.
    + cbn [ctl_state landmark_of tagged map]. now rewrite <- app_assoc.
Qed.

Lemma warm_up_run t b s last l :
  hoare (Run sig button (mkController t b s last) l) warm_up
        (fun _ => Run sig button
                    (mkController (t + WARM_UP_TIME * 1000 + 3000) b s last)
                    (l ++ tagged s warm_up_landmarks)) never.
Proof.
  unfold warm_up, for_range, warm_up_landmarks.
  eapply hoare_bind; [apply log_run | intros ?].
  eapply hoare_bind; [apply display_message_run | intros ?].
  eapply hoare_bind; [apply warm_up_dots_run | intros ?].
  eapply hoare_Run_post; [apply calibrate_run | |].
  - rewrite length_seq. f_equal; unfold WARM_UP_TIME; cbn; lia.
  - cbn [ctl_state landmark_of tagged map]. unfold tagged.
    now rewrite !map_app, <- !app_assoc.
Qed.

Lemma alcohol_of_rs_run c l rs :
  0 < rs ->
  hoare (Run sig button c l) (alcohol_of_rs rs) (fun _ => Run sig button c l) never.
Proof.
  intros Hrs w H. assert (Hr : 0 < r0 w) by apply H.
  rewrite alcohol_of_rs_ok; [exact H | lra | now apply Rdiv_lt_0_compat].
Qed.

Lemma read_raw_run c l :
  hoare (Run sig button c l) read_raw_value_of_alcohol
        (fun _ => Run sig button c (l ++ [(ctl_state c, Sampled)])) never.
Proof.
  unfold read_raw_value_of_alcohol.
  eapply hoare_bind; [apply calculate_rs_run | intros rs].
  intros w [H Hrs]. now apply alcohol_of_rs_run.
Qed.

Lemma get_smoothed_reading_run c l :
  hoare (Run sig button c l) get_smoothed_reading
        (fun _ => Run sig button c (l ++ [(ctl_state c, Sampled)])) never.
Proof.
  intros w Hw. unfold get_smoothed_reading. unfold bind at 1.
  pose proof (read_raw_run c l w Hw) as Hraw.
  destruct (read_raw_value_of_alcohol w) as [raw w1 | e w1]; [| exact Hraw].
  assert (Hpost : Run sig button c (l ++ [(ctl_state c, Sampled)])
                      (set_readings (push_window (readings w1) raw) w1))
    by exact Hraw.
  assert (Hne : INR (List.length (push_window (readings w1) raw)) <> 0).
  { apply not_0_INR. pose proof (push_window_nonempty (readings w1) raw). lia. }
  run_step. run_step.
  revert Hpost Hne. unfold push_window.
  change (readings (set_readings (readings w1 ++ [raw]) w1)) with (readings w1 ++ [raw]).
  destruct (max_readings <? List.length (readings w1 ++ [raw]))%nat; intros Hpost Hne;
    run_step; run_step; now rewrite fdiv_ok.
Qed.

Lemma assign_state_run t b s last l s' :
  hoare (Run sig button (mkController t b s last) l) (assign_state s')
        (fun _ => Run sig button (mkController t b s' last) (l ++ [(s', Assigned s')]))
        never.
Proof.
  intros w H. apply Run_fields in H. apply Run_fields.
  destruct H as (H1 & H2 & H3 & H4 & H5 & H6 & H7 & H8).
  cbn. rewrite landmarks_app, H8. now repeat split.
Qed.

Lemma Run_state t b s last l w :
  Run sig button (mkController t b s last) l w -> state w = s.
Proof. intros H. apply Run_fields in H. tauto. Qed.

Lemma handle_button_run d t b s last l :
  hoare (Run sig button (mkController t b s last) l) (handle_button d)
        (fun _ => Run sig button
                    (mkController (t + poll_time d s) b (next_state d s) last)
                    (l ++ poll_landmarks d s)) never.
Proof.
  unfold handle_button, next_state, poll_time, poll_landmarks.
  destruct (0 <? d)%Z.
  2:{ apply hoare_ret. intros w H. rewrite app_nil_r.
      now replace (t + 0)%Z with t by lia. }
  destruct (LONG_PRESS_TIME <=? d)%Z.
  - apply (hoare_bind_known _ _ s); [apply Run_state |].
    destruct (State_eqb s OFF).
    + eapply hoare_bind.
      { eapply hoare_bind; [apply assign_state_run | intros ?].
        eapply hoare_bind; [apply warm_up_run | intros ?]. apply log_run. }
      intros ?. apply (hoare_bind_known _ _ ON); [apply Run_state |].
      eapply hoare_bind; [apply display_message_run | intros ?].
      eapply hoare_Run_post; [apply utime_sleep_run | f_equal; lia |].
      cbn [ctl_state landmark_of tagged map State_eqb]. unfold tagged.
      rewrite map_app, <- !app_assoc. reflexivity.
    + eapply hoare_bind.
      { eapply hoare_bind; [apply assign_state_run | intros ?]. apply log_run. }
      intros ?. apply (hoare_bind_known _ _ OFF); [apply Run_state |].
      eapply hoare_bind; [apply display_message_run | intros ?].
      eapply hoare_Run_post; [apply utime_sleep_run | reflexivity |].
      cbn [ctl_state landmark_of tagged map State_eqb].
      rewrite <- !app_assoc. reflexivity.
  - apply (hoare_bind_known _ _ s); [apply Run_state |].
    destruct (State_eqb s ON && (d <? LONG_PRESS_TIME)%Z).
    + eapply hoare_bind; [apply assign_state_run | intros ?].
      eapply hoare_bind; [apply calibrate_run | intros ?].
      eapply hoare_Run_post; [apply assign_state_run | reflexivity |].
      cbn [tagged map]. rewrite <- !app_assoc. reflexivity.
    + apply hoare_ret. intros w H. rewrite app_nil_r.
      now replace (t + 0)%Z with t by lia.
Qed.

Lemma periodic_reading_run t b s last l :
  hoare (Run sig button (mkController t b s last) l) periodic_reading
        (fun _ => Run sig button
                    (mkController t b s
                       (if takes_reading t s last then (t / 1000)%Z else last))
                    (l ++ if takes_reading t s last
                          then tagged s reading_landmarks else [])) never.
Proof.
  unfold periodic_reading, takes_reading, utime_time.
  apply (hoare_bind_known _ _ s); [apply Run_state |].
  destruct (State_eqb s ON); cbn [andb].
  2:{ apply hoare_ret. intros w H. now rewrite app_nil_r. }
  apply (hoare_bind_known _ _ (t / 1000)%Z).
  { intros w H. apply Run_fields in H. destruct H as (_ & _ & -> & _). reflexivity. }
  apply (hoare_bind_known _ _ last).
  { intros w H. apply Run_fields in H. tauto. }
  destruct (reading_interval <=? t / 1000 - last)%Z.
  2:{ apply hoare_ret. intros w H. now rewrite app_nil_r. }
  eapply hoare_bind; [apply get_smoothed_reading_run | intros raw].
  eapply hoare_bind; [apply log_run | intros ?].
  do 4 (eapply hoare_bind; [apply display_message_run | intros ?]).
  apply hoare_modify. intros w H. apply Run_fields in H. apply Run_fields.
  destruct H as (H1 & H2 & H3 & H4 & H5 & H6 & H7 & H8).
  cbn [ctl_state landmark_of tagged map reading_landmarks] in *.
  rewrite <- !app_assoc in H8. cbn in *. now repeat split.
Qed.

Lemma loop_body_run c l w :
  Run sig button c l w ->
  exists w', loop_body w = Ok tt w' /\
             Run sig button (fst (controller_step button c))
                 (l ++ snd (controller_step button c)) w'.
Proof.
  destruct c as [t b s last]. intros H. unfold loop_body.
  rewrite (bind_ok _ _ _ _ _ (check_button_eq w)).
  pose proof H as H'. apply Run_fields in H'.
  destruct H' as (H1 & H2 & H3 & H4 & H5 & H6 & H7 & H8).
  unfold button_duration, button_mark. rewrite H2, H3, H4.
  set (d := press_duration button t b). set (b' := press_mark button t b).
  assert (H0 : Run sig button (mkController t b' s last) l
                   (set_button_press_time b' w)).
  { apply Run_fields. cbn. now repeat split. }
  assert (Hrest : hoare (Run sig button (mkController t b' s last) l)
                    (handle_button d ;; periodic_reading ;; utime_sleep 100)
                    (fun _ => Run sig button
                                (fst (controller_step button (mkController t b s last)))
                                (l ++ snd (controller_step button (mkController t b s last))))
                    never).
  { eapply hoare_bind; [apply handle_button_run | intros ?].
    eapply hoare_bind; [apply periodic_reading_run | intros ?].
    eapply hoare_Run_post; [apply utime_sleep_run | reflexivity |].
    cbn [controller_step snd ctl_clock ctl_press_time ctl_state ctl_last_reading_time].
    fold d. now rewrite <- app_assoc. }
  specialize (Hrest _ H0).
  destruct ((handle_button d ;; periodic_reading ;; utime_sleep 100)
              (set_button_press_time b' w)) as [[] w' | e w'];
    [| contradiction].
  now exists w'.
Qed.

Lemma main_loop_run n : forall c l w,
  Run sig button c l w ->
  exists w', main_loop n w = Ok tt w' /\
             Run sig button (fst (controller_run n button c))
                 (l ++ snd (controller_run n button c)) w'.
Proof.
  induction n as [| n IH]; intros c l w H.
  - exists w. cbn. now rewrite app_nil_r.
  - destruct (loop_body_run c l w H) as (w1 & E1 & H1).
    cbn [controller_run main_loop]. rewrite (bind_ok _ _ _ _ _ E1).
    revert H1. destruct (controller_step button c) as [c1 l1]. cbn [fst snd].
    intros H1. destruct (IH _ _ _ H1) as (w' & E' & H').
    exists w'. split; [exact E' |].
    revert H'. destruct (controller_run n button c1) as [c2 l2]. cbn [fst snd].
    now rewrite app_assoc.
Qed.
End FaultFree.

Lemma boot_Run adc button t0 :
  Run adc button (mkController t0 0 OFF 0) [] (boot adc button t0).
Proof. unfold Run. cbn. repeat split; lra. Qed.

(** ** Enclosures of [exp], [ln] and the sensor law *)

Lemma Rdiv_nonneg a b : 0 <= a -> 0 < b -> 0 <= a / b.
Proof.
  intros Ha Hb. apply Rmult_le_pos; [exact Ha | left; now apply Rinv_0_lt_compat].
Qed.

Lemma fx_one_pos : 0 < IZR fx_one.
Proof. apply IZR_lt. reflexivity. Qed.

Lemma fx_square_ok m y :
  (0 <= m)%Z -> IZR m / IZR fx_one <= y ->
  (0 <= fx_square m)%Z /\ IZR (fx_square m) / IZR fx_one <= y * y.
Proof.
  intros Hm Hy. pose proof fx_one_pos as Hone. unfold fx_square.
  assert (Hq : (m * m / fx_one * fx_one <= m * m)%Z).
  { rewrite Z.mul_comm. apply Z.mul_div_le. reflexivity. }
  split; [apply Z.div_pos; [nia | reflexivity] |].
  apply IZR_le in Hq. rewrite !mult_IZR in Hq.
  apply IZR_le in Hm.
  set (q := IZR (m * m / fx_one)) in *.
  assert (H0 : 0 <= IZR m / IZR fx_one) by (apply Rdiv_nonneg; lra).
  apply Rle_trans with ((IZR m / IZR fx_one) * (IZR m / IZR fx_one)); [| nra].
  apply Rmult_le_reg_r with (IZR fx_one); [exact Hone |].
  apply Rmult_le_reg_r with (IZR fx_one); [exact Hone |].
  replace (q / IZR fx_one * IZR fx_one * IZR fx_one) with (q * IZR fx_one) by (field; lra).
  replace (IZR m / IZR fx_one * (IZR m / IZR fx_one) * IZR fx_one * IZR fx_one)
    with (IZR m * IZR m) by (field; lra).
  exact Hq.
Qed.

Lemma fx_iter_ok k : forall m y,
  (0 <= m)%Z -> IZR m / IZR fx_one <= y ->
  (0 <= Nat.iter k fx_square m)%Z /\
  IZR (Nat.iter k fx_square m) / IZR fx_one <= y ^ (2 ^ k).
Proof.
  induction k as [| k IH]; intros m y Hm Hy.
  - cbn [Nat.iter Nat.pow pow]. rewrite Rmult_1_r. now split.
  - destruct (IH m y Hm Hy) as [H1 H2].
    cbn [Nat.iter]. 
    destruct (fx_square_ok _ _ H1 H2) as [H3 H4].
    split; [exact H3 |].
    replace (2 ^ S k)%nat with (2 ^ k * 2)%nat by (cbn; lia).
    rewrite pow_mult. cbn [pow]. now rewrite Rmult_1_r.
Qed.

Lemma exp_pow_nat n z : (exp z) ^ n = exp (INR n * z).
Proof.
  induction n as [| n IH].
  - cbn. now rewrite Rmult_0_l, exp_0.
  - rewrite S_INR. cbn [pow]. rewrite IH, <- exp_plus. f_equal. ring.
Qed.

Lemma exp_floor_at_ok k a b :
  (0 < b)%Z -> (0 <= b * 2 ^ Z.of_nat k + a)%Z ->
  IZR (exp_floor_at k a b) / IZR fx_one <= exp (IZR a / IZR b).
Proof.
  intros Hb Hn. pose proof fx_one_pos as Hone. unfold exp_floor_at. cbv zeta.
  set (K := (2 ^ Z.of_nat k)%Z) in *.
  assert (HKz : (0 < K)%Z) by (subst K; apply Z.pow_pos_nonneg; lia).
  assert (HK : 0 < IZR K) by now apply IZR_lt.
  assert (HbR : 0 < IZR b) by now apply IZR_lt.
  set (z := IZR a / IZR b / IZR K).
  assert (Hd : (0 < b * K)%Z) by lia.
  set (m0 := (fx_one * (b * K + a) / (b * K))%Z).
  assert (Hm0 : (0 <= m0)%Z).
  { apply Z.div_pos; [| exact Hd]. apply Z.mul_nonneg_nonneg; [discriminate | exact Hn]. }
  assert (Hy : IZR m0 / IZR fx_one <= 1 + z).
  { assert (Hq : (m0 * (b * K) <= fx_one * (b * K + a))%Z).
    { subst m0. rewrite Z.mul_comm. apply Z.mul_div_le. exact Hd. }
    apply IZR_le in Hq. rewrite !mult_IZR, plus_IZR, mult_IZR in Hq.
    apply Rmult_le_reg_r with (IZR fx_one * (IZR b * IZR K));
      [apply Rmult_lt_0_compat; [lra | apply Rmult_lt_0_compat; lra] |].
    replace (IZR m0 / IZR fx_one * (IZR fx_one * (IZR b * IZR K)))
      with (IZR m0 * (IZR b * IZR K)) by (field; lra).
    replace ((1 + z) * (IZR fx_one * (IZR b * IZR K)))
      with (IZR fx_one * (IZR b * IZR K + IZR a)) by (subst z; field; lra).
    exact Hq. }
  destruct (fx_iter_ok k m0 (1 + z) Hm0 Hy) as [_ H].
  apply Rle_trans with (1 := H).
  apply Rle_trans with ((exp z) ^ (2 ^ k)).
  - apply pow_incr. split; [| apply exp_ineq1_le].
    apply Rle_trans with (2 := Hy). apply IZR_le in Hm0.
    apply Rdiv_nonneg; lra.
  - rewrite exp_pow_nat. right. f_equal.
    replace (INR (2 ^ k)) with (IZR K).
    + subst z. field. lra.
    + subst K. rewrite pow_INR, <- pow_IZR. reflexivity.
Qed.

Lemma exp_floor_ok a b :
  (0 < b)%Z -> (- a <= b * 1073741824)%Z ->
  IZR (exp_floor a b) / IZR fx_one <= exp (IZR a / IZR b).
Proof.
  intros Hb Hn. apply (exp_floor_at_ok fx_steps); [exact Hb |].
  change (2 ^ Z.of_nat fx_steps)%Z with 1073741824%Z. lia.
Qed.

Lemma inverse_bound (L s e : R) :
  0 < L -> 0 < s -> 0 < e -> L / s <= / e -> e <= s / L.
Proof.
  intros HL Hs He H.
  apply Rmult_le_reg_r with (L / s); [now apply Rdiv_lt_0_compat |].
  replace (s / L * (L / s)) with 1 by (field; lra).
  apply Rle_trans with (e * / e); [| right; field; lra].
  apply Rmult_le_compat_l; lra.
Qed.

Lemma exp_ceil_ok a b :
  (0 < b)%Z -> (a <= b * 1073741824)%Z -> (0 < exp_floor (- a) b)%Z ->
  exp (IZR a / IZR b) <= IZR fx_one / IZR (exp_floor (- a) b).
Proof.
  intros Hb Hn Hpos.
  assert (H : IZR (exp_floor (- a) b) / IZR fx_one <= exp (IZR (- a) / IZR b))
    by (apply exp_floor_ok; lia).
  replace (IZR (- a) / IZR b) with (- (IZR a / IZR b)) in H
    by (rewrite opp_IZR; field; apply IZR_lt in Hb; lra).
  rewrite exp_Ropp in H.
  apply inverse_bound; [now apply IZR_lt | apply fx_one_pos | apply exp_pos | exact H].
Qed.

(** Enclosures of the logarithm *)
Lemma ln_ge a b x :
  (0 < b)%Z -> (a <= b * 1073741824)%Z -> (0 < exp_floor (- a) b)%Z ->
  IZR fx_one / IZR (exp_floor (- a) b) <= x -> IZR a / IZR b <= ln x.
Proof.
  intros Hb Hn Hpos Hx. pose proof (exp_ceil_ok a b Hb Hn Hpos) as H.
  pose proof (exp_pos (IZR a / IZR b)) as He.
  assert (Hxpos : 0 < x) by lra.
  destruct (Rle_lt_dec (IZR a / IZR b) (ln x)) as [Hle | Hlt]; [exact Hle |].
  apply exp_increasing in Hlt. rewrite exp_ln in Hlt by exact Hxpos. lra.
Qed.

Lemma ln_le a b x :
  (0 < b)%Z -> (- a <= b * 1073741824)%Z ->
  0 < x -> x <= IZR (exp_floor a b) / IZR fx_one -> ln x <= IZR a / IZR b.
Proof.
  intros Hb Hn Hxpos Hx. pose proof (exp_floor_ok a b Hb Hn) as H.
  destruct (Rle_lt_dec (ln x) (IZR a / IZR b)) as [Hle | Hlt]; [exact Hle |].
  apply exp_increasing in Hlt. rewrite exp_ln in Hlt by exact Hxpos. lra.
Qed.


Lemma ratio_le (a b c d : Z) :
  (0 < b)%Z -> (0 < d)%Z -> (a * d <= c * b)%Z -> IZR a / IZR b <= IZR c / IZR d.
Proof.
  intros Hb Hd H. apply IZR_lt in Hb, Hd. apply IZR_le in H. rewrite !mult_IZR in H.
  set (ra := IZR a) in *. set (rb := IZR b) in *. set (rc := IZR c) in *. set (rd := IZR d) in *.
  apply Rmult_le_reg_r with (rb * rd); [now apply Rmult_lt_0_compat |].
  replace (ra / rb * (rb * rd)) with (ra * rd) by (field; lra).
  replace (rc / rd * (rb * rd)) with (rc * rb) by (field; lra).
  exact H.
Qed.

Lemma response_bounds (xn xd lo hi b Ln Ld Un Ud : Z) :
  response_check xn xd lo hi b Ln Ld Un Ud = true ->
  IZR Ln / IZR Ld <= Rpower (IZR xn / IZR xd) (-1.43068) <= IZR Un / IZR Ud.
Proof.
  unfold response_check. rewrite !andb_true_iff.
  intros [[[[[[[[[[[[[[Hxn Hxd] Hb] HLd] HUd] Hlo] Hhi] Hlo'] Hhi'] Hf1] Hc1] Hc2] Hc3] Hf2] Hc4].
  apply Z.ltb_lt in Hxn, Hxd, Hb, HLd, HUd, Hf1, Hf2.
  apply Z.leb_le in Hlo, Hhi, Hlo', Hhi', Hc1, Hc2, Hc3, Hc4.
  assert (Hone : (0 < fx_one)%Z) by reflexivity.
  set (x := IZR xn / IZR xd).
  assert (Hx : 0 < x).
  { apply Rdiv_lt_0_compat; now apply IZR_lt. }
  assert (Hln1 : IZR lo / IZR b <= ln x).
  { apply ln_ge; [exact Hb | lia | exact Hf1 |].
    apply ratio_le; [exact Hf1 | exact Hxd | lia]. }
  assert (Hln2 : ln x <= IZR hi / IZR b).
  { apply ln_le; [exact Hb | lia | exact Hx |].
    apply ratio_le; [exact Hxd | exact Hone | lia]. }
  assert (HbR : 0 < IZR b) by now apply IZR_lt.
  unfold Rpower. fold x. split.
  - apply Rle_trans with (IZR (exp_floor (-143068 * hi) (100000 * b)) / IZR fx_one).
    { apply ratio_le; [exact HLd | exact Hone | lia]. }
    apply Rle_trans with (exp (IZR (-143068 * hi) / IZR (100000 * b))).
    { apply exp_floor_ok; lia. }
    assert (E : IZR (-143068 * hi) / IZR (100000 * b) = -1.43068 * (IZR hi / IZR b)).
    { rewrite !mult_IZR.
      replace (-1.43068) with (IZR (-143068) / IZR 100000) by lra. field. lra. }
    rewrite E.
    destruct (Rle_lt_or_eq_dec _ _ Hln2) as [Hlt | ->]; [| lra].
    left. apply exp_increasing. nra.
  - apply Rle_trans with (IZR fx_one / IZR (exp_floor (- (-143068 * lo)) (100000 * b))).
    2:{ replace (- (-143068 * lo))%Z with (143068 * lo)%Z by lia.
        apply ratio_le; [exact Hf2 | exact HUd | lia]. }
    apply Rle_trans with (exp (IZR (-143068 * lo) / IZR (100000 * b))).
    2:{ apply exp_ceil_ok; [lia | lia |].
        now replace (- (-143068 * lo))%Z with (143068 * lo)%Z by lia. }
    assert (E : IZR (-143068 * lo) / IZR (100000 * b) = -1.43068 * (IZR lo / IZR b)).
    { rewrite !mult_IZR.
      replace (-1.43068) with (IZR (-143068) / IZR 100000) by lra. field. lra. }
    rewrite E.
    destruct (Rle_lt_or_eq_dec _ _ Hln1) as [Hlt | <-]; [| lra].
    left. apply exp_increasing. nra.
Qed.


(** ** The values of the tests *)

Lemma resistance_1000 : resistance 1000 = 3095.
Proof. unfold resistance. lra. Qed.
Lemma resistance_2000 : resistance 2000 = 1047.5.
Proof. unfold resistance. lra. Qed.
Lemma resistance_3000 : resistance 3000 = 365.
Proof. unfold resistance. lra. Qed.
Lemma resistance_4000 : resistance 4000 = 23.75.
Proof. unfold resistance. lra. Qed.

Ltac response_by H :=
  match goal with
  | |- ?L <= Rpower ?x _ <= ?U =>
      let E := fresh in
      pose proof H as E;
      match type of E with
      | _ -> ?L' <= Rpower ?x' _ <= ?U' =>
          replace L with L' by lra; replace U with U' by lra; replace x with x' by lra
      end;
      apply E; vm_compute; reflexivity
  end.

Lemma response_1000 : 0.198619 <= Rpower (3095 / 1000) (-1.43068) <= 0.198620.
Proof.
  response_by (response_bounds 3095 1000 112978787 112978794 100000000 198619 1000000 198620 1000000).
Qed.

Lemma response_2000 : 0.935763 <= Rpower (1047.5 / 1000) (-1.43068) <= 0.935764.
Proof.
  response_by (response_bounds 10475 10000 4640634 4640641 100000000 935763 1000000 935764 1000000).
Qed.

Lemma response_3000 : 4.228816 <= Rpower (365 / 1000) (-1.43068) <= 4.228817.
Proof.
  response_by (response_bounds 365 1000 (-100785796) (-100785789) 100000000 4228816 1000000 4228817 1000000).
Qed.

Lemma response_4000 : 210.8169 <= Rpower (23.75 / 1000) (-1.43068) <= 210.8171.
Proof.
  response_by (response_bounds 2375 100000 (-374017278) (-374017271) 100000000 2108169 10000 2108171 10000).
Qed.

Lemma concentration_1000 : 0.0794 <= concentration (resistance 1000) 1000 <= 0.0795.
Proof.
  unfold concentration. rewrite resistance_1000. pose proof response_1000. lra.
Qed.
Lemma concentration_2000 : 0.3743 <= concentration (resistance 2000) 1000 <= 0.3744.
Proof.
  unfold concentration. rewrite resistance_2000. pose proof response_2000. lra.
Qed.
Lemma concentration_3000 : 1.6915 <= concentration (resistance 3000) 1000 <= 1.6916.
Proof.
  unfold concentration. rewrite resistance_3000. pose proof response_3000. lra.
Qed.
Lemma concentration_4000 : 84.3267 <= concentration (resistance 4000) 1000 <= 84.3269.
Proof.
  unfold concentration. rewrite resistance_4000. pose proof response_4000. lra.
Qed.

Lemma approx_equal_between a b tol lo hi :
  lo <= a <= hi -> b - tol < lo -> hi < b + tol -> approx_equal a b tol.
Proof.
  intros [H1 H2] H3 H4. unfold approx_equal. apply Rabs_def1; lra.
Qed.


(** ** The tests' loops *)

Lemma next_samples_advance w w' n :
  adc_signal w' = adc_signal w -> adc_reads w' = S (adc_reads w) ->
  next_samples w (S n) = next_sample w :: next_samples w' n.
Proof.
  intros Hs Hr. unfold next_samples. cbn [seq map]. rewrite sample_at_0. f_equal.
  rewrite <- seq_shift, map_map. apply map_ext. intros i.
  unfold sample_at. now rewrite Hs, Hr, Nat.add_succ_r.
Qed.

Lemma collect_calculate_rs n : forall w,
  ~ In 0%Z (next_samples w n) ->
  exists w', collect n _calculate_rs w = Ok (map resistance (next_samples w n)) w'.
Proof.
  induction n as [| n IH]; intros w Hnz.
  - now exists w.
  - rewrite (next_samples_advance w (readW w)) in * by reflexivity.
    destruct (IH (readW w)) as [w' Hw']; [intros H; apply Hnz; now right |].
    exists w'. cbn [collect map].
    erewrite bind_ok by (apply calculate_rs_ok; intros E; apply Hnz; now left).
    erewrite bind_ok by exact Hw'. reflexivity.
Qed.

Lemma collect_read_raw n : forall w,
  r0 w <> 0 ->
  Forall (fun s => s <> 0%Z /\ 0 < resistance s / r0 w) (next_samples w n) ->
  exists w',
    collect n read_raw_value_of_alcohol w
    = Ok (map (fun s => concentration (resistance s) (r0 w)) (next_samples w n)) w'.
Proof.
  induction n as [| n IH]; intros w Hr Hall.
  - now exists w.
  - rewrite (next_samples_advance w (readW w)) in * by reflexivity.
    inversion Hall as [| s l [Hs Hpos] Hrest]; subst.
    destruct (IH (readW w) Hr Hrest) as [w' Hw'].
    exists w'. cbn [collect map].
    erewrite bind_ok by (now apply read_raw_ok).
    erewrite bind_ok by exact Hw'. reflexivity.
Qed.

Lemma collect_smoothed n : forall w,
  r0 w <> 0 ->
  Forall (fun s => s <> 0%Z /\ 0 < resistance s / r0 w) (next_samples w n) ->
  exists w',
    collect n get_smoothed_reading w
    = Ok (running_means (readings w)
            (map (fun s => concentration (resistance s) (r0 w)) (next_samples w n))) w'.
Proof.
  induction n as [| n IH]; intros w Hr Hall.
  - now exists w.
  - rewrite (next_samples_advance w (readW w)) in * by reflexivity.
    inversion Hall as [| s l [Hs Hpos] Hrest]; subst.
    set (raw := concentration (resistance (next_sample w)) (r0 w)).
    destruct (IH (set_readings (push_window (readings w) raw) (readW w)) Hr Hrest)
      as [w' Hw'].
    exists w'. cbn [collect map running_means].
    erewrite bind_ok by (apply get_smoothed_reading_ok; now apply read_raw_ok).
    erewrite bind_ok by exact Hw'. reflexivity.
Qed.


(** ** Calibration on the mock *)

Lemma calibrate_zero w :
  next_sample w = 0%Z ->
  calibrate w
  = Fault ZeroDivisionError
      (readW (emitW (Display (Lit "Calibrating...") 0 0 true)
                (emitW (Log 20 (Lit "Calibrating sensor...")) w))).
Proof.
  intros Hs. unfold calibrate, for_range. run_step. run_step.
  apply bind_fault.
  change (seq 0 (Z.to_nat NUM_CALIBRATION_READINGS)) with (0 :: seq 1 9)%nat.
  cbn [for_each]. apply bind_fault, bind_fault, calculate_rs_zero. exact Hs.
Qed.

Lemma mean_ratioed w :
  calibrated_r0 w
  = mean (map (fun s => resistance s / AIR_R0_RATIO)
              (next_samples w (Z.to_nat NUM_CALIBRATION_READINGS))).
Proof.
  unfold calibrated_r0, mean, ratioed, next_samples.
  rewrite !length_map, length_seq. f_equal.
  change (Z.to_nat NUM_CALIBRATION_READINGS) with 10%nat.
  unfold NUM_CALIBRATION_READINGS. cbn [INR]. lra.
Qed.

Lemma mock_readings_In (l : list Z) i : l <> [] -> In (mock_readings l i) l.
Proof.
  intros Hne. unfold mock_readings. apply nth_In.
  apply Nat.mod_upper_bound. destruct l; [contradiction | discriminate].
Qed.

Lemma test_sensor_sample_In mock r i :
  mock <> [] -> In (sample_at (test_sensor mock r) i) mock.
Proof. intros Hne. now apply mock_readings_In. Qed.

(** A calibration on samples without a 0: its ten samples, the r0 it sets
    and its two messages. *)
Lemma calibrate_takes_ten w :
  ~ In 0%Z (next_samples w (Z.to_nat NUM_CALIBRATION_READINGS)) ->
  exists w' events,
    calibrate w = Ok tt w'
    /\ trace w' = trace w ++ events
    /\ sampled events = next_samples w (Z.to_nat NUM_CALIBRATION_READINGS)
    /\ List.length (sampled events) = 10%nat
    /\ r0 w' = mean (map (fun s => resistance s / AIR_R0_RATIO) (sampled events))
    /\ displayed events = [Lit "Calibrating..."; Lit "Calibration done"].
Proof.
  intros Hnz.
  exists (calibrate_post w), (map (pair (state w)) (calibrate_events w)).
  destruct (calibrate_post_fields w) as (_ & _ & _ & _ & _ & F6 & _ & _ & _ & F10).
  cbv zeta in F6, F10.
  rewrite calibrate_events_sampled, calibrate_events_displayed, F6, mean_ratioed.
  split; [| split; [exact F10 | split; [reflexivity | split; [| split; reflexivity]]]].
  - apply (calibrate_ok w). intros i Hi E. apply Hnz. unfold next_samples.
    apply in_map_iff. exists i. split; [exact E | apply in_seq; lia].
  - unfold next_samples. now rewrite length_map, length_seq.
Qed.

(** ** The window as a queue *)

Lemma push_window_room l raw :
  (List.length l < max_readings)%nat -> push_window l raw = l ++ [raw].
Proof.
  intros H. unfold push_window. rewrite length_app. cbn [List.length].
  destruct (Nat.ltb_spec max_readings (List.length l + 1)); [lia | reflexivity].
Qed.

Lemma push_window_full l raw :
  (max_readings <= List.length l)%nat ->
  exists oldest rest, l = oldest :: rest /\ push_window l raw = rest ++ [raw].
Proof.
  intros H. unfold push_window. rewrite length_app. cbn [List.length].
  destruct (Nat.ltb_spec max_readings (List.length l + 1)); [| lia].
  destruct l as [| oldest rest]; [cbn in H; unfold max_readings in H; lia |].
  now exists oldest, rest.
Qed.

(** ** Positive calibrations, whole runs, and the slope of the sensor law *)

Lemma calibrated_r0_pos_next w :
  Forall (fun s => (1 <= s <= 4094)%Z)
         (next_samples w (Z.to_nat NUM_CALIBRATION_READINGS)) ->
  0 < calibrated_r0 w.
Proof.
  intros Hall. unfold calibrated_r0.
  apply Rdiv_lt_0_compat; [| unfold NUM_CALIBRATION_READINGS; lra].
  apply sum_pos; [| discriminate].
  unfold ratioed. rewrite Forall_map. eapply Forall_impl; [| exact Hall].
  intros s Hs. cbv beta.
  apply Rdiv_lt_0_compat; [now apply resistance_pos | unfold AIR_R0_RATIO; lra].
Qed.

Lemma concentration_decreasing r rs1 rs2 :
  0 < r -> 0 < rs1 -> rs1 < rs2 -> concentration rs2 r < concentration rs1 r.
Proof.
  intros Hr H1 H12. unfold concentration, Rpower.
  assert (Hx1 : 0 < rs1 / r) by now apply Rdiv_lt_0_compat.
  assert (Hx : rs1 / r < rs2 / r).
  { unfold Rdiv. apply Rmult_lt_compat_r; [now apply Rinv_0_lt_compat | exact H12]. }
  pose proof (ln_increasing _ _ Hx1 Hx) as Hln.
  assert (Hexp : exp (-1.43068 * ln (rs2 / r)) < exp (-1.43068 * ln (rs1 / r)))
    by (apply exp_increasing; lra).
  lra.
Qed.

(** ** Powers of two and the doubles' range *)













(** ** The conversion with the doubles' range *)







(** ** The loop refines the controller; three scenarios *)

Lemma State_eqb_eq a b : State_eqb a b = true <-> a = b.
Proof. destruct a, b; cbn; split; intros H; try reflexivity; discriminate. Qed.

Lemma Landmark_eqb_eq a b : Landmark_eqb a b = true <-> a = b.
Proof.
  destruct a as [s | m | |], b as [s' | m' | |]; cbn;
    try (split; [discriminate | discriminate]); try tauto.
  - rewrite State_eqb_eq. split; [now intros -> | now intros [= ->]].
  - rewrite String.eqb_eq. split; [now intros -> | now intros [= ->]].
Qed.

Lemma occurs_In x l : occurs x l = true <-> In x l.
Proof.
  unfold occurs. rewrite existsb_exists. split.
  - intros [[s k] [Hin H]]. apply andb_true_iff in H. destruct H as [H1 H2].
    apply State_eqb_eq in H1. apply Landmark_eqb_eq in H2.
    destruct x as [s' k']. cbn in *. now subst.
  - intros Hin. exists x. split; [exact Hin |].
    apply andb_true_iff. split; [now apply State_eqb_eq | now apply Landmark_eqb_eq].
Qed.

Lemma occurs_not_In x l : occurs x l = false -> ~ In x l.
Proof. intros H Hin. apply occurs_In in Hin. congruence. Qed.


Lemma Run_of_world w :
  0 < r0 w ->
  Run (adc_signal w) (button_signal w) (controller_of w) (landmarks (trace w)) w.
Proof. intros H. unfold Run. now repeat split. Qed.

(** A turn of the loop refines a step of the controller. *)
Lemma loop_body_refines w :
  good_signal (adc_signal w) -> 0 < r0 w ->
  exists w',
    loop_body w = Ok tt w'
    /\ adc_signal w' = adc_signal w /\ button_signal w' = button_signal w /\ 0 < r0 w'
    /\ controller_of w' = fst (controller_step (button_signal w) (controller_of w))
    /\ landmarks (trace w')
       = landmarks (trace w) ++ snd (controller_step (button_signal w) (controller_of w)).
Proof.
  intros Hsig Hr.
  destruct (loop_body_run _ _ Hsig _ _ _ (Run_of_world w Hr)) as (w' & E & H).
  exists w'. destruct H as (H1 & H2 & H3 & H4 & H5). now repeat split.
Qed.

Lemma main_loop_refines n w :
  good_signal (adc_signal w) -> 0 < r0 w ->
  exists w',
    main_loop n w = Ok tt w'
    /\ adc_signal w' = adc_signal w /\ button_signal w' = button_signal w /\ 0 < r0 w'
    /\ controller_of w' = fst (controller_run n (button_signal w) (controller_of w))
    /\ landmarks (trace w')
       = landmarks (trace w) ++ snd (controller_run n (button_signal w) (controller_of w)).
Proof.
  intros Hsig Hr.
  destruct (main_loop_run _ _ Hsig n _ _ _ (Run_of_world w Hr)) as (w' & E & H).
  exists w'. destruct H as (H1 & H2 & H3 & H4 & H5). now repeat split.
Qed.

Lemma steady_good : good_signal steady.
Proof. intros n. unfold steady. lia. Qed.

Lemma landmarks_In s k t :
  In (s, k) (landmarks t) -> exists e, In (s, e) t /\ In k (landmark_of e).
Proof.
  unfold landmarks, tagged. rewrite in_flat_map. intros [[s' e] [Hin Hk]].
  cbn [fst snd] in Hk. apply in_map_iff in Hk. destruct Hk as [k' [E Hk']].
  injection E as <- <-. now exists e.
Qed.

Lemma Sampled_In s t : In (s, Sampled) (landmarks t) -> exists v, In (s, Read v) t.
Proof.
  intros H. apply landmarks_In in H. destruct H as [e [Hin Hk]].
  destruct e as [v | [m | ? ? ? ?] x y c | ? ? | ? | ?]; cbn in Hk;
    try (destruct Hk as [Hk | []]; discriminate); try contradiction.
  now exists v.
Qed.

Lemma Shown_In s m t :
  In (s, Shown m) (landmarks t) -> exists x y c, In (s, Display (Lit m) x y c) t.
Proof.
  intros H. apply landmarks_In in H. destruct H as [e [Hin Hk]].
  destruct e as [v | [m' | ? ? ? ?] x y c | ? ? | ? | ?]; cbn in Hk;
    try (destruct Hk as [Hk | []]; discriminate); try contradiction.
  destruct Hk as [Hk | []]. injection Hk as ->. now exists x, y, c.
Qed.

(** The runs of the three scenarios. *)
Ltac run_from_boot n button :=
  let w' := fresh "w'" in
  let E := fresh "E" in
  let Hc := fresh "Hc" in
  let Hl := fresh "Hl" in
  destruct (main_loop_refines n (boot steady button 5000) steady_good)
    as (w' & E & _ & _ & _ & Hc & Hl);
  [cbn; lra |];
  cbn [boot adc_signal button_signal controller_of clock button_press_time state
       last_reading_time trace landmarks flat_map app] in Hc, Hl;
  match type of Hc with
  | _ = fst ?r =>
      let cl := fresh "cl" in
      set (cl := r) in Hc, Hl; vm_compute in cl; subst cl; cbn [fst snd] in Hc, Hl
  end.

Lemma tap_then_hold_samples_in_calibrating :
  exists w' v,
    main_loop 41 (boot steady tap_then_hold 5000) = Ok tt w'
    /\ In (CALIBRATING, Read v) (trace w').
Proof.
  run_from_boot 41%nat tap_then_hold.
  destruct (Sampled_In CALIBRATING (trace w')) as [v Hv].
  { rewrite Hl. apply (proj1 (occurs_In _ _)). vm_compute. reflexivity. }
  exists w', v. split; [exact E | exact Hv].
Qed.

Lemma tap_then_hold_displays_in_calibrating :
  exists w' x y c,
    main_loop 41 (boot steady tap_then_hold 5000) = Ok tt w'
    /\ In (CALIBRATING, Display (Lit "Calibrating...") x y c) (trace w').
Proof.
  run_from_boot 41%nat tap_then_hold.
  destruct (Shown_In CALIBRATING "Calibrating..." (trace w')) as (x & y & c & H).
  { rewrite Hl. apply (proj1 (occurs_In _ _)). vm_compute. reflexivity. }
  exists w', x, y, c. split; [exact E | exact H].
Qed.

Lemma held_forever_displays_in_off :
  exists w' x y c,
    main_loop 32 (boot steady held_forever 5000) = Ok tt w'
    /\ In (OFF, Display (Lit "OFF") x y c) (trace w').
Proof.
  run_from_boot 32%nat held_forever.
  destruct (Shown_In OFF "OFF" (trace w')) as (x & y & c & H).
  { rewrite Hl. apply (proj1 (occurs_In _ _)). vm_compute. reflexivity. }
  exists w', x, y, c. split; [exact E | exact H].
Qed.

Lemma tap_then_hold_40 :
  exists w40,
    main_loop 40 (boot steady tap_then_hold 5000) = Ok tt w40
    /\ adc_signal w40 = steady /\ button_signal w40 = tap_then_hold /\ 0 < r0 w40
    /\ controller_of w40 = mkController 33000 32 ON 32
    /\ occurs (CALIBRATING, Shown "Calibrating...") (landmarks (trace w40)) = false.
Proof.
  destruct (main_loop_refines 40 (boot steady tap_then_hold 5000) steady_good)
    as (w40 & E & Hsig & Hbtn & Hr & Hc & Hl); [cbn; lra |].
  exists w40.
  split; [exact E |]. split; [exact Hsig |]. split; [exact Hbtn |]. split; [exact Hr |].
  split.
  - rewrite Hc. vm_compute. reflexivity.
  - rewrite Hl. vm_compute. reflexivity.
Qed.

Lemma tap_then_hold_recalibrates_while_held :
  exists w40 w41,
    main_loop 40 (boot steady tap_then_hold 5000) = Ok tt w40
    /\ loop_body w40 = Ok tt w41
    /\ state w40 = ON /\ button_duration w40 = 1%Z
    /\ (forall t, (clock w40 <= t)%Z -> button_signal w40 t = true)
    /\ ~ In (CALIBRATING, Shown "Calibrating...") (landmarks (trace w40))
    /\ In (CALIBRATING, Shown "Calibrating...") (landmarks (trace w41)).
Proof.
  destruct tap_then_hold_40 as (w40 & E & Hsig & Hbtn & Hr & Hc & Hl).
  assert (Hclock : clock w40 = 33000%Z) by exact (f_equal ctl_clock Hc).
  assert (Hpress : button_press_time w40 = 32%Z) by exact (f_equal ctl_press_time Hc).
  assert (Hstate : state w40 = ON) by exact (f_equal ctl_state Hc).
  destruct (loop_body_refines w40) as (w41 & E1 & _ & _ & _ & _ & Hl1);
    [rewrite Hsig; exact steady_good | exact Hr |].
  exists w40, w41.
  split; [exact E |]. split; [exact E1 |]. split; [exact Hstate |].
  split; [unfold button_duration; rewrite Hbtn, Hclock, Hpress; reflexivity |].
  split.
  { intros t Ht. rewrite Hbtn. rewrite Hclock in Ht. unfold tap_then_hold.
    apply orb_true_iff. right. apply Z.leb_le. lia. }
  split; [now apply occurs_not_In |].
  rewrite Hl1. apply in_or_app. right. rewrite Hbtn, Hc.
  apply (proj1 (occurs_In _ _)). vm_compute. reflexivity.
Qed.

Lemma short_press_turns_off :
  exists w',
    main_loop 42 (boot steady tap_then_short_press 5000) = Ok tt w'
    /\ assignments (landmarks (trace w')) = [ON; CALIBRATING; ON; OFF]
    /\ state w' = OFF.
Proof.
  run_from_boot 42%nat tap_then_short_press.
  exists w'. split; [exact E |]. rewrite Hl. split; [reflexivity |].
  exact (f_equal ctl_state Hc).
Qed.

Lemma long_press_toggles_twice :
  exists w',
    main_loop 60 (boot steady long_press 5000) = Ok tt w'
    /\ assignments (landmarks (trace w')) = [ON; OFF]
    /\ state w' = OFF.
Proof.
  run_from_boot 60%nat long_press.
  exists w'. split; [exact E |]. rewrite Hl. split; [reflexivity |].
  exact (f_equal ctl_state Hc).
Qed.

(** * The claims *)

(** C1 (code bug): on the inputs of the tests the code does not return the
    values that the claim and the tests state. For the samples
    [1000, 2000, 3000, 4000] the resistances are within 1.0 of
    [3095.0, 1047.5, 365.0, 23.75], and the first is not within 1.0 of the
    stated 9900.0; with r0 = 1000 the concentrations are within 0.001 of
    [0.0794, 0.3743, 1.6915, 84.3268], and the first is not within 0.001 of
    the stated 3.4846. *)
Theorem C1_code_breaks_the_tests :
  (exists rs w',
      collect 4 _calculate_rs (test_sensor [1000; 2000; 3000; 4000]%Z 1.0) = Ok rs w'
      /\ Forall2 (fun r e => approx_equal r e 1.0) rs [3095.0; 1047.5; 365.0; 23.75]
      /\ ~ approx_equal (hd 0 rs) 9900.0 1.0)
  /\ (exists cs w',
        collect 4 read_raw_value_of_alcohol (test_sensor [1000; 2000; 3000; 4000]%Z 1000)
        = Ok cs w'
        /\ Forall2 (fun c e => approx_equal c e 0.001) cs [0.0794; 0.3743; 1.6915; 84.3268]
        /\ ~ approx_equal (hd 0 cs) 3.4846 0.001).
Proof.
  split.
  - destruct (collect_calculate_rs 4 (test_sensor [1000; 2000; 3000; 4000]%Z 1.0))
      as [w' Hw'].
    { cbn. intuition discriminate. }
    eexists _, w'. split; [exact Hw' |].
    change (next_samples _ 4) with [1000; 2000; 3000; 4000]%Z. cbn [map hd].
    rewrite resistance_1000, resistance_2000, resistance_3000, resistance_4000.
    split.
    + repeat constructor; unfold approx_equal; apply Rabs_def1; lra.
    + unfold approx_equal. intros H. apply Rabs_def2 in H. lra.
  - destruct (collect_read_raw 4 (test_sensor [1000; 2000; 3000; 4000]%Z 1000))
      as [w' Hw'].
    { cbn [test_sensor set_r0 r0]. lra. }
    { change (next_samples _ 4) with [1000; 2000; 3000; 4000]%Z.
      cbn [test_sensor set_r0 r0].
      repeat constructor; try discriminate;
        apply Rdiv_lt_0_compat; try lra; apply resistance_pos; lia. }
    eexists _, w'. split; [exact Hw' |].
    change (next_samples _ 4) with [1000; 2000; 3000; 4000]%Z.
    cbn [map test_sensor set_r0 r0 hd].
    split.
    + repeat constructor.
      * apply (approx_equal_between _ _ _ _ _ concentration_1000); lra.
      * apply (approx_equal_between _ _ _ _ _ concentration_2000); lra.
      * apply (approx_equal_between _ _ _ _ _ concentration_3000); lra.
      * apply (approx_equal_between _ _ _ _ _ concentration_4000); lra.
    + pose proof concentration_1000.
      unfold approx_equal. intros H'. apply Rabs_def2 in H'. lra.
Qed.

(** C2 (code bug): for the constant sample 2000 the calibration completes,
    with the two display messages in their order, and sets r0 within 0.001
    of 1047.5 / 60 (about 17.46), which is not within 1.0 of the
    3900.0 / AIR_R0_RATIO = 65 that the claim and the test state. *)
Theorem C2_code_breaks_the_test :
  exists w',
    calibrate (test_sensor (repeat 2000%Z 10) 1.0) = Ok tt w'
    /\ approx_equal (r0 w') (1047.5 / 60.0) 0.001
    /\ ~ approx_equal (r0 w') (3900.0 / AIR_R0_RATIO) 1.0
    /\ displayed (trace w') = [Lit "Calibrating..."; Lit "Calibration done"].
Proof.
  destruct (calibrate_takes_ten (test_sensor (repeat 2000%Z 10) 1.0))
    as (w' & events & H1 & H2 & H3 & _ & H5 & H6).
  { change (next_samples _ _) with (repeat 2000%Z 10).
    intros H. apply repeat_spec in H. discriminate. }
  exists w'. split; [exact H1 |].
  assert (Hr : r0 w' = 1047.5 / 60.0).
  { rewrite H5, H3. change (next_samples _ _) with (repeat 2000%Z 10).
    unfold mean, sum. cbn [repeat map fold_left List.length INR]. rewrite resistance_2000.
    unfold AIR_R0_RATIO. lra. }
  rewrite H2, Hr. cbn [test_sensor boot set_r0 trace app].
  split; [unfold approx_equal; apply Rabs_def1; lra |].
  split; [unfold approx_equal, AIR_R0_RATIO; intros H; apply Rabs_def2 in H; lra |].
  exact H6.
Qed.

(** C3 (code bug): with r0 = 1000 and the raw samples
    [1000, 2000, 3000, 4000, 3000, 2000, 1000] the smoothed outputs are
    within 0.001 of
    [0.0794, 0.2269, 0.7151, 21.6180, 17.6327, 14.7563, 12.6596], and the
    first is not within 0.001 of the 3.4846 that the claim and the test
    state. *)
Theorem C3_code_breaks_the_test :
  exists vs w',
    collect 7 get_smoothed_reading
      (test_sensor [1000; 2000; 3000; 4000; 3000; 2000; 1000]%Z 1000) = Ok vs w'
    /\ Forall2 (fun v e => approx_equal v e 0.001) vs
         [0.0794; 0.2269; 0.7151; 21.6180; 17.6327; 14.7563; 12.6596]
    /\ ~ approx_equal (hd 0 vs) 3.4846 0.001.
Proof.
  set (w := test_sensor [1000; 2000; 3000; 4000; 3000; 2000; 1000]%Z 1000).
  destruct (collect_smoothed 7 w) as [w' Hw'].
  { cbn; lra. }
  { change (next_samples w 7) with [1000; 2000; 3000; 4000; 3000; 2000; 1000]%Z.
    cbn [w test_sensor set_r0 r0].
    repeat constructor; try discriminate;
      apply Rdiv_lt_0_compat; try lra; apply resistance_pos; lia. }
  eexists _, w'. split; [exact Hw' |].
  change (next_samples w 7) with [1000; 2000; 3000; 4000; 3000; 2000; 1000]%Z.
  cbn [w test_sensor set_r0 r0 boot readings map].
  pose proof concentration_1000 as H1. pose proof concentration_2000 as H2.
  pose proof concentration_3000 as H3. pose proof concentration_4000 as H4.
  revert H1 H2 H3 H4.
  generalize (concentration (resistance 1000) 1000) (concentration (resistance 2000) 1000)
             (concentration (resistance 3000) 1000) (concentration (resistance 4000) 1000).
  intros c1 c2 c3 c4 H1 H2 H3 H4.
  cbn [running_means push_window app List.length Nat.ltb Nat.leb max_readings hd].
  unfold mean, sum. cbn [fold_left List.length INR].
  split.
  - repeat constructor; unfold approx_equal; apply Rabs_def1; lra.
  - unfold approx_equal. intros H. apply Rabs_def2 in H. lra.
Qed.

(** C4, as the spec states it, fails on the code, in runs from the start of
    [main()] on a steady ADC: with the device ON and the button pressed at
    32.1 s and held, the poll at 33 s reports d = 1 and starts a
    calibration although the button is held then and ever after; and when
    that press is released at 33.6 s, during the calibration, the release is
    reported with d = 4 and turns the device OFF. *)
Lemma C4_counterexample :
  (exists w40 w41,
      main_loop 40 (boot steady tap_then_hold 5000) = Ok tt w40
      /\ loop_body w40 = Ok tt w41
      /\ state w40 = ON /\ button_duration w40 = 1%Z
      /\ (forall t, (clock w40 <= t)%Z -> button_signal w40 t = true)
      /\ ~ In (CALIBRATING, Shown "Calibrating...") (landmarks (trace w40))
      /\ In (CALIBRATING, Shown "Calibrating...") (landmarks (trace w41)))
  /\ (exists w',
        main_loop 42 (boot steady tap_then_short_press 5000) = Ok tt w'
        /\ assignments (landmarks (trace w')) = [ON; CALIBRATING; ON; OFF]
        /\ state w' = OFF).
Proof.
  split; [exact tap_then_hold_recalibrates_while_held | exact short_press_turns_off].
Qed.

(** C4 (amended): recalibration is triggered by the reported duration
    alone: on every poll cycle with state == ON and
    0 < d < LONG_PRESS_TIME, whether the button is still held or has just
    been released, the ON, CALIBRATING, ON sequence runs exactly once, with
    one calibration; on a poll with d = 0 no calibration is started. The
    polls are those of fault-free runs: on samples in [1, 4094] and from a
    positive r0. *)
Theorem C4_short_press_recalibration :
  forall w,
    good_signal (adc_signal w) -> 0 < r0 w -> state w = ON ->
    exists w' added,
      loop_body w = Ok tt w'
      /\ landmarks (trace w') = landmarks (trace w) ++ added
      /\ state w' = next_state (button_duration w) ON
      /\ ((0 < button_duration w < LONG_PRESS_TIME)%Z ->
          state w' = ON
          /\ exists reading,
               added = tagged CALIBRATING (Assigned CALIBRATING :: calibrate_landmarks)
                       ++ (ON, Assigned ON) :: reading
               /\ (reading = [] \/ reading = tagged ON reading_landmarks))
      /\ ((button_duration w <= 0)%Z ->
          state w' = ON /\ (added = [] \/ added = tagged ON reading_landmarks)).
Proof.
  intros w Hsig Hr Hs.
  destruct (loop_body_refines w Hsig Hr) as (w' & E & H1 & H2 & H3 & H4 & H5).
  exists w', (snd (controller_step (button_signal w) (controller_of w))).
  split; [exact E |]. split; [exact H5 |].
  apply (f_equal ctl_state) in H4.
  change (ctl_state (controller_of w')) with (state w') in H4. rewrite H4.
  cbn [controller_step fst snd controller_of ctl_clock ctl_press_time ctl_state
       ctl_last_reading_time].
  fold (button_duration w). rewrite Hs.
  split; [reflexivity |].
  unfold next_state, poll_landmarks, LONG_PRESS_TIME.
  split.
  - intros Hd.
    destruct (Z.ltb_spec 0 (button_duration w)); [| lia].
    destruct (Z.leb_spec 3 (button_duration w)); [lia |].
    destruct (Z.ltb_spec (button_duration w) 3); [| lia].
    cbn [State_eqb andb]. split; [reflexivity |].
    eexists. split; [rewrite <- app_assoc; reflexivity |].
    destruct (takes_reading _ _ _); [now right | now left].
  - intros Hd.
    destruct (Z.ltb_spec 0 (button_duration w)); [lia |].
    split; [reflexivity |]. cbn [app].
    destruct (takes_reading _ _ _); [now right | now left].
Qed.

Lemma C4_short_press_recalibration_witness :
  let w := set_state ON (set_button_press_time 100 (boot steady held_forever 101000)) in
  exists w' added,
    loop_body w = Ok tt w'
    /\ landmarks (trace w') = landmarks (trace w) ++ added
    /\ state w' = next_state (button_duration w) ON
    /\ ((0 < button_duration w < LONG_PRESS_TIME)%Z ->
        state w' = ON
        /\ exists reading,
             added = tagged CALIBRATING (Assigned CALIBRATING :: calibrate_landmarks)
                     ++ (ON, Assigned ON) :: reading
             /\ (reading = [] \/ reading = tagged ON reading_landmarks))
    /\ ((button_duration w <= 0)%Z ->
        state w' = ON /\ (added = [] \/ added = tagged ON reading_landmarks)).
Proof.
  intros w. apply (C4_short_press_recalibration w).
  - exact steady_good.
  - cbn. lra.
  - reflexivity.
Defined.

(** C5, as the spec states it, fails on the code: on a sample of 0 the
    calibration stops with a division by zero and produces no r0, and on
    samples of 4095 it completes with r0 = 0, which is not positive. *)
Lemma C5_counterexample :
  (exists w', calibrate (test_sensor [0%Z] 1.0) = Fault ZeroDivisionError w')
  /\ (exists w', calibrate (test_sensor [4095%Z] 1.0) = Ok tt w' /\ r0 w' = 0).
Proof.
  split.
  - eexists. now apply calibrate_zero.
  - eexists. split.
    + apply calibrate_ok. intros i Hi E.
      pose proof (test_sensor_sample_In [4095%Z] 1.0 i) as H.
      rewrite E in H. cbn in H. intuition discriminate.
    + destruct (calibrate_post_fields (test_sensor [4095%Z] 1.0))
        as (_ & _ & _ & _ & _ & F6 & _).
      cbv zeta in F6. rewrite F6. unfold calibrated_r0, ratioed.
      change (next_samples _ _) with (repeat 4095%Z 10).
      unfold sum. cbn [repeat map fold_left].
      unfold resistance, AIR_R0_RATIO, NUM_CALIBRATION_READINGS. lra.
Qed.

(** C5 (amended): for every sequence of raw samples drawn from [1, 4094],
    calibrate() completes and the resulting r0 is strictly greater than 0,
    and so it stays throughout a run of the program on such samples;
    before any calibration r0 holds the default value 1.0. *)
Theorem C5_calibrated_r0_positive :
  (forall w,
      Forall (fun s => (1 <= s <= 4094)%Z)
             (next_samples w (Z.to_nat NUM_CALIBRATION_READINGS)) ->
      exists w', calibrate w = Ok tt w' /\ 0 < r0 w')
  /\ (forall n adc button t0,
        good_signal adc ->
        exists w', main_loop n (boot adc button t0) = Ok tt w' /\ 0 < r0 w')
  /\ (forall adc button t0, r0 (boot adc button t0) = 1.0).
Proof.
  split; [| split].
  - intros w Hall. exists (calibrate_post w). split.
    + apply calibrate_ok. intros i Hi E.
      rewrite Forall_forall in Hall.
      assert (Hin : In (sample_at w i) (next_samples w (Z.to_nat NUM_CALIBRATION_READINGS))).
      { unfold next_samples. apply in_map, in_seq. lia. }
      apply Hall in Hin. lia.
    + destruct (calibrate_post_fields w) as (_ & _ & _ & _ & _ & F6 & _).
      cbv zeta in F6. rewrite F6. now apply calibrated_r0_pos_next.
  - intros n adc button t0 Hsig.
    destruct (main_loop_run adc button Hsig n _ _ _ (boot_Run adc button t0))
      as (w' & E & H).
    exists w'. split; [exact E | apply H].
  - reflexivity.
Qed.

Lemma C5_calibrated_r0_positive_witness :
  exists w', calibrate (test_sensor [2000%Z] 1.0) = Ok tt w' /\ 0 < r0 w'.
Proof.
  apply (proj1 C5_calibrated_r0_positive (test_sensor [2000%Z] 1.0)).
  change (next_samples _ _) with (repeat 2000%Z 10).
  apply Forall_forall. intros s Hs. apply repeat_spec in Hs. subst s. lia.
Defined.

(** C6, as the spec states it, fails on the code, in runs from the start of
    [main()] on a steady ADC: a press held while the device is ON starts a
    recalibration, which samples the sensor and updates the display while
    [state] is CALIBRATING; and when the device is turned off, "OFF" is
    displayed while [state] is OFF. *)
Lemma C6_counterexample :
  (exists w' v,
      main_loop 41 (boot steady tap_then_hold 5000) = Ok tt w'
      /\ In (CALIBRATING, Read v) (trace w'))
  /\ (exists w' x y c,
        main_loop 41 (boot steady tap_then_hold 5000) = Ok tt w'
        /\ In (CALIBRATING, Display (Lit "Calibrating...") x y c) (trace w'))
  /\ (exists w' x y c,
        main_loop 32 (boot steady held_forever 5000) = Ok tt w'
        /\ In (OFF, Display (Lit "OFF") x y c) (trace w')).
Proof.
  split; [exact tap_then_hold_samples_in_calibrating |].
  split; [exact tap_then_hold_displays_in_calibrating |].
  exact held_forever_displays_in_off.
Qed.

(** C6 (amended): in every run of the control loop from the start of
    [main()], faulting or not, the sensor is sampled only while the state is
    ON or CALIBRATING, never while it is OFF; the readings are displayed
    only while it is ON; while it is OFF nothing is displayed but "OFF", and
    while it is CALIBRATING nothing but the two progress messages of the
    calibration. *)
Theorem C6_state_gated_io :
  forall n adc button t0 s e,
    In (s, e) (trace (world_of (main_loop n (boot adc button t0)))) ->
    (forall v, e = Read v -> s = ON \/ s = CALIBRATING)
    /\ (forall before v format after x y c,
          e = Display (Fmt before v format after) x y c -> s = ON)
    /\ (forall m x y c, e = Display m x y c -> s = OFF -> m = Lit "OFF")
    /\ (forall m x y c,
          e = Display m x y c -> s = CALIBRATING ->
          m = Lit "Calibrating..." \/ m = Lit "Calibration done").
Proof.
  intros n adc button t0 s e Hin.
  assert (Hsafe : Safe (world_of (main_loop n (boot adc button t0)))).
  { pose proof (main_loop_inv n (boot adc button t0) (boot_Idle adc button t0)) as H.
    destruct (main_loop n (boot adc button t0)) as [[] w' | ex w']; cbn [world_of];
      [apply H | exact H]. }
  destruct Hsafe as [_ Hall]. rewrite Forall_forall in Hall.
  specialize (Hall _ Hin). unfold ok_event in Hall. cbn [fst snd] in Hall.
  repeat split.
  - intros v ->. destruct s; [contradiction | now left | now right].
  - intros before v format after x y c ->.
    destruct s; [discriminate | reflexivity | destruct Hall; discriminate].
  - intros m x y c -> ->. exact Hall.
  - intros m x y c -> ->. exact Hall.
Qed.

Lemma C6_state_gated_io_witness :
  exists w' v,
    main_loop 41 (boot steady tap_then_hold 5000) = Ok tt w'
    /\ In (CALIBRATING, Read v) (trace w')
    /\ (CALIBRATING = ON \/ CALIBRATING = CALIBRATING).
Proof.
  destruct tap_then_hold_samples_in_calibrating as (w' & v & E & Hin).
  exists w', v. split; [exact E | split; [exact Hin |]].
  refine (proj1 (C6_state_gated_io 41 steady tap_then_hold 5000 CALIBRATING (Read v) _)
                v eq_refl).
  rewrite E. exact Hin.
Defined.

(** C7, as the spec states it, fails on the code, in runs from the start of
    [main()] on a steady ADC: one long press, held for 3.5 s from OFF,
    turns the device ON at the poll that reports 3 s and, reported again
    with 27 s after the warm-up, OFF at the next poll, where it stays, so
    that long presses do not alternate the state; and a short press of
    1.5 s while ON, released during the calibration that it starts, is
    reported with 4 s and turns the device OFF. *)
Lemma C7_counterexample :
  (exists w',
      main_loop 60 (boot steady long_press 5000) = Ok tt w'
      /\ assignments (landmarks (trace w')) = [ON; OFF]
      /\ state w' = OFF)
  /\ (exists w',
        main_loop 42 (boot steady tap_then_short_press 5000) = Ok tt w'
        /\ assignments (landmarks (trace w')) = [ON; CALIBRATING; ON; OFF]
        /\ state w' = OFF).
Proof.
  split; [exact long_press_toggles_twice | exact short_press_turns_off].
Qed.

(** C7 (amended): gestures are handled poll by poll, on the reported
    duration alone. A poll that reports a long press
    (d >= LONG_PRESS_TIME = 3 s) toggles between OFF and ON, so that three
    consecutive such polls from OFF give the states OFF, ON, OFF, ON, as
    they do in the run from the start of [main()] with the button held; a
    poll that reports a short press while ON assigns CALIBRATING, then ON,
    and does not assign OFF; and no poll cycle of a run ends in
    CALIBRATING. The polls are those of fault-free runs: on samples in
    [1, 4094] and from a positive r0. *)
Theorem C7_gesture_sequencing :
  (forall w,
      good_signal (adc_signal w) -> 0 < r0 w ->
      (LONG_PRESS_TIME <= button_duration w)%Z ->
      exists w',
        loop_body w = Ok tt w' /\ good_signal (adc_signal w') /\ 0 < r0 w'
        /\ state w' = (if State_eqb (state w) OFF then ON else OFF))
  /\ (forall w0,
        good_signal (adc_signal w0) -> 0 < r0 w0 -> state w0 = OFF ->
        (LONG_PRESS_TIME <= button_duration w0)%Z ->
        exists w1,
          loop_body w0 = Ok tt w1 /\ state w1 = ON
          /\ ((LONG_PRESS_TIME <= button_duration w1)%Z ->
              exists w2,
                loop_body w1 = Ok tt w2 /\ state w2 = OFF
                /\ ((LONG_PRESS_TIME <= button_duration w2)%Z ->
                    exists w3, loop_body w2 = Ok tt w3 /\ state w3 = ON)))
  /\ (exists w',
        main_loop 33 (boot steady held_forever 5000) = Ok tt w'
        /\ assignments (landmarks (trace w')) = [ON; OFF; ON] /\ state w' = ON)
  /\ (forall w,
        good_signal (adc_signal w) -> 0 < r0 w -> state w = ON ->
        (0 < button_duration w < LONG_PRESS_TIME)%Z ->
        exists w' added,
          loop_body w = Ok tt w'
          /\ landmarks (trace w') = landmarks (trace w) ++ added
          /\ assignments added = [CALIBRATING; ON] /\ state w' = ON)
  /\ (forall n adc button t0 w',
        main_loop n (boot adc button t0) = Ok tt w' -> state w' <> CALIBRATING).
Proof.
  assert (Hlong : forall w,
      good_signal (adc_signal w) -> 0 < r0 w ->
      (LONG_PRESS_TIME <= button_duration w)%Z ->
      exists w',
        loop_body w = Ok tt w' /\ good_signal (adc_signal w') /\ 0 < r0 w'
        /\ state w' = (if State_eqb (state w) OFF then ON else OFF)).
  { intros w Hsig Hr Hd.
    destruct (loop_body_refines w Hsig Hr) as (w' & E & H1 & H2 & H3 & H4 & H5).
    exists w'. split; [exact E |]. split; [now rewrite H1 |]. split; [exact H3 |].
    apply (f_equal ctl_state) in H4. cbn in H4. rewrite H4.
    fold (button_duration w). unfold next_state.
    unfold LONG_PRESS_TIME in *.
    destruct (Z.ltb_spec 0 (button_duration w)); [| lia].
    destruct (Z.leb_spec 3 (button_duration w)); [reflexivity | lia]. }
  split; [exact Hlong |].
  split.
  { intros w0 Hsig Hr Hs Hd.
    destruct (Hlong w0 Hsig Hr Hd) as (w1 & E1 & Hsig1 & Hr1 & Hs1).
    rewrite Hs in Hs1. cbn in Hs1.
    exists w1. split; [exact E1 |]. split; [exact Hs1 |]. intros Hd1.
    destruct (Hlong w1 Hsig1 Hr1 Hd1) as (w2 & E2 & Hsig2 & Hr2 & Hs2).
    rewrite Hs1 in Hs2. cbn in Hs2.
    exists w2. split; [exact E2 |]. split; [exact Hs2 |]. intros Hd2.
    destruct (Hlong w2 Hsig2 Hr2 Hd2) as (w3 & E3 & _ & _ & Hs3).
    rewrite Hs2 in Hs3. cbn in Hs3.
    exists w3. split; [exact E3 | exact Hs3]. }
  split.
  { run_from_boot 33%nat held_forever.
    exists w'. split; [exact E |]. rewrite Hl.
    split; [reflexivity |].
    apply (f_equal ctl_state) in Hc. exact Hc. }
  split.
  { intros w Hsig Hr Hs Hd.
    destruct (loop_body_refines w Hsig Hr) as (w' & E & H1 & H2 & H3 & H4 & H5).
    exists w', (snd (controller_step (button_signal w) (controller_of w))).
    split; [exact E |]. split; [exact H5 |].
    apply (f_equal ctl_state) in H4.
    change (ctl_state (controller_of w')) with (state w') in H4. rewrite H4.
    cbn [controller_step fst snd controller_of ctl_clock ctl_press_time ctl_state
         ctl_last_reading_time].
    fold (button_duration w). rewrite Hs.
    unfold next_state, poll_landmarks, LONG_PRESS_TIME in *.
    destruct (Z.ltb_spec 0 (button_duration w)); [| lia].
    destruct (Z.leb_spec 3 (button_duration w)); [lia |].
    destruct (Z.ltb_spec (button_duration w) 3); [| lia].
    cbn [State_eqb andb]. split; [| reflexivity].
    unfold assignments. rewrite flat_map_app.
    destruct (takes_reading _ _ _); reflexivity. }
  intros n adc button t0 w' E.
  pose proof (main_loop_inv n (boot adc button t0) (boot_Idle adc button t0)) as H.
  rewrite E in H. apply H.
Qed.

Lemma C7_gesture_sequencing_witness :
  let w := set_button_press_time 1 (boot steady held_forever 5000) in
  exists w',
    loop_body w = Ok tt w' /\ good_signal (adc_signal w') /\ 0 < r0 w'
    /\ state w' = (if State_eqb (state w) OFF then ON else OFF).
Proof.
  intros w. apply (proj1 C7_gesture_sequencing w).
  - exact steady_good.
  - cbn. lra.
  - vm_compute. discriminate.
Defined.

(** C8: when r0 == 0 the conversion of a resistance, whatever its value,
    returns exactly 0 and raises no fault; so does the whole reading, for
    every sample that produces a resistance (a sample other than 0). *)
Theorem C8_zero_r0_guard :
  (forall w rs, r0 w = 0 -> alcohol_of_rs rs w = Ok 0 w)
  /\ (forall w, next_sample w <> 0%Z -> r0 w = 0 ->
                read_raw_value_of_alcohol w = Ok 0 (readW w)).
Proof.
  split.
  - intros w rs. apply alcohol_of_rs_guard.
  - exact read_raw_guard.
Qed.

Lemma C8_zero_r0_guard_witness :
  read_raw_value_of_alcohol (test_sensor [1000%Z] 0)
  = Ok 0 (readW (test_sensor [1000%Z] 0)).
Proof.
  apply (proj2 C8_zero_r0_guard (test_sensor [1000%Z] 0)).
  - cbn. discriminate.
  - reflexivity.
Defined.

(** C9: the resistance computation returns for every raw sample in
    [1, 4095]; for a raw sample of 0 the derived voltage is 0 and the
    computation raises the division-by-zero fault; on [0, 4095] it faults
    exactly when the sample is 0. *)
Theorem C9_zero_voltage_fault :
  (forall w, (1 <= next_sample w <= 4095)%Z ->
             exists rs, _calculate_rs w = Ok rs (readW w))
  /\ (forall w, next_sample w = 0%Z ->
                IZR (next_sample w) * (3.3 / 4095.0) = 0
                /\ _calculate_rs w = Fault ZeroDivisionError (readW w))
  /\ (forall w, (0 <= next_sample w <= 4095)%Z ->
                ((exists e w', _calculate_rs w = Fault e w') <-> next_sample w = 0%Z)).
Proof.
  split; [| split].
  - intros w Hs. eexists. apply calculate_rs_ok. lia.
  - intros w Hs. split; [now apply sensor_volt_zero | now apply calculate_rs_zero].
  - intros w Hs. split.
    + intros (e & w' & H).
      destruct (Z.eq_dec (next_sample w) 0) as [E | N]; [exact E |].
      rewrite (calculate_rs_ok w N) in H. discriminate.
    + intros E. eexists _, _. now apply calculate_rs_zero.
Qed.

Lemma C9_zero_voltage_fault_witness :
  _calculate_rs (test_sensor [0%Z] 1.0)
  = Fault ZeroDivisionError (readW (test_sensor [0%Z] 1.0)).
Proof.
  apply (proj1 (proj2 C9_zero_voltage_fault) (test_sensor [0%Z] 1.0)).
  reflexivity.
Defined.




(** * Further properties of the code *)

(** ** The button, poll by poll *)

Lemma set_button_press_time_same w :
  set_button_press_time (button_press_time w) w = w.
Proof. destruct w. reflexivity. Qed.

Lemma check_button_first_poll w :
  button_signal w (clock w) = true -> button_press_time w = 0%Z ->
  check_button w = Ok 0%Z (set_button_press_time (clock w / 1000) w).
Proof.
  intros Hp Hb. rewrite check_button_eq.
  unfold button_duration, button_mark, press_duration, press_mark.
  rewrite Hp, Hb. cbn [Z.eqb]. f_equal. lia.
Qed.

Lemma check_button_held w :
  button_signal w (clock w) = true -> button_press_time w <> 0%Z ->
  check_button w = Ok (clock w / 1000 - button_press_time w)%Z w.
Proof.
  intros Hp Hb. rewrite check_button_eq.
  unfold button_duration, button_mark, press_duration, press_mark.
  rewrite Hp. destruct (Z.eqb_spec (button_press_time w) 0); [contradiction |].
  now rewrite set_button_press_time_same.
Qed.

Lemma check_button_released w :
  button_signal w (clock w) = false -> (0 < button_press_time w)%Z ->
  check_button w
  = Ok (clock w / 1000 - button_press_time w)%Z (set_button_press_time 0 w).
Proof.
  intros Hp Hb. rewrite check_button_eq.
  unfold button_duration, button_mark, press_duration, press_mark.
  rewrite Hp. destruct (Z.ltb_spec 0 (button_press_time w)); [reflexivity | lia].
Qed.

Lemma check_button_idle w :
  button_signal w (clock w) = false -> (button_press_time w <= 0)%Z ->
  check_button w = Ok 0%Z (set_button_press_time 0 w).
Proof.
  intros Hp Hb. rewrite check_button_eq.
  unfold button_duration, button_mark, press_duration, press_mark.
  rewrite Hp. destruct (Z.ltb_spec 0 (button_press_time w)); [lia | reflexivity].
Qed.

Lemma check_button_state w d w1 : check_button w = Ok d w1 -> state w1 = state w.
Proof. rewrite check_button_eq. now intros [= _ <-]. Qed.

(** X1: the first poll of a press, at a whole second that is not 0, reports 0
    and stamps that second; every later poll that finds the button pressed
    and the stamp in place reports the whole seconds since the stamp and
    changes nothing. *)
Theorem check_button_times_the_hold w0 :
  button_signal w0 (clock w0) = true -> button_press_time w0 = 0%Z ->
  (0 < clock w0 / 1000)%Z ->
  exists w0',
    check_button w0 = Ok 0%Z w0'
    /\ button_press_time w0' = (clock w0 / 1000)%Z
    /\ forall w1,
         button_press_time w1 = button_press_time w0' ->
         button_signal w1 (clock w1) = true ->
         check_button w1 = Ok (clock w1 / 1000 - clock w0 / 1000)%Z w1.
Proof.
  intros Hp Hb Ht. eexists. split; [now apply check_button_first_poll |].
  split; [reflexivity |].
  intros w1 Hb1 Hp1. cbn [set_button_press_time button_press_time] in Hb1.
  rewrite check_button_held; [now rewrite Hb1 | exact Hp1 | lia].
Qed.

Lemma check_button_times_the_hold_witness :
  exists w0',
    check_button (boot steady held_forever 5000) = Ok 0%Z w0'
    /\ button_press_time w0' = 5%Z
    /\ forall w1,
         button_press_time w1 = button_press_time w0' ->
         button_signal w1 (clock w1) = true ->
         check_button w1 = Ok (clock w1 / 1000 - 5)%Z w1.
Proof.
  apply (check_button_times_the_hold (boot steady held_forever 5000));
    [reflexivity | reflexivity | reflexivity].
Defined.

(** X2: the first poll after a release reports the whole seconds since the
    stamp and clears the stamp; the polls after it, while the button stays
    released, report 0 and change nothing. *)
Theorem check_button_reports_release_once w :
  button_signal w (clock w) = false -> (0 < button_press_time w)%Z ->
  exists w',
    check_button w = Ok (clock w / 1000 - button_press_time w)%Z w'
    /\ button_press_time w' = 0%Z
    /\ forall w'',
         button_press_time w'' = button_press_time w' ->
         button_signal w'' (clock w'') = false ->
         check_button w'' = Ok 0%Z w''.
Proof.
  intros Hp Hb. eexists. split; [now apply check_button_released |].
  split; [reflexivity |].
  intros w'' Hb'' Hp''. cbn [set_button_press_time button_press_time] in Hb''.
  rewrite check_button_idle; [| exact Hp'' | lia].
  now rewrite <- Hb'', set_button_press_time_same.
Qed.

Lemma check_button_reports_release_once_witness :
  exists w',
    check_button (set_button_press_time 5 (boot steady (fun _ => false) 9000))
    = Ok 4%Z w'
    /\ button_press_time w' = 0%Z
    /\ forall w'',
         button_press_time w'' = button_press_time w' ->
         button_signal w'' (clock w'') = false ->
         check_button w'' = Ok 0%Z w''.
Proof.
  apply (check_button_reports_release_once
           (set_button_press_time 5 (boot steady (fun _ => false) 9000)));
    reflexivity.
Defined.

(** X3: while [utime.time()] is 0 a press leaves no stamp: with the stamp at
    0, [check_button] reports 0 and changes nothing whether the button is
    pressed or not, since a stamp of 0 is how the code writes ``not
    pressed''. *)
Theorem check_button_blind_at_time_zero w :
  (0 <= clock w < 1000)%Z -> button_press_time w = 0%Z ->
  check_button w = Ok 0%Z w.
Proof.
  intros Ht Hb. assert (Hnow : (clock w / 1000 = 0)%Z) by now apply Z.div_small.
  destruct (button_signal w (clock w)) eqn:Hp.
  - rewrite check_button_first_poll by assumption.
    now rewrite Hnow, <- Hb, set_button_press_time_same.
  - rewrite check_button_idle; [| exact Hp | lia].
    now rewrite <- Hb, set_button_press_time_same.
Qed.

Lemma check_button_blind_at_time_zero_witness :
  check_button (boot steady held_forever 900) = Ok 0%Z (boot steady held_forever 900).
Proof.
  apply (check_button_blind_at_time_zero (boot steady held_forever 900));
    [cbn; lia | reflexivity].
Defined.

Lemma off_poll_sleeps w d w1 :
  state w = OFF -> check_button w = Ok d w1 -> (d < LONG_PRESS_TIME)%Z ->
  loop_body w = Ok tt (sleepW 100 w1).
Proof.
  intros Hs Hc Hd. pose proof (check_button_state _ _ _ Hc) as Hs1.
  rewrite Hs in Hs1. unfold loop_body. rewrite (bind_ok _ _ _ _ _ Hc).
  assert (Hh : handle_button d w1 = Ok tt w1).
  { unfold handle_button. destruct (0 <? d)%Z; [| reflexivity].
    destruct (Z.leb_spec LONG_PRESS_TIME d); [lia |].
    run_step. rewrite Hs1. reflexivity. }
  rewrite (bind_ok _ _ _ _ _ Hh).
  assert (Hr : periodic_reading w1 = Ok tt w1).
  { unfold periodic_reading. run_step. rewrite Hs1. reflexivity. }
  rewrite (bind_ok _ _ _ _ _ Hr). reflexivity.
Qed.

(** X4: a turn of the loop in OFF whose reported duration is below
    [LONG_PRESS_TIME] only sleeps 0.1 s: the state stays OFF, the trace
    grows by that pause alone, the ADC is not read, and r0, the window and
    the time of the last reading are as before. *)
Theorem off_poll_only_sleeps w d w1 :
  state w = OFF -> check_button w = Ok d w1 -> (d < LONG_PRESS_TIME)%Z ->
  exists w',
    loop_body w = Ok tt w'
    /\ state w' = OFF
    /\ trace w' = trace w ++ [(OFF, Sleep 100)]
    /\ clock w' = (clock w + 100)%Z
    /\ adc_reads w' = adc_reads w /\ r0 w' = r0 w /\ readings w' = readings w
    /\ last_reading_time w' = last_reading_time w.
Proof.
  intros Hs Hc Hd. exists (sleepW 100 w1).
  split; [now apply (off_poll_sleeps w d) |].
  rewrite check_button_eq in Hc. injection Hc as _ <-.
  cbn [sleepW emitW set_clock set_trace set_button_press_time state trace clock
       adc_reads r0 readings last_reading_time].
  rewrite Hs. repeat split; reflexivity.
Qed.

Lemma off_poll_only_sleeps_witness :
  exists w',
    loop_body (boot steady held_forever 5000) = Ok tt w'
    /\ state w' = OFF
    /\ trace w' = [(OFF, Sleep 100)]
    /\ clock w' = 5100%Z
    /\ adc_reads w' = 0%nat /\ r0 w' = 1.0 /\ readings w' = []
    /\ last_reading_time w' = 0%Z.
Proof.
  apply (off_poll_only_sleeps (boot steady held_forever 5000) 0
           (set_button_press_time 5 (boot steady held_forever 5000)));
    [reflexivity | reflexivity | reflexivity].
Defined.

(** ** Calibration and warm-up, step by step *)

Lemma calibration_loop_zero (l : list nat) : forall k (acc : R) (w : World),
  (k < List.length l)%nat -> sample_at w k = 0%Z ->
  (forall i, (i < k)%nat -> sample_at w i <> 0%Z) ->
  for_each l
    (fun _ r0_sum =>
       rs <- _calculate_rs ;;
       let r0_sum' := r0_sum + rs / AIR_R0_RATIO in
       utime_sleep 100 ;;
       ret r0_sum') acc w
  = Fault ZeroDivisionError (readW (calibration_reads k w)).
Proof.
  induction l as [| i l IH]; intros k acc w Hk Hz Hnz; [cbn in Hk; lia |].
  cbn [for_each]. destruct k as [| k].
  - cbn [calibration_reads]. apply bind_fault, bind_fault, calculate_rs_zero.
    now rewrite <- sample_at_0.
  - cbn [calibration_reads]. erewrite bind_ok.
    2:{ erewrite bind_ok.
        2:{ apply calculate_rs_ok. rewrite <- sample_at_0. apply Hnz. lia. }
        reflexivity. }
    apply IH.
    + cbn in Hk. lia.
    + now rewrite sample_at_step.
    + intros j Hj. rewrite sample_at_step. apply Hnz. lia.
Qed.

Lemma calibrate_zero_at w k :
  (k < Z.to_nat NUM_CALIBRATION_READINGS)%nat -> sample_at w k = 0%Z ->
  (forall i, (i < k)%nat -> sample_at w i <> 0%Z) ->
  calibrate w
  = Fault ZeroDivisionError
      (readW (calibration_reads k
                (emitW (Display (Lit "Calibrating...") 0 0 true)
                   (emitW (Log 20 (Lit "Calibrating sensor...")) w)))).
Proof.
  intros Hk Hz Hnz. unfold calibrate, for_range. run_step. run_step.
  apply bind_fault. apply calibration_loop_zero.
  - now rewrite length_seq.
  - exact Hz.
  - exact Hnz.
Qed.

Lemma next_samples_snoc w n :
  next_samples w (S n) = next_samples w n ++ [sample_at w n].
Proof. unfold next_samples. now rewrite seq_S, map_app. Qed.

Lemma warm_up_loop_eq (l : list nat) : forall w,
  for_each l
    (fun i _ => display_message (Lit (dots i)) 0 20 false ;; utime_sleep 1000) tt w
  = Ok tt (warm_up_dots l w).
Proof.
  induction l as [| i l IH]; intros w; [reflexivity |].
  cbn [for_each warm_up_dots]. erewrite bind_ok.
  2:{ run_step. apply utime_sleep_eq. }
  apply IH.
Qed.

Lemma warm_up_dots_fields (l : list nat) : forall w,
  let w' := warm_up_dots l w in
  adc_signal w' = adc_signal w /\ adc_reads w' = adc_reads w /\
  button_signal w' = button_signal w /\
  clock w' = (clock w + 1000 * Z.of_nat (List.length l))%Z /\
  button_press_time w' = button_press_time w /\ r0 w' = r0 w /\
  readings w' = readings w /\ state w' = state w /\
  last_reading_time w' = last_reading_time w /\
  trace w' = trace w ++ map (pair (state w))
               (flat_map (fun i => [Display (Lit (dots i)) 0 20 false; Sleep 1000]) l).
Proof.
  induction l as [| i l IH]; intros w.
  - cbn. rewrite Z.add_0_r, app_nil_r. tauto.
  - cbn [warm_up_dots].
    specialize (IH (sleepW 1000 (emitW (Display (Lit (dots i)) 0 20 false) w))).
    cbv zeta in IH |- *.
    destruct IH as (H1 & H2 & H3 & H4 & H5 & H6 & H7 & H8 & H9 & H10).
    rewrite H1, H2, H3, H4, H5, H6, H7, H8, H9, H10.
    cbn [sleepW emitW set_clock set_trace
         adc_signal adc_reads button_signal clock button_press_time r0 readings
         state last_reading_time trace map flat_map app List.length].
    rewrite <- !app_assoc. cbn [app].
    repeat split; try reflexivity. lia.
Qed.

Lemma dots_displayed s (l : list nat) :
  displayed (map (pair s)
               (flat_map (fun i => [Display (Lit (dots i)) 0 20 false; Sleep 1000]) l))
  = map (fun i => Lit (dots i)) l.
Proof. induction l as [| i l IH]; [reflexivity | cbn; now f_equal]. Qed.

Lemma dots_sampled s (l : list nat) :
  sampled (map (pair s)
             (flat_map (fun i => [Display (Lit (dots i)) 0 20 false; Sleep 1000]) l))
  = [].
Proof. induction l as [| i l IH]; [reflexivity | exact IH]. Qed.

Lemma next_samples_same w w' n :
  adc_signal w' = adc_signal w -> adc_reads w' = adc_reads w ->
  next_samples w' n = next_samples w n.
Proof.
  intros Hs Hr. unfold next_samples. apply map_ext. intros i.
  unfold sample_at. now rewrite Hs, Hr.
Qed.

Lemma not_In_next_samples w n :
  ~ In 0%Z (next_samples w n) ->
  forall i, (i < n)%nat -> sample_at w i <> 0%Z.
Proof.
  intros Hnz i Hi E. apply Hnz. unfold next_samples.
  apply in_map_iff. exists i. split; [exact E | apply in_seq; lia].
Qed.

(** X6: a calibration whose [k]-th sample (of its ten) is the first that is 0
    raises ZeroDivisionError right after reading it: [k + 1] samples are
    read, [k] pauses of 0.1 s have passed, "Calibrating..." is the only
    message shown, and r0 and the window are as before. *)
Theorem calibrate_stops_at_first_zero w k :
  (k < Z.to_nat NUM_CALIBRATION_READINGS)%nat -> sample_at w k = 0%Z ->
  (forall i, (i < k)%nat -> sample_at w i <> 0%Z) ->
  exists w',
    calibrate w = Fault ZeroDivisionError w'
    /\ r0 w' = r0 w /\ readings w' = readings w
    /\ sampled (trace w') = sampled (trace w) ++ next_samples w (S k)
    /\ clock w' = (clock w + 100 * Z.of_nat k)%Z
    /\ displayed (trace w') = displayed (trace w) ++ [Lit "Calibrating..."].
Proof.
  intros Hk Hz Hnz. eexists. split; [exact (calibrate_zero_at w k Hk Hz Hnz) |].
  set (w1 := emitW (Display (Lit "Calibrating...") 0 0 true)
               (emitW (Log 20 (Lit "Calibrating sensor...")) w)).
  destruct (calibration_reads_fields k w1) as (H1 & H2 & H3 & H4 & H5 & H6 & H7 & H8 & H9 & H10).
  cbv zeta in *.
  unfold readW, next_sample.
  cbn [emitW set_trace set_adc_reads adc_signal adc_reads clock r0 readings state trace].
  rewrite H1, H2, H4, H6, H7, H8, H10.
  rewrite !sampled_app, !displayed_app, reads_sampled, reads_displayed.
  subst w1. rewrite !next_samples_emitW.
  cbn [emitW set_trace adc_signal adc_reads clock r0 readings state trace].
  rewrite !sampled_app, !displayed_app.
  cbn [sampled displayed flat_map snd app].
  rewrite !app_nil_r, next_samples_snoc, <- !app_assoc.
  repeat split; reflexivity.
Qed.

Lemma calibrate_stops_at_first_zero_witness :
  exists w',
    calibrate (test_sensor [2000; 3000; 0]%Z 1.0) = Fault ZeroDivisionError w'
    /\ r0 w' = 1.0 /\ readings w' = []
    /\ sampled (trace w') = [2000; 3000; 0]%Z
    /\ clock w' = 200%Z
    /\ displayed (trace w') = [Lit "Calibrating..."].
Proof.
  apply (calibrate_stops_at_first_zero (test_sensor [2000; 3000; 0]%Z 1.0) 2).
  - cbn. lia.
  - reflexivity.
  - intros i Hi. destruct i as [| [| i]]; [discriminate | discriminate | lia].
Defined.

(** X7: on ten samples that are not 0, [warm_up] returns after 23 s (twenty
    pauses of 1 s, then the calibration), having shown "Warming up...",
    the twenty progress lines of 0 to 19 dots and the two messages of the
    calibration, read exactly the ten samples, and set r0 to the mean of
    their [rs / AIR_R0_RATIO]; the window is as before. *)
Theorem warm_up_sequence w :
  ~ In 0%Z (next_samples w (Z.to_nat NUM_CALIBRATION_READINGS)) ->
  exists w',
    warm_up w = Ok tt w'
    /\ clock w' = (clock w + 23000)%Z
    /\ displayed (trace w')
       = displayed (trace w)
         ++ Lit "Warming up..." :: map (fun i => Lit (dots i)) (seq 0 20)
         ++ [Lit "Calibrating..."; Lit "Calibration done"]
    /\ sampled (trace w')
       = sampled (trace w) ++ next_samples w (Z.to_nat NUM_CALIBRATION_READINGS)
    /\ r0 w' = mean (map (fun s => resistance s / AIR_R0_RATIO)
                       (next_samples w (Z.to_nat NUM_CALIBRATION_READINGS)))
    /\ readings w' = readings w.
Proof.
  intros Hnz.
  set (w1 := emitW (Display (Lit "Warming up...") 0 0 true)
               (emitW (Log 20 (Lit "Warming up the sensor...")) w)).
  set (w2 := warm_up_dots (seq 0 (Z.to_nat WARM_UP_TIME)) w1).
  destruct (warm_up_dots_fields (seq 0 (Z.to_nat WARM_UP_TIME)) w1)
    as (D1 & D2 & D3 & D4 & D5 & D6 & D7 & D8 & D9 & D10).
  cbv zeta in D1, D2, D3, D4, D5, D6, D7, D8, D9, D10. fold w2 in D1, D2, D3, D4, D5, D6, D7, D8, D9, D10.
  assert (Hsame : forall n, next_samples w2 n = next_samples w n).
  { intros n. apply next_samples_same; [now rewrite D1 | now rewrite D2]. }
  exists (calibrate_post w2). split.
  { unfold warm_up, for_range. run_step. run_step. fold w1.
    erewrite bind_ok by apply warm_up_loop_eq. fold w2.
    apply calibrate_ok. apply not_In_next_samples. now rewrite Hsame. }
  destruct (calibrate_post_fields w2) as (_ & _ & _ & F4 & _ & F6 & F7 & _ & _ & F10).
  cbv zeta in F4, F6, F7, F10.
  rewrite F4, F6, F7, F10, D4, D7, D10, mean_ratioed, Hsame.
  rewrite !sampled_app, !displayed_app, calibrate_events_sampled,
    calibrate_events_displayed, dots_sampled, dots_displayed, Hsame.
  subst w1.
  cbn [emitW set_trace adc_signal adc_reads clock r0 readings state trace].
  rewrite !sampled_app, !displayed_app, length_seq.
  cbn [sampled displayed flat_map snd app].
  rewrite !app_nil_r, <- !app_assoc.
  repeat split; try reflexivity.
  change (Z.of_nat (Z.to_nat WARM_UP_TIME)) with 20%Z. lia.
Qed.

Lemma warm_up_sequence_witness :
  exists w',
    warm_up (boot steady held_forever 5000) = Ok tt w'
    /\ clock w' = 28000%Z
    /\ displayed (trace w')
       = Lit "Warming up..." :: map (fun i => Lit (dots i)) (seq 0 20)
         ++ [Lit "Calibrating..."; Lit "Calibration done"]
    /\ sampled (trace w') = repeat 2000%Z 10
    /\ r0 w' = mean (map (fun s => resistance s / AIR_R0_RATIO) (repeat 2000%Z 10))
    /\ readings w' = [].
Proof.
  apply (warm_up_sequence (boot steady held_forever 5000)).
  change (next_samples _ _) with (repeat 2000%Z 10).
  intros H. apply repeat_spec in H. discriminate.
Defined.

Lemma sum_repeat (x : R) n : sum (repeat x n) = INR n * x.
Proof.
  induction n as [| n IH].
  - unfold sum. cbn. lra.
  - cbn [repeat]. rewrite sum_cons, IH, S_INR. lra.
Qed.

Lemma next_samples_constant w s n :
  (forall i, (i < n)%nat -> sample_at w i = s) -> next_samples w n = repeat s n.
Proof.
  intros H. unfold next_samples.
  assert (G : forall l, (forall i, In i l -> sample_at w i = s) ->
                        map (sample_at w) l = repeat s (List.length l)).
  { induction l as [| i l IH]; intros Hl; [reflexivity |].
    cbn [map List.length repeat]. rewrite Hl by now left. f_equal.
    apply IH. intros j Hj. apply Hl. now right. }
  rewrite G, length_seq; [reflexivity |].
  intros i Hi. apply in_seq in Hi. apply H. lia.
Qed.

Lemma response_clean_air : 0.0028578 <= Rpower 60 (-1.43068) <= 0.0028579.
Proof.
  pose proof (response_bounds 60 1 409434453 409434460 100000000 28578 10000000 28579 10000000) as E.
  replace 0.0028578 with (IZR 28578 / IZR 10000000) by lra.
  replace 0.0028579 with (IZR 28579 / IZR 10000000) by lra.
  replace 60 with (IZR 60 / IZR 1) by lra.
  apply E. vm_compute. reflexivity.
Qed.

Lemma calibrate_post_next w i :
  sample_at (calibrate_post w) i
  = sample_at w (Z.to_nat NUM_CALIBRATION_READINGS + i).
Proof.
  destruct (calibrate_post_fields w) as (F1 & F2 & _). cbv zeta in F1, F2.
  unfold sample_at. rewrite F1, F2. f_equal. lia.
Qed.

(** X8: after a calibration on a steady sample between 1 and 4094, a raw
    reading of the same sample is the clean-air value
    0.4 * AIR_R0_RATIO ^ (-1.43068), between 0.00114 and 0.00115 mg/L,
    whatever the sample. *)
Theorem clean_air_reading w s :
  (1 <= s <= 4094)%Z ->
  (forall i, (i <= Z.to_nat NUM_CALIBRATION_READINGS)%nat -> sample_at w i = s) ->
  exists w1 c w2,
    calibrate w = Ok tt w1
    /\ read_raw_value_of_alcohol w1 = Ok c w2
    /\ 0.00114 <= c <= 0.00115.
Proof.
  intros Hs Hall.
  pose proof (resistance_pos s Hs) as Hpos.
  assert (Hr : r0 (calibrate_post w) = resistance s / AIR_R0_RATIO).
  { destruct (calibrate_post_fields w) as (_ & _ & _ & _ & _ & F6 & _).
    cbv zeta in F6. rewrite F6. unfold calibrated_r0, ratioed.
    rewrite (next_samples_constant w s) by (intros i Hi; apply Hall; lia).
    rewrite map_repeat, sum_repeat.
    change (Z.to_nat NUM_CALIBRATION_READINGS) with 10%nat.
    unfold NUM_CALIBRATION_READINGS, AIR_R0_RATIO. cbn [INR]. lra. }
  assert (Hn : next_sample (calibrate_post w) = s).
  { rewrite <- sample_at_0, calibrate_post_next, Nat.add_0_r. now apply Hall. }
  assert (Hratio : resistance s / (resistance s / AIR_R0_RATIO) = AIR_R0_RATIO).
  { unfold AIR_R0_RATIO. field. lra. }
  exists (calibrate_post w), (concentration (resistance s) (resistance s / AIR_R0_RATIO)),
    (readW (calibrate_post w)).
  split.
  { apply calibrate_ok. intros i Hi. rewrite Hall by lia. lia. }
  split.
  { rewrite <- Hr, <- Hn. apply read_raw_ok.
    - rewrite Hn. lia.
    - rewrite Hr. unfold AIR_R0_RATIO. lra.
    - rewrite Hn, Hr, Hratio. unfold AIR_R0_RATIO. lra. }
  unfold concentration. rewrite Hratio.
  unfold AIR_R0_RATIO. replace 60.0 with 60 by lra.
  pose proof response_clean_air. lra.
Qed.

Lemma clean_air_reading_witness :
  exists w1 c w2,
    calibrate (boot steady held_forever 5000) = Ok tt w1
    /\ read_raw_value_of_alcohol w1 = Ok c w2
    /\ 0.00114 <= c <= 0.00115.
Proof.
  apply (clean_air_reading (boot steady held_forever 5000) 2000);
    [lia | reflexivity].
Defined.

(** X9: a calibration does not clear the window: on eleven samples between 1
    and 4094, [calibrate] returns with the window as before, and the next
    [get_smoothed_reading] pushes the new raw value, converted with the
    new r0, onto the old entries and returns the mean of that window. *)
Theorem recalibration_keeps_the_window w :
  Forall (fun s => (1 <= s <= 4094)%Z)
         (next_samples w (S (Z.to_nat NUM_CALIBRATION_READINGS))) ->
  exists w1 v w2,
    calibrate w = Ok tt w1
    /\ readings w1 = readings w
    /\ get_smoothed_reading w1 = Ok v w2
    /\ v = mean (push_window (readings w)
                   (concentration
                      (resistance (sample_at w (Z.to_nat NUM_CALIBRATION_READINGS)))
                      (r0 w1)))
    /\ readings w2
       = push_window (readings w)
           (concentration
              (resistance (sample_at w (Z.to_nat NUM_CALIBRATION_READINGS)))
              (r0 w1)).
Proof.
  intros Hall. rewrite next_samples_snoc in Hall. apply Forall_app in Hall.
  destruct Hall as [Hten Hnext]. pose proof (Forall_inv Hnext) as Hs. cbv beta in Hs.
  destruct (calibrate_post_fields w) as (_ & _ & _ & _ & _ & F6 & F7 & _).
  cbv zeta in F6, F7.
  pose proof (calibrated_r0_pos_next w Hten) as Hr.
  assert (Hn : next_sample (calibrate_post w)
               = sample_at w (Z.to_nat NUM_CALIBRATION_READINGS)).
  { now rewrite <- sample_at_0, calibrate_post_next, Nat.add_0_r. }
  assert (Hcal : calibrate w = Ok tt (calibrate_post w)).
  { apply calibrate_ok. intros i Hi E. rewrite Forall_forall in Hten.
    assert (Hin : In (sample_at w i) (next_samples w (Z.to_nat NUM_CALIBRATION_READINGS))).
    { unfold next_samples. apply in_map, in_seq. lia. }
    apply Hten in Hin. lia. }
  revert F6 F7 Hn Hcal. generalize (calibrate_post w). intros w1 F6 F7 Hn Hcal.
  assert (Hraw : read_raw_value_of_alcohol w1
                 = Ok (concentration (resistance (next_sample w1)) (r0 w1)) (readW w1)).
  { apply read_raw_ok.
    - rewrite Hn. lia.
    - rewrite F6. lra.
    - rewrite Hn, F6. apply Rdiv_lt_0_compat; [now apply resistance_pos | exact Hr]. }
  pose proof (get_smoothed_reading_ok w1 _ Hraw) as Hsm.
  rewrite Hn, F7 in Hsm.
  eexists w1, _, _.
  split; [exact Hcal |]. split; [exact F7 |]. split; [exact Hsm |].
  split; reflexivity.
Qed.

Lemma recalibration_keeps_the_window_witness :
  exists w1 v w2,
    calibrate (set_readings [5; 7] (boot steady held_forever 5000)) = Ok tt w1
    /\ readings w1 = [5; 7]
    /\ get_smoothed_reading w1 = Ok v w2
    /\ v = mean (push_window [5; 7] (concentration (resistance 2000) (r0 w1)))
    /\ readings w2 = push_window [5; 7] (concentration (resistance 2000) (r0 w1)).
Proof.
  apply (recalibration_keeps_the_window (set_readings [5; 7] (boot steady held_forever 5000))).
  apply Forall_forall. intros s Hs.
  change (next_samples _ _) with (repeat 2000%Z 11) in Hs.
  apply repeat_spec in Hs. subst s. lia.
Defined.

(** ** What holds in every run from the start of [main()] *)

Lemma hoare_pure {A} (phi : Prop) P (m : M A) Q E :
  (phi -> hoare P m Q E) -> hoare (fun w => P w /\ phi) m Q E.
Proof. intros H w [Hw Hphi]. now apply H. Qed.

Lemma Calibrated_app t t' : Calibrated t -> Calibrated (t ++ t').
Proof.
  intros (s & x & y & c & H). exists s, x, y, c. apply in_or_app. now left.
Qed.

Lemma Calibrated_done t s x y c :
  Calibrated (t ++ [(s, Display (Lit "Calibration done") x y c)]).
Proof. exists s, x, y, c. apply in_or_app. right. now left. Qed.

Lemma Ordered_nil : Ordered [].
Proof. intros t1 se t2 H. now destruct t1. Qed.

Lemma Ordered_snoc t se :
  Ordered t -> (is_reading (snd se) -> Calibrated t) -> Ordered (t ++ [se]).
Proof.
  intros Ho Hse t1 se' t2 E Hr.
  destruct (@exists_last _ (se' :: t2)) as (l & x & El); [discriminate |].
  rewrite El, app_assoc in E. apply app_inj_tail in E. destruct E as [E1 E2].
  destruct t2 as [| y t2].
  - destruct l as [| z l]; [| destruct l; discriminate].
    cbn in El. injection El as ->. rewrite app_nil_r in E1. subst. now apply Hse.
  - assert (El' : l = se' :: removelast (y :: t2)).
    { pose proof (f_equal (@removelast _) El) as H.
      rewrite removelast_last in H. rewrite <- H. reflexivity. }
    subst l. apply (Ho t1 se' _ E1 Hr).
Qed.

Ltac sane_split := split; [| split; [| split; [| split; [| split; [| split]]]]].

Section Soundness.
Variable sig : nat -> Z.
Variables G T : Prop.
Hypothesis HG : G -> in_range sig.
Variable k : nat.

Lemma Sane_emitW c cal e w s :
  (is_reading e -> cal = true) ->
  Sane sig G T k c cal w -> Sane sig G T k c cal (set_trace (trace w ++ [(s, e)]) w).
Proof.
  intros He (H0 & H1 & H2 & H3 & H4 & H5 & H6).
  sane_split; try assumption.
  - cbn. apply Ordered_snoc; [exact H5 |]. cbn. intros Hr. apply H6, He, Hr.
  - intros Hc. cbn. apply Calibrated_app, H6, Hc.
Qed.

Lemma Sane_done c cal w s x y b :
  Sane sig G T k c cal w ->
  Sane sig G T k c true
       (set_trace (trace w ++ [(s, Display (Lit "Calibration done") x y b)]) w).
Proof.
  intros (H0 & H1 & H2 & H3 & H4 & H5 & H6).
  sane_split; try assumption.
  - cbn. apply Ordered_snoc; [exact H5 |]. cbn. contradiction.
  - intros _. cbn. apply Calibrated_done.
Qed.

Lemma Sane_sleep c cal ms w :
  (0 <= ms)%Z -> Sane sig G T k c cal w -> Sane sig G T k c cal (set_clock (clock w + ms) w).
Proof.
  intros Hms (H0 & H1 & H2 & H4 & H5 & H6 & H7).
  assert (Hmono : (clock w / 1000 <= (clock w + ms) / 1000)%Z)
    by (apply Z.div_le_mono; lia).
  sane_split; try assumption.
  - cbn. lia.
  - intros HT. destruct (H2 HT) as [[H2a H2b] [H3a H3b]].
    repeat split; cbn; lia.
Qed.

Lemma Sane_weaken c c' cal cal' w :
  (c' <= c)%Z -> (cal' = true -> cal = true) ->
  Sane sig G T k c cal w -> Sane sig G T k c' cal' w.
Proof.
  intros Hc Hcal (H0 & H1 & H2 & H3 & H4 & H5 & H6).
  sane_split; try assumption; try lia.
  intros E. apply H6, Hcal, E.
Qed.

Lemma emit_sound s c cal e E :
  (is_reading e -> cal = true) ->
  hoare (Sound sig G T k s c cal) (emit e) (fun _ => Sound sig G T k s c cal) E.
Proof.
  intros He. apply hoare_modify. intros w [Hs H]. split; [exact Hs |].
  now apply Sane_emitW.
Qed.

Lemma log_sound s c cal level m E :
  hoare (Sound sig G T k s c cal) (log level m) (fun _ => Sound sig G T k s c cal) E.
Proof.
  unfold log. destruct (LOG_LEVEL <=? level)%Z.
  - apply emit_sound. contradiction.
  - now apply hoare_ret.
Qed.

Lemma utime_sleep_sound s c cal ms E :
  (0 <= ms)%Z ->
  hoare (Sound sig G T k s c cal) (utime_sleep ms) (fun _ => Sound sig G T k s c cal) E.
Proof.
  intros Hms. unfold utime_sleep.
  eapply hoare_bind; [apply emit_sound; contradiction | intros ?].
  apply hoare_modify. intros w [Hs H]. split; [exact Hs |]. now apply Sane_sleep.
Qed.

Lemma display_literal_sound s c cal m x y b E :
  hoare (Sound sig G T k s c cal) (display_message (Lit m) x y b)
        (fun _ => Sound sig G T k s c cal) E.
Proof. apply emit_sound. contradiction. Qed.

Lemma display_reading_sound s c m x y b E :
  hoare (Sound sig G T k s c true) (display_message m x y b)
        (fun _ => Sound sig G T k s c true) E.
Proof. apply emit_sound. reflexivity. Qed.

Lemma display_done_sound s c cal x y b E :
  hoare (Sound sig G T k s c cal) (display_message (Lit "Calibration done") x y b)
        (fun _ => Sound sig G T k s c true) E.
Proof.
  apply hoare_modify. intros w [Hs H]. split; [exact Hs |]. exact (Sane_done c cal w _ x y b H).
Qed.

Lemma Sound_crashed s c cal w :
  Sound sig G T k s c cal w -> (G -> saturated_read w) -> Crashed sig G T k c w.
Proof.
  intros [_ H] Hr. split; [| exact Hr].
  apply (Sane_weaken c c cal false); [lia | discriminate | exact H].
Qed.

Lemma Sound_readW s c cal w :
  Sound sig G T k s c cal w -> Sound sig G T k s c cal (readW w).
Proof.
  intros [Hs H]. split; [exact Hs |].
  apply (Sane_emitW c cal (Read (next_sample w))
           (set_adc_reads (S (adc_reads w)) w) (state w)); [contradiction |].
  exact H.
Qed.

Lemma Sound_sleepW s c cal ms w :
  (0 <= ms)%Z -> Sound sig G T k s c cal w -> Sound sig G T k s c cal (sleepW ms w).
Proof.
  intros Hms H. pose proof (utime_sleep_sound s c cal ms (fun _ => True) Hms w H) as H'.
  now rewrite utime_sleep_eq in H'.
Qed.

Lemma resistance_range (v : Z) :
  (1 <= v <= 4094)%Z -> 0.24 <= resistance v <= 4094000.
Proof.
  intros [H1 H2]. rewrite resistance_closed by lia.
  apply IZR_le in H1, H2.
  assert (Hv : 0 < IZR v) by lra.
  split.
  - apply Rmult_le_reg_r with (IZR v); [exact Hv |].
    unfold Rdiv. rewrite Rmult_assoc, Rinv_l by lra. lra.
  - apply Rmult_le_reg_r with (IZR v); [exact Hv |].
    unfold Rdiv. rewrite Rmult_assoc, Rinv_l by lra. nra.
Qed.

Lemma resistance_4095 : resistance 4095 = 0.
Proof. rewrite resistance_closed by discriminate. lra. Qed.

Lemma LastRead_range rs w : LastRead rs w -> rs = 0 \/ 0.24 <= rs <= 4094000.
Proof.
  intros (t & s & v & _ & Hv & ->).
  destruct (Z.eq_dec v 4095) as [-> | N].
  - left. apply resistance_4095.
  - right. apply resistance_range. lia.
Qed.

Lemma calculate_rs_sound s c cal :
  hoare (Sound sig G T k s c cal) _calculate_rs
        (fun rs w => Sound sig G T k s c cal w /\ (G -> LastRead rs w))
        (Crashed sig G T k c).
Proof.
  intros w H. pose proof (Sound_readW _ _ _ _ H) as H'.
  destruct (Z.eq_dec (next_sample w) 0) as [E | N].
  - rewrite (calculate_rs_zero w E).
    apply (Sound_crashed _ _ _ _ H'). intros _.
    exists (trace w), (state w), (next_sample w). split; [reflexivity | now left].
  - rewrite (calculate_rs_ok w N). split; [exact H' |].
    intros Hg. exists (trace w), (state w), (next_sample w).
    split; [reflexivity |]. split; [| reflexivity].
    destruct H as [_ [Hsig _]].
    pose proof (HG Hg (adc_reads w)) as Hr. unfold next_sample in *.
    rewrite Hsig in *. lia.
Qed.

Lemma calibration_loop_sound s c cal (l : list nat) : forall (acc U : R),
  hoare (fun w => Sound sig G T k s c cal w
                  /\ (G -> (acc = 0 \/ 0.004 <= acc) /\ acc <= U))
        (for_each l
           (fun _ r0_sum =>
              rs <- _calculate_rs ;;
              let r0_sum' := r0_sum + rs / AIR_R0_RATIO in
              utime_sleep 100 ;;
              ret r0_sum') acc)
        (fun a w => Sound sig G T k s c cal w
                    /\ (G -> (a = 0 \/ 0.004 <= a)
                             /\ a <= U + 68234 * INR (List.length l)))
        (Crashed sig G T k c).
Proof.
  induction l as [| i l IH]; intros acc U w [Hw Hacc].
  - cbn. split; [exact Hw |]. intros Hg. specialize (Hacc Hg). lra.
  - cbn [for_each]. unfold bind at 1. unfold bind at 1.
    pose proof (calculate_rs_sound s c cal w Hw) as Hrs.
    destruct (_calculate_rs w) as [rs w1 | e w1]; [| exact Hrs].
    destruct Hrs as [Hw1 Hlast]. cbv zeta.
    rewrite (bind_ok _ _ _ _ _ (utime_sleep_eq 100 w1)). unfold ret at 1.
    pose proof (IH (acc + rs / AIR_R0_RATIO) (U + 68234) (sleepW 100 w1)) as H.
    match type of H with
    | ?P -> _ => assert (Hpre : P)
    end.
    { split; [apply Sound_sleepW; [lia | exact Hw1] |].
      intros Hg. pose proof (LastRead_range _ _ (Hlast Hg)) as Hrs.
      specialize (Hacc Hg). unfold AIR_R0_RATIO. lra. }
    specialize (H Hpre).
    destruct (for_each l _ (acc + rs / AIR_R0_RATIO) (sleepW 100 w1)) as [a w2 | e w2];
      [| exact H].
    destruct H as [Hw2 Ha]. split; [exact Hw2 |].
    intros Hg. specialize (Ha Hg). cbn [List.length]. rewrite S_INR. lra.
Qed.

Lemma calibrate_sound s c cal :
  hoare (Sound sig G T k s c cal) calibrate (fun _ => Sound sig G T k s c true)
        (Crashed sig G T k c).
Proof.
  unfold calibrate, for_range.
  eapply hoare_bind; [apply log_sound | intros ?].
  eapply hoare_bind; [apply display_literal_sound | intros ?].
  eapply hoare_bind.
  { eapply hoare_conseq; [apply (calibration_loop_sound s c cal) | | |].
    - intros w' H. split; [exact H | intros ?; instantiate (1 := 0); lra].
    - intros acc w' H. exact H.
    - intros w' H. exact H. }
  intros r0_sum.
  eapply hoare_bind.
  { apply hoare_modify. intros w [[Hs H] Hacc].
    instantiate (1 := fun _ w' => Sound sig G T k s c cal w'). cbv beta.
    split; [exact Hs |].
    destruct H as (H0 & H1 & H2 & H3 & H4 & H5 & H6).
    sane_split; try assumption.
    cbn. intros Hg. specialize (Hacc Hg). rewrite length_seq in Hacc.
    change (INR (Z.to_nat NUM_CALIBRATION_READINGS)) with (INR 10) in Hacc.
    replace (INR 10) with 10 in Hacc by (cbn; lra).
    unfold NUM_CALIBRATION_READINGS, calibrated_range.
    destruct Hacc as [[-> | Hlo] Hhi]; [left; lra | right; lra]. }
  intros ?.
  eapply hoare_bind; [apply hoare_gets_keep | intros r].
  eapply hoare_bind; [apply log_sound | intros ?].
  eapply hoare_bind; [apply display_done_sound | intros ?].
  apply utime_sleep_sound. lia.
Qed.

Lemma warm_up_sound s c cal :
  hoare (Sound sig G T k s c cal) warm_up (fun _ => Sound sig G T k s c true)
        (Crashed sig G T k c).
Proof.
  unfold warm_up.
  eapply hoare_bind; [apply log_sound | intros ?].
  eapply hoare_bind; [apply display_literal_sound | intros ?].
  eapply hoare_bind.
  { apply hoare_for_each. intros i acc.
    eapply hoare_bind; [apply display_literal_sound | intros ?].
    apply utime_sleep_sound. lia. }
  intros ?. apply calibrate_sound.
Qed.

Lemma alcohol_of_rs_sound s c cal rs :
  hoare (fun w => Sound sig G T k s c cal w /\ (G -> LastRead rs w))
        (alcohol_of_rs rs) (fun _ => Sound sig G T k s c cal) (Crashed sig G T k c).
Proof.
  intros w [Hw Hlast].
  destruct (Req_dec_T (r0 w) 0) as [E | N].
  - now rewrite alcohol_of_rs_guard.
  - destruct (Rlt_le_dec 0 (rs / r0 w)) as [Hpos | Hneg].
    + now rewrite alcohol_of_rs_ok.
    + rewrite alcohol_of_rs_domain by assumption.
      apply (Sound_crashed _ _ _ _ Hw). intros Hg.
      destruct (Hlast Hg) as (t & st & v & Ht & Hv & ->).
      exists t, st, v. split; [exact Ht |]. right.
      destruct (Z.eq_dec v 4095) as [E | N']; [exact E | exfalso].
      assert (Hr : 0 < r0 w).
      { destruct Hw as [_ (_ & _ & _ & _ & H4 & _)].
        destruct (H4 Hg) as [E0 | Hrange]; [contradiction | lra]. }
      assert (Hres : 0 < resistance v) by (apply resistance_pos; lia).
      pose proof (Rdiv_lt_0_compat _ _ Hres Hr). lra.
Qed.

Lemma read_raw_sound s c cal :
  hoare (Sound sig G T k s c cal) read_raw_value_of_alcohol
        (fun _ => Sound sig G T k s c cal) (Crashed sig G T k c).
Proof.
  unfold read_raw_value_of_alcohol.
  eapply hoare_bind; [apply calculate_rs_sound | intros rs].
  apply alcohol_of_rs_sound.
Qed.

Lemma push_window_grows l raw :
  (List.length l <= List.length (push_window l raw))%nat.
Proof.
  rewrite push_window_length.
  destruct (Nat.ltb_spec max_readings (List.length l + 1)); lia.
Qed.

Lemma get_smoothed_reading_sound s c cal :
  hoare (Sound sig G T k s c cal) get_smoothed_reading
        (fun _ => Sound sig G T k s c cal) (Crashed sig G T k c).
Proof.
  intros w Hw. unfold get_smoothed_reading. unfold bind at 1.
  pose proof (read_raw_sound s c cal w Hw) as Hraw.
  destruct (read_raw_value_of_alcohol w) as [raw w1 | e w1]; [| exact Hraw].
  assert (Hpost : Sound sig G T k s c cal
                    (set_readings (push_window (readings w1) raw) w1)).
  { destruct Hraw as [Hs (H0 & H1 & H2 & H3 & H4 & H5 & H6)].
    split; [exact Hs |]. sane_split; try assumption.
    cbn. pose proof (push_window_grows (readings w1) raw). lia. }
  assert (Hne : INR (List.length (push_window (readings w1) raw)) <> 0).
  { apply not_0_INR. pose proof (push_window_nonempty (readings w1) raw). lia. }
  run_step. run_step.
  revert Hpost Hne. unfold push_window.
  change (readings (set_readings (readings w1 ++ [raw]) w1)) with (readings w1 ++ [raw]).
  destruct (max_readings <? List.length (readings w1 ++ [raw]))%nat; intros Hpost Hne;
    run_step; run_step; now rewrite fdiv_ok.
Qed.

Lemma button_duration_nonneg w : Timed w -> (0 <= button_duration w)%Z.
Proof.
  intros [[H1 H2] _]. unfold button_duration, press_duration.
  destruct (button_signal w (clock w)).
  - destruct (button_press_time w =? 0)%Z; lia.
  - destruct (0 <? button_press_time w)%Z; lia.
Qed.

Lemma button_mark_past w :
  Timed w -> (0 <= button_mark w <= clock w / 1000)%Z.
Proof.
  intros [[H1 H2] _]. unfold button_mark, press_mark.
  destruct (button_signal w (clock w)).
  - destruct (button_press_time w =? 0)%Z; lia.
  - lia.
Qed.

Lemma check_button_sound s c cal E :
  hoare (Sound sig G T k s c cal) check_button (fun _ => Sound sig G T k s c cal) E.
Proof.
  intros w [Hs (H0 & H1 & H2 & H3 & H4 & H5 & H6)]. rewrite check_button_eq.
  split; [exact Hs |]. sane_split; try assumption.
  intros HT. destruct (H2 HT) as [Hb Hl]. split; [| exact Hl].
  exact (button_mark_past w (conj Hb Hl)).
Qed.

Lemma assign_state_sound s s' c cal E :
  hoare (Sound sig G T k s c cal) (assign_state s')
        (fun _ => Sound sig G T k s' c cal) E.
Proof.
  intros w [_ H]. rewrite assign_state_eq. split; [reflexivity |].
  apply (Sane_emitW c cal (Assign s') (set_state s' w) s'); [contradiction | exact H].
Qed.

Lemma hoare_bind_state_sound {B} s c cal (f : State -> M B) Q E :
  hoare (Sound sig G T k s c cal) (f s) Q E ->
  hoare (Sound sig G T k s c cal) (bind (gets state) f) Q E.
Proof.
  intros H w Hw. unfold bind, gets. destruct Hw as [Hs HS]. rewrite Hs.
  apply H. now split.
Qed.

Lemma hoare_Settled {A} c (m : M A) Q E :
  (forall s, s <> CALIBRATING ->
             hoare (Sound sig G T k s c (State_eqb s ON)) m Q E) ->
  hoare (Settled sig G T k c) m Q E.
Proof.
  intros H w (Hs & Hsane & Hcal). apply (H (state w) Hs). split; [reflexivity |].
  destruct Hsane as (H0 & H1 & H2 & H3 & H4 & H5 & _).
  sane_split; try assumption.
  intros E'. apply Hcal. now apply State_eqb_eq.
Qed.

Lemma Sound_Settled s c cal w :
  s <> CALIBRATING -> (s = ON -> cal = true) ->
  Sound sig G T k s c cal w -> Settled sig G T k c w.
Proof.
  intros Hs Hcal [E H]. split; [now rewrite E |].
  split; [apply (Sane_weaken c c cal false); [lia | discriminate | exact H] |].
  intros Eon. rewrite E in Eon. destruct H as (_ & _ & _ & _ & _ & _ & H6).
  now apply H6, Hcal.
Qed.

Lemma hoare_to_Settled {A} P s c cal (m : M A) E :
  s <> CALIBRATING -> (s = ON -> cal = true) ->
  hoare P m (fun _ => Sound sig G T k s c cal) E ->
  hoare P m (fun _ => Settled sig G T k c) E.
Proof.
  intros Hs Hcal H w Hw. specialize (H w Hw).
  destruct (m w); [now apply (Sound_Settled s c cal) | exact H].
Qed.

Lemma State_eqb_ON s : s = ON -> State_eqb s ON = true.
Proof. now intros ->. Qed.

Lemma handle_button_settled d c :
  hoare (Settled sig G T k c) (handle_button d) (fun _ => Settled sig G T k c)
        (Crashed sig G T k c).
Proof.
  apply hoare_Settled. intros s Hs. unfold handle_button.
  destruct (0 <? d)%Z;
    [| apply hoare_ret; intros w; apply Sound_Settled; [exact Hs | apply State_eqb_ON]].
  destruct (LONG_PRESS_TIME <=? d)%Z.
  - apply hoare_bind_state_sound. destruct s; cbn [State_eqb]; [| | contradiction].
    + eapply hoare_bind.
      { eapply hoare_bind; [apply assign_state_sound | intros ?].
        eapply hoare_bind; [apply warm_up_sound | intros ?]. apply log_sound. }
      intros ?. apply hoare_bind_state_sound. cbn [State_eqb].
      eapply hoare_bind; [apply display_literal_sound | intros ?].
      apply (hoare_to_Settled _ ON c true); [discriminate | reflexivity |].
      apply utime_sleep_sound. lia.
    + eapply hoare_bind.
      { eapply hoare_bind; [apply assign_state_sound | intros ?]. apply log_sound. }
      intros ?. apply hoare_bind_state_sound. cbn [State_eqb].
      eapply hoare_bind; [apply display_literal_sound | intros ?].
      apply (hoare_to_Settled _ OFF c true); [discriminate | discriminate |].
      apply utime_sleep_sound. lia.
  - apply hoare_bind_state_sound.
    destruct (State_eqb s ON && (d <? LONG_PRESS_TIME)%Z).
    + eapply hoare_bind; [apply assign_state_sound | intros ?].
      eapply hoare_bind; [apply calibrate_sound | intros ?].
      apply (hoare_to_Settled _ ON c true); [discriminate | reflexivity |].
      apply assign_state_sound.
    + apply hoare_ret. intros w. apply Sound_Settled; [exact Hs | apply State_eqb_ON].
Qed.

Lemma Crashed_weaken c c' w :
  (c' <= c)%Z -> Crashed sig G T k c w -> Crashed sig G T k c' w.
Proof.
  intros Hc [H Hr]. split; [| exact Hr].
  apply (Sane_weaken c c' false false); [exact Hc | discriminate | exact H].
Qed.

(** A reading taken at the whole second [t]. *)
Lemma reading_sound t :
  hoare (fun w => Sound sig G T k ON t true w /\ (T -> (0 <= t)%Z))
        (raw_alcohol <- get_smoothed_reading ;;
         let ppm := convert_raw_to_ppm raw_alcohol in
         let bac := convert_raw_to_bac raw_alcohol in
         let g_per_ml := convert_raw_to_gram_per_millilitre raw_alcohol in
         log 20 (Fmt "Raw Alcohol: " raw_alcohol ".2f" " mg/L, ...") ;;
         display_message (Fmt "Raw: " raw_alcohol ".2f" " mg/L") 0 0 true ;;
         display_message (Fmt "PPM: " ppm ".0f" "") 0 16 false ;;
         display_message (Fmt "BAC: " bac ".2f" " %") 0 32 false ;;
         display_message (Fmt "g/mL: " g_per_ml ".4f" "") 0 48 false ;;
         modify (set_last_reading_time t))
        (fun _ => Sound sig G T k ON t true) (Crashed sig G T k t).
Proof.
  apply hoare_pure. intros Ht.
  eapply hoare_bind; [apply get_smoothed_reading_sound | intros raw].
  cbv zeta.
  eapply hoare_bind; [apply log_sound | intros ?].
  do 4 (eapply hoare_bind; [apply display_reading_sound | intros ?]).
  apply hoare_modify. intros w [Hs (H0 & H1 & H2 & H3 & H4 & H5 & H6)].
  split; [exact Hs |]. sane_split; try assumption.
  intros HT. destruct (H2 HT) as [Hb _]. split; [exact Hb |].
  cbn. split; [now apply Ht | exact H1].
Qed.

Lemma periodic_reading_settled c :
  hoare (Settled sig G T k c) periodic_reading (fun _ => Settled sig G T k c)
        (Crashed sig G T k c).
Proof.
  apply hoare_Settled. intros s Hs. unfold periodic_reading.
  apply hoare_bind_state_sound. destruct s; cbn [State_eqb]; [| | contradiction].
  - apply hoare_ret. intros w. apply Sound_Settled; [discriminate | discriminate].
  - intros w Hw. unfold utime_time. do 2 run_step.
    destruct (reading_interval <=? clock w / 1000 - last_reading_time w)%Z.
    2:{ cbn. revert Hw. apply Sound_Settled; [discriminate | reflexivity]. }
    assert (Hc : (c <= clock w / 1000)%Z) by apply Hw.
    assert (Hpre : Sound sig G T k ON (clock w / 1000) true w
                   /\ (T -> (0 <= clock w / 1000)%Z)).
    { destruct Hw as [Hs' (H0 & H1 & H2 & H3 & H4 & H5 & H6)].
      split.
      - split; [exact Hs' |]. sane_split; try assumption. lia.
      - intros HT. destruct (H2 HT) as [[? ?] _]. lia. }
    pose proof (reading_sound (clock w / 1000) w Hpre) as H.
    cbv zeta in H.
    match type of H with
    | match ?x with _ => _ end =>
        change (match x with
                | Ok _ w' => Settled sig G T k c w'
                | Fault _ w' => Crashed sig G T k c w'
                end);
        destruct x as [[] w' | e w']
    end.
    + revert H. intros [Hs' H].
      apply (Sound_Settled ON c true); [discriminate | reflexivity |].
      split; [exact Hs' |].
      apply (Sane_weaken (clock w / 1000) c true true); [exact Hc | trivial | exact H].
    + now apply (Crashed_weaken (clock w / 1000)).
Qed.

Lemma loop_body_settled c :
  hoare (Settled sig G T k c) loop_body (fun _ => Settled sig G T k c)
        (Crashed sig G T k c).
Proof.
  unfold loop_body.
  eapply hoare_bind.
  { apply hoare_Settled. intros s Hs.
    apply (hoare_to_Settled _ s c (State_eqb s ON));
      [exact Hs | apply State_eqb_ON | apply check_button_sound]. }
  intros d.
  eapply hoare_bind; [apply handle_button_settled | intros ?].
  eapply hoare_bind; [apply periodic_reading_settled | intros ?].
  apply hoare_Settled. intros s Hs.
  apply (hoare_to_Settled _ s c (State_eqb s ON));
    [exact Hs | apply State_eqb_ON | apply utime_sleep_sound; lia].
Qed.

Lemma main_loop_settled n c :
  hoare (Settled sig G T k c) (main_loop n) (fun _ => Settled sig G T k c)
        (Crashed sig G T k c).
Proof.
  induction n as [| n IH]; cbn [main_loop].
  - now apply hoare_ret.
  - eapply hoare_bind; [apply loop_body_settled | intros ?; exact IH].
Qed.

End Soundness.

Lemma boot_Settled adc button t0 (G T : Prop) :
  (T -> (0 <= t0)%Z) ->
  Settled adc G T 0 (t0 / 1000) (boot adc button t0).
Proof.
  intros Ht. split; [discriminate |]. split; [| discriminate].
  sane_split; cbn; try reflexivity; try lia.
  - intros HT. specialize (Ht HT).
    assert (0 <= t0 / 1000)%Z by (apply Z.div_pos; lia).
    repeat split; cbn; lia.
  - intros ?. right. lra.
  - apply Ordered_nil.
Qed.

(** What the invariant says of the end of a run, returned or faulted. *)
Lemma run_is_sane n adc button t0 (G T : Prop) :
  (G -> in_range adc) -> (T -> (0 <= t0)%Z) ->
  Sane adc G T 0 (t0 / 1000) false (world_of (main_loop n (boot adc button t0))).
Proof.
  intros HG HT.
  pose proof (main_loop_settled adc G T HG 0 n (t0 / 1000) _
                (boot_Settled adc button t0 G T HT)) as H.
  destruct (main_loop n (boot adc button t0)) as [[] w' | e w']; cbn [world_of];
    apply H.
Qed.

(** ** Whole runs *)

Lemma main_loop_app n m w :
  main_loop (n + m) w = (main_loop n ;; main_loop m) w.
Proof.
  revert w. induction n as [| n IH]; intros w; [reflexivity |].
  cbn [Nat.add main_loop]. unfold bind in *.
  destruct (loop_body w) as [[] w1 | e w1]; [| reflexivity].
  apply IH.
Qed.

Lemma idle_polls_fields j : forall w,
  let w' := idle_polls j w in
  adc_signal w' = adc_signal w /\ adc_reads w' = adc_reads w /\
  button_signal w' = button_signal w /\
  clock w' = (clock w + 100 * Z.of_nat j)%Z /\
  button_press_time w' = button_press_time w /\ state w' = state w.
Proof.
  induction j as [| j IH]; intros w.
  - cbn. rewrite Z.add_0_r. tauto.
  - cbn [idle_polls]. specialize (IH (sleepW 100 w)). cbv zeta in IH |- *.
    destruct IH as (H1 & H2 & H3 & H4 & H5 & H6).
    rewrite H1, H2, H3, H4, H5, H6.
    cbn [sleepW emitW set_clock set_trace adc_signal adc_reads button_signal clock
         button_press_time state].
    repeat split; try reflexivity. lia.
Qed.

(** Polls of a held and stamped button that report less than a long press,
    while the device is off. *)
Lemma held_off_polls j : forall w,
  state w = OFF -> button_press_time w <> 0%Z ->
  (forall i, (i < j)%nat -> button_signal w (clock w + 100 * Z.of_nat i)%Z = true) ->
  (forall i, (i < j)%nat ->
     ((clock w + 100 * Z.of_nat i) / 1000 - button_press_time w < LONG_PRESS_TIME)%Z) ->
  main_loop j w = Ok tt (idle_polls j w).
Proof.
  induction j as [| j IH]; intros w Hs Hb Hp Hd; [reflexivity |].
  assert (Hp0 : button_signal w (clock w) = true).
  { specialize (Hp 0%nat ltac:(lia)). now rewrite Z.add_0_r in Hp. }
  assert (Hd0 : (clock w / 1000 - button_press_time w < LONG_PRESS_TIME)%Z).
  { specialize (Hd 0%nat ltac:(lia)). now rewrite Z.add_0_r in Hd. }
  cbn [main_loop idle_polls].
  rewrite (bind_ok _ _ _ _ _
             (off_poll_sleeps w _ w Hs (check_button_held w Hp0 Hb) Hd0)).
  apply IH.
  - exact Hs.
  - exact Hb.
  - intros i Hi. specialize (Hp (S i) ltac:(lia)).
    cbn [sleepW emitW set_clock set_trace button_signal clock].
    replace (clock w + 100 + 100 * Z.of_nat i)%Z
      with (clock w + 100 * Z.of_nat (S i))%Z by lia.
    exact Hp.
  - intros i Hi. specialize (Hd (S i) ltac:(lia)).
    cbn [sleepW emitW set_clock set_trace button_press_time clock].
    replace (clock w + 100 + 100 * Z.of_nat i)%Z
      with (clock w + 100 * Z.of_nat (S i))%Z by lia.
    exact Hd.
Qed.

Lemma warm_up_zero w :
  next_sample w = 0%Z -> exists w', warm_up w = Fault ZeroDivisionError w'.
Proof.
  intros Hz. eexists. unfold warm_up, for_range. run_step. run_step.
  erewrite bind_ok by apply warm_up_loop_eq.
  apply calibrate_zero.
  destruct (warm_up_dots_fields (seq 0 (Z.to_nat WARM_UP_TIME))
              (emitW (Display (Lit "Warming up...") 0 0 true)
                 (emitW (Log 20 (Lit "Warming up the sensor...")) w)))
    as (D1 & D2 & _).
  cbv zeta in D1, D2. unfold next_sample in *. rewrite D1, D2. exact Hz.
Qed.

(** The poll that turns the device on faults when the next sample is 0. *)
Lemma turn_on_faults_on_zero w :
  state w = OFF -> button_press_time w <> 0%Z -> button_signal w (clock w) = true ->
  (LONG_PRESS_TIME <= clock w / 1000 - button_press_time w)%Z ->
  next_sample w = 0%Z ->
  exists w', loop_body w = Fault ZeroDivisionError w'.
Proof.
  intros Hs Hb Hp Hd Hz. unfold loop_body.
  rewrite (bind_ok _ _ _ _ _ (check_button_held w Hp Hb)).
  destruct (warm_up_zero (emitW (Assign ON) (set_state ON w))) as [w' Hw']; [exact Hz |].
  exists w'. apply bind_fault. unfold handle_button.
  destruct (Z.ltb_spec 0 (clock w / 1000 - button_press_time w));
    [| unfold LONG_PRESS_TIME in Hd; lia].
  destruct (Z.leb_spec LONG_PRESS_TIME (clock w / 1000 - button_press_time w)); [| lia].
  run_step. rewrite Hs. cbn [State_eqb].
  apply bind_fault. run_step. now apply bind_fault.
Qed.

Lemma grounded_run_faults :
  exists w', main_loop 31 (boot grounded held_forever 5000) = Fault ZeroDivisionError w'.
Proof.
  set (w0 := boot grounded held_forever 5000).
  set (w1 := sleepW 100 (set_button_press_time 5 w0)).
  assert (H0 : loop_body w0 = Ok tt w1).
  { apply (off_poll_sleeps w0 0); [reflexivity | reflexivity | reflexivity]. }
  assert (H1 : main_loop 29 w1 = Ok tt (idle_polls 29 w1)).
  { apply held_off_polls;
      [reflexivity | discriminate | reflexivity |].
    intros i Hi. change (clock w1) with 5100%Z. change (button_press_time w1) with 5%Z.
    unfold LONG_PRESS_TIME. apply Z.lt_sub_lt_add_r, Z.div_lt_upper_bound; lia. }
  destruct (idle_polls_fields 29 w1) as (F1 & F2 & F3 & F4 & F5 & F6).
  cbv zeta in F1, F2, F3, F4, F5, F6.
  destruct (turn_on_faults_on_zero (idle_polls 29 w1)) as [w' Hw'].
  - now rewrite F6.
  - rewrite F5. discriminate.
  - now rewrite F3.
  - rewrite F4, F5. reflexivity.
  - unfold next_sample. now rewrite F1.
  - exists w'. change 31%nat with (1 + (29 + 1))%nat.
    rewrite main_loop_app. unfold bind at 1.
    change (main_loop 1 w0) with ((loop_body ;; ret tt) w0).
    rewrite (bind_ok _ _ _ _ _ H0). unfold ret at 1.
    rewrite main_loop_app. unfold bind at 1. rewrite H1.
    change (main_loop 1 (idle_polls 29 w1))
      with ((loop_body ;; ret tt) (idle_polls 29 w1)).
    now apply bind_fault.
Qed.



Lemma Settled_rebound sig (G T : Prop) k c w :
  Settled sig G T k c w -> Settled sig G T (List.length (readings w)) c w.
Proof.
  intros (Hs & (H0 & H1 & H2 & H3 & H4 & H5 & H6) & Hc).
  split; [exact Hs |]. split; [| exact Hc].
  split; [exact H0 |]. split; [exact H1 |]. split; [exact H2 |].
  split; [lia |]. now repeat split.
Qed.

Lemma ShownReading_In s t :
  In (s, ShownReading) (landmarks t) ->
  exists b v f a x y c, In (s, Display (Fmt b v f a) x y c) t.
Proof.
  intros H. apply landmarks_In in H. destruct H as [e [Hin Hk]].
  destruct e as [v | [m' | b v f a] x y c | ? ? | ? | ?]; cbn in Hk;
    try (destruct Hk as [Hk | []]; discriminate); try contradiction.
  now exists b, v, f, a, x, y, c.
Qed.

Lemma held_forever_shows_a_reading :
  exists w' b v f a x y c,
    main_loop 31 (boot steady held_forever 5000) = Ok tt w'
    /\ In (ON, Display (Fmt b v f a) x y c) (trace w').
Proof.
  run_from_boot 31%nat held_forever.
  destruct (ShownReading_In ON (trace w')) as (b & v & f & a & x & y & c & H).
  { rewrite Hl. apply (proj1 (occurs_In _ _)). vm_compute. reflexivity. }
  exists w', b, v, f, a, x, y, c. split; [exact E | exact H].
Qed.

(** X10: in every run from the start of [main()] at a time that is not
    negative, returned or faulted, the press stamp and the time of the
    last reading are whole seconds between 0 and the current time, so that
    the duration that the next [check_button] reports is never negative. *)
Theorem stamps_stay_in_the_past n adc button t0 :
  (0 <= t0)%Z ->
  let w := world_of (main_loop n (boot adc button t0)) in
  (0 <= button_press_time w <= clock w / 1000)%Z
  /\ (0 <= last_reading_time w <= clock w / 1000)%Z
  /\ exists d w1, check_button w = Ok d w1 /\ (0 <= d)%Z.
Proof.
  intros Ht. cbv zeta.
  destruct (run_is_sane n adc button t0 False True) as (_ & _ & H & _);
    [contradiction | now intros _ |].
  specialize (H I). destruct H as [Hb Hl].
  split; [exact Hb |]. split; [exact Hl |].
  eexists _, _. split; [apply check_button_eq |].
  apply button_duration_nonneg. now split.
Qed.

Lemma stamps_stay_in_the_past_witness :
  let w := world_of (main_loop 41 (boot steady tap_then_hold 5000)) in
  (0 <= button_press_time w <= clock w / 1000)%Z
  /\ (0 <= last_reading_time w <= clock w / 1000)%Z
  /\ exists d w1, check_button w = Ok d w1 /\ (0 <= d)%Z.
Proof.
  apply (stamps_stay_in_the_past 41 steady tap_then_hold 5000). lia.
Defined.

(** X11: on samples in the range of the ADC, [0, 4095], r0 is 0 or between
    0.0004 and 68234 in every run from the start of [main()], returned or
    faulted: it is never negative, and never so small or so large that a
    ratio [rs / r0] could leave the range of the doubles. *)
Theorem r0_stays_in_range n adc button t0 :
  in_range adc ->
  let r := r0 (world_of (main_loop n (boot adc button t0))) in
  r = 0 \/ 0.0004 <= r <= 68234.
Proof.
  intros Hr.
  destruct (run_is_sane n adc button t0 (in_range adc) False)
    as (_ & _ & _ & _ & H & _); [now intros ? | contradiction |].
  now apply H.
Qed.

Lemma r0_stays_in_range_witness :
  let r := r0 (world_of (main_loop 41 (boot steady tap_then_hold 5000))) in
  r = 0 \/ 0.0004 <= r <= 68234.
Proof.
  apply (r0_stays_in_range 41 steady tap_then_hold 5000).
  intros i. unfold steady. lia.
Defined.



(** X13: on samples in the range of the ADC, a run from the start of
    [main()] faults only right after it has read a sample of 0 or of
    4095. *)
Theorem faults_only_on_saturated_samples n adc button t0 e w' :
  in_range adc ->
  main_loop n (boot adc button t0) = Fault e w' ->
  exists t s v, trace w' = t ++ [(s, Read v)] /\ (v = 0 \/ v = 4095)%Z.
Proof.
  intros Hr Hf.
  pose proof (main_loop_settled adc (in_range adc) False (fun H => H) 0 n (t0 / 1000) _
                (boot_Settled adc button t0 (in_range adc) False
                   ltac:(contradiction))) as H.
  rewrite Hf in H. destruct H as [_ H]. exact (H Hr).
Qed.

Lemma faults_only_on_saturated_samples_witness :
  exists w',
    main_loop 31 (boot grounded held_forever 5000) = Fault ZeroDivisionError w'
    /\ exists t s v, trace w' = t ++ [(s, Read v)] /\ (v = 0 \/ v = 4095)%Z.
Proof.
  destruct grounded_run_faults as [w' Hw']. exists w'. split; [exact Hw' |].
  apply (faults_only_on_saturated_samples 31 grounded held_forever 5000
           ZeroDivisionError w'); [| exact Hw'].
  intros i. unfold grounded. lia.
Defined.

(** X14: the window only fills up: along a run from the start of [main()]
    its length never decreases and never exceeds [max_readings], whatever
    the button and the samples do. *)
Theorem window_never_shrinks n m adc button t0 :
  (List.length (readings (world_of (main_loop n (boot adc button t0))))
   <= List.length (readings (world_of (main_loop (n + m) (boot adc button t0))))
   <= max_readings)%nat.
Proof.
  split.
  - rewrite main_loop_app. unfold bind.
    pose proof (main_loop_settled adc False False ltac:(contradiction) 0 n (t0 / 1000) _
                  (boot_Settled adc button t0 False False ltac:(contradiction))) as H.
    destruct (main_loop n (boot adc button t0)) as [[] w1 | e w1]; cbn [world_of];
      [| lia].
    apply Settled_rebound in H.
    pose proof (main_loop_settled adc False False ltac:(contradiction) _ m (t0 / 1000) _ H)
      as H'.
    destruct (main_loop m w1) as [[] w2 | e w2]; cbn [world_of]; apply H'.
  - pose proof (main_loop_inv (n + m) _ (boot_Idle adc button t0)) as H.
    destruct (main_loop (n + m) (boot adc button t0)) as [[] w1 | e w1]; cbn [world_of];
      apply H.
Qed.

(** X15: no reading is displayed before a calibration has completed: in the
    trace of every run from the start of [main()], returned or faulted, a
    formatted line on the display comes after a "Calibration done". *)
Theorem no_reading_before_calibration n adc button t0 t1 s b v f a x y c t2 :
  trace (world_of (main_loop n (boot adc button t0)))
  = t1 ++ (s, Display (Fmt b v f a) x y c) :: t2 ->
  exists s' x' y' c', In (s', Display (Lit "Calibration done") x' y' c') t1.
Proof.
  intros Ht.
  destruct (run_is_sane n adc button t0 False False) as (_ & _ & _ & _ & _ & H & _);
    [contradiction | contradiction |].
  exact (H _ _ _ Ht I).
Qed.

Lemma no_reading_before_calibration_witness :
  exists w' t1 s b v f a x y c t2,
    main_loop 31 (boot steady held_forever 5000) = Ok tt w'
    /\ trace w' = t1 ++ (s, Display (Fmt b v f a) x y c) :: t2
    /\ exists s' x' y' c', In (s', Display (Lit "Calibration done") x' y' c') t1.
Proof.
  destruct held_forever_shows_a_reading as (w' & b & v & f & a & x & y & c & E & Hin).
  destruct (in_split _ _ Hin) as (t1 & t2 & Ht).
  exists w', t1, ON, b, v, f, a, x, y, c, t2.
  split; [exact E |]. split; [exact Ht |].
  apply (no_reading_before_calibration 31 steady held_forever 5000 t1 ON b v f a x y c t2).
  rewrite E. exact Ht.
Defined.

(** ** The reading of a poll and the window *)

(** A step that keeps a predicate which the sensor's fields do not touch. *)
Ltac keep_step :=
  cbv beta zeta;
  lazymatch goal with
  | |- hoare _ (bind _ _) _ _ => eapply hoare_bind; [| intros ?]
  | |- hoare _ (gets _) _ _ => apply hoare_gets_keep
  | |- hoare _ (ret _) _ _ => apply hoare_ret_keep
  | |- hoare _ (modify _) _ _ =>
      apply hoare_modify_keep; let H := fresh in intros ? H; exact H
  | |- hoare _ (fdiv _ _) _ _ => apply hoare_fdiv; trivial
  | |- hoare _ (math_pow _ _) _ _ => apply hoare_math_pow; trivial
  | |- hoare _ (if ?b then _ else _) _ _ => destruct b
  end.

(** [get_smoothed_reading] takes no time and leaves the state and the time
    of the last reading alone. *)
Lemma get_smoothed_reading_frame w v w' :
  get_smoothed_reading w = Ok v w' ->
  state w' = state w /\ clock w' = clock w
  /\ last_reading_time w' = last_reading_time w.
Proof.
  intros E.
  assert (H : hoare (fun x => state x = state w /\ clock x = clock w
                              /\ last_reading_time x = last_reading_time w)
                    get_smoothed_reading
                    (fun _ x => state x = state w /\ clock x = clock w
                                /\ last_reading_time x = last_reading_time w)
                    (fun _ => True)).
  { unfold get_smoothed_reading, read_raw_value_of_alcohol, _calculate_rs,
      mq3_pin_read, alcohol_of_rs, emit.
    repeat keep_step. }
  specialize (H w (conj eq_refl (conj eq_refl eq_refl))).
  now rewrite E in H.
Qed.

(** After the reading block of a poll no reading is due. *)
Lemma periodic_reading_done w w1 :
  periodic_reading w = Ok tt w1 -> state w1 = ON ->
  (clock w1 / 1000 - last_reading_time w1 < reading_interval)%Z.
Proof.
  unfold periodic_reading. run_step.
  destruct (State_eqb (state w) ON) eqn:Es.
  2:{ intros [= <-] Hon. rewrite Hon in Es. discriminate. }
  unfold utime_time. run_step. run_step.
  destruct (Z.leb_spec reading_interval (clock w / 1000 - last_reading_time w)) as [Hd | Hd].
  2:{ now intros [= <-] _. }
  destruct (get_smoothed_reading w) as [raw w' | e w'] eqn:Eg.
  2:{ rewrite (bind_fault _ _ _ _ _ Eg). discriminate. }
  destruct (get_smoothed_reading_frame _ _ _ Eg) as (_ & Hc & _).
  rewrite (bind_ok _ _ _ _ _ Eg). cbv zeta.
  do 5 run_step. rewrite modify_eq. intros [= <-] _.
  cbn [set_last_reading_time emitW set_trace clock last_reading_time].
  rewrite Hc. unfold reading_interval. lia.
Qed.

Lemma first_reading_at_boot :
  exists w1,
    periodic_reading (set_state ON (boot steady held_forever 5000)) = Ok tt w1
    /\ state w1 = ON /\ last_reading_time w1 = 5%Z /\ clock w1 = 5000%Z.
Proof.
  set (w := set_state ON (boot steady held_forever 5000)).
  assert (Hraw : read_raw_value_of_alcohol w
                 = Ok (concentration (resistance 2000) 1.0) (readW w)).
  { apply (read_raw_ok w); [discriminate | cbn; lra |].
    change (next_sample w) with 2000%Z. change (r0 w) with 1.0.
    rewrite resistance_2000. lra. }
  pose proof (get_smoothed_reading_ok w _ Hraw) as Hg.
  eexists. split.
  - unfold periodic_reading. run_step. change (State_eqb (state w) ON) with true.
    cbv iota. unfold utime_time. run_step. run_step.
    change (reading_interval <=? clock w / 1000 - last_reading_time w)%Z with true.
    cbv iota. rewrite (bind_ok _ _ _ _ _ Hg). cbv zeta.
    do 5 run_step. apply modify_eq.
  - repeat split.
Qed.









(** X16: at most one reading per second: once the reading block of a poll
    has returned, it does nothing in any world of the same second with the
    same state and the same time of the last reading (such as the next
    polls, 0.1 s apart, until the second is over). *)
Theorem periodic_reading_once_per_second w w1 w2 :
  periodic_reading w = Ok tt w1 ->
  state w2 = state w1 -> last_reading_time w2 = last_reading_time w1 ->
  (clock w2 / 1000 = clock w1 / 1000)%Z ->
  periodic_reading w2 = Ok tt w2.
Proof.
  intros H Hs Hl Hc. unfold periodic_reading. run_step.
  destruct (State_eqb (state w2) ON) eqn:Es; [| reflexivity].
  apply State_eqb_eq in Es. rewrite Hs in Es.
  pose proof (periodic_reading_done _ _ H Es) as Hd.
  unfold utime_time. run_step. run_step. rewrite Hc, Hl.
  destruct (Z.leb_spec reading_interval (clock w1 / 1000 - last_reading_time w1));
    [lia | reflexivity].
Qed.

Lemma periodic_reading_once_per_second_witness :
  exists w1,
    periodic_reading (set_state ON (boot steady held_forever 5000)) = Ok tt w1
    /\ periodic_reading (sleepW 100 w1) = Ok tt (sleepW 100 w1).
Proof.
  destruct first_reading_at_boot as (w1 & H & Hs & Hl & Hc).
  exists w1. split; [exact H |].
  apply (periodic_reading_once_per_second
           (set_state ON (boot steady held_forever 5000)) w1 (sleepW 100 w1) H).
  - reflexivity.
  - reflexivity.
  - cbn [sleepW emitW set_clock set_trace clock]. rewrite Hc. reflexivity.
Defined.



(** X5: a calibration on ten samples that are not 0 returns after 3 s (ten
    pauses of 0.1 s and one of 2 s), having read exactly these ten
    samples, shown "Calibrating..." and "Calibration done", and set r0 to
    the mean of their [rs / AIR_R0_RATIO]; the window and the state are as
    before. *)
Theorem calibrate_averages_ten_samples w :
  ~ In 0%Z (next_samples w (Z.to_nat NUM_CALIBRATION_READINGS)) ->
  exists w',
    calibrate w = Ok tt w'
    /\ sampled (trace w')
       = sampled (trace w) ++ next_samples w (Z.to_nat NUM_CALIBRATION_READINGS)
    /\ r0 w' = mean (map (fun s => resistance s / AIR_R0_RATIO)
                       (next_samples w (Z.to_nat NUM_CALIBRATION_READINGS)))
    /\ displayed (trace w')
       = displayed (trace w) ++ [Lit "Calibrating..."; Lit "Calibration done"]
    /\ clock w' = (clock w + 3000)%Z
    /\ readings w' = readings w /\ state w' = state w.
Proof.
  intros Hnz. exists (calibrate_post w).
  split; [apply calibrate_ok; now apply not_In_next_samples |].
  destruct (calibrate_post_fields w) as (_ & _ & _ & F4 & _ & F6 & F7 & F8 & _ & F10).
  cbv zeta in F4, F6, F7, F8, F10.
  rewrite F4, F6, F7, F8, F10, mean_ratioed.
  rewrite !sampled_app, !displayed_app, calibrate_events_sampled,
    calibrate_events_displayed.
  repeat split; reflexivity.
Qed.

Lemma calibrate_averages_ten_samples_witness :
  exists w',
    calibrate (boot steady held_forever 5000) = Ok tt w'
    /\ sampled (trace w') = repeat 2000%Z 10
    /\ r0 w' = mean (map (fun s => resistance s / AIR_R0_RATIO) (repeat 2000%Z 10))
    /\ displayed (trace w') = [Lit "Calibrating..."; Lit "Calibration done"]
    /\ clock w' = 8000%Z
    /\ readings w' = [] /\ state w' = OFF.
Proof.
  apply (calibrate_averages_ten_samples (boot steady held_forever 5000)).
  change (next_samples _ _) with (repeat 2000%Z 10).
  intros H. apply repeat_spec in H. discriminate.
Defined.

(** ** A reading that is due, and a sample at full scale *)



(** X19: a sample at the top of the ADC's range is a domain error: at the
    sample 4095 the resistance is 0, so with r0 not 0
    [read_raw_value_of_alcohol] raises the ValueError of [math.pow] on a
    zero base and a negative exponent, after the sample has been read;
    [get_smoothed_reading] raises it too, and the window is as before. *)
Theorem full_scale_sample_is_a_domain_error w :
  next_sample w = 4095%Z -> r0 w <> 0 ->
  read_raw_value_of_alcohol w = Fault ValueError (readW w)
  /\ get_smoothed_reading w = Fault ValueError (readW w)
  /\ readings (readW w) = readings w.
Proof.
  intros Hs Hr.
  assert (Hraw : read_raw_value_of_alcohol w = Fault ValueError (readW w)).
  { unfold read_raw_value_of_alcohol.
    erewrite bind_ok by (apply calculate_rs_ok; rewrite Hs; discriminate).
    rewrite Hs, resistance_4095.
    apply alcohol_of_rs_domain; [exact Hr |].
    unfold Rdiv. rewrite Rmult_0_l. lra. }
  split; [exact Hraw |]. split; [| reflexivity].
  unfold get_smoothed_reading. now apply bind_fault.
Qed.

Lemma full_scale_sample_is_a_domain_error_witness :
  let w := test_sensor [4095]%Z 1000 in
  read_raw_value_of_alcohol w = Fault ValueError (readW w)
  /\ get_smoothed_reading w = Fault ValueError (readW w)
  /\ readings (readW w) = readings w.
Proof.
  apply (full_scale_sample_is_a_domain_error (test_sensor [4095]%Z 1000)).
  - reflexivity.
  - cbn. lra.
Defined.
